(** * E-commerce catalog and order API: pricing pipeline, queries, pagination

    A shallow embedding of the order-creation pipeline
    ([services/order_service.py], [utils/helpers.py]), the catalog
    existence check and product query builder
    ([services/product_service.py]), the order read adapter
    ([models/order_v2.py]) and the three pagination-metadata builders
    ([schemas/pagination.py], [schemas/common_v2.py],
    [utils/pagination.py]).

    Conventions.
    - A Python dict used as a document is a record of optional fields:
      [None] is an absent key, [Some v] a key holding a value of the
      field's type.  Where the code distinguishes a key that holds
      Python's [None] from an absent key, the field is doubly optional.
    - Code that raises returns a [result]; code that writes to a
      collection takes the collection and returns the new one.
    - Python floats are kept abstract behind the classes [FloatOps] and
      [FloatDivision]: the theorems hold for every interpretation of
      the operations, IEEE doubles included.  Integers are unbounded,
      as Python's are; where an int is turned into a float the
      [OverflowError] of an int too large for one is part of the
      model. *)

From Stdlib Require Import List String Ascii ZArith Bool Lia.
Import ListNotations.
Local Open Scope string_scope.
Local Open Scope Z_scope.

Set Implicit Arguments.

(** ** Python exceptions and results *)

Inductive exn : Type :=
| HTTPException (status_code : Z) (detail : string)
| ZeroDivisionError
| KeyError (key : string)
| DuplicateKeyError
| AttributeError
| OverflowError.

Inductive result (A : Type) : Type :=
| Ok (a : A)
| Raise (e : exn).
Arguments Ok {A} a.
Arguments Raise {A} e.

Definition bind {A B : Type} (r : result A) (k : A -> result B) : result B :=
  match r with
  | Ok a => k a
  | Raise e => Raise e
  end.

Declare Scope py_scope.
Delimit Scope py_scope with py.
Notation "x <- c ;; k" := (bind c (fun x => k))
  (at level 61, c at next level, right associativity) : py_scope.

(** [value if value is not None else default], as [dict.get(key, default)]
    reads an optional field. *)
Definition get_default {A : Type} (field : option A) (default : A) : A :=
  match field with
  | Some v => v
  | None => default
  end.

(** Truthiness of an optional string: [None] and [""] are falsy. *)
Definition truthy_str (s : option string) : bool :=
  match s with
  | Some EmptyString => false
  | Some _ => true
  | None => false
  end.

(** ** Dicts keyed by strings, in insertion order *)

Section Dict.
Variable V : Type.

Definition dict : Type := list (string * V).

Fixpoint dict_get (k : string) (d : dict) : option V :=
  match d with
  | [] => None
  | (k', v) :: rest => if String.eqb k k' then Some v else dict_get k rest
  end.

(** [d[k] = v]: an existing key keeps its position and takes the new
    value, a new key goes last. *)
Fixpoint dict_set (k : string) (v : V) (d : dict) : dict :=
  match d with
  | [] => [(k, v)]
  | (k', v') :: rest =>
      if String.eqb k k' then (k, v) :: rest
      else (k', v') :: dict_set k v rest
  end.

Definition dict_keys (d : dict) : list string := map fst d.
End Dict.

(** ** Floats *)

(** The float operations the code uses.  [f_round2 x] is [round(x, 2)],
    [f_of_int n] is the float nearest to the integer [n], [f_leb] is
    [<=]. *)
Class FloatOps (F : Type) : Type := {
  f_zero : F;
  f_add : F -> F -> F;
  f_mul : F -> F -> F;
  f_round2 : F -> F;
  f_of_int : Z -> F;
  f_leb : F -> F -> bool
}.

(** An [int] has a float only below this magnitude, the midpoint between
    the largest double and [2 ** 1024]: from there on the conversion
    raises [OverflowError]. *)
Definition int_too_large : Z := 2 ^ 1024 - 2 ^ 970.

Definition fits_float (n : Z) : bool := Z.abs n <? int_too_large.

(** The integers a stored document can hold: 8 bytes, signed. *)
Definition fits_int64 (n : Z) : bool := (- 2 ^ 63 <=? n) && (n <? 2 ^ 63).

(** [float(n)] *)
Definition float_of_int {F : Type} {FO : FloatOps F} (n : Z) : result F :=
  if fits_float n then Ok (f_of_int n) else Raise OverflowError.

(** [x * n] for a float [x] and an int [n]: [n] is converted first. *)
Definition float_mul_int {F : Type} {FO : FloatOps F} (x : F) (n : Z) : result F :=
  (y <- float_of_int n ;; Ok (f_mul x y))%py.

(** True division of two ints and [math.ceil] of the float it gives.
    [f_true_div a b] is [a / b] for a divisor other than zero, [None]
    where the quotient is too large for a float ([OverflowError]). *)
Class FloatDivision (F : Type) : Type := {
  f_true_div : Z -> Z -> option F;
  f_ceil : F -> Z
}.

(** [a / b] on ints. *)
Definition true_div {F : Type} {FD : FloatDivision F} (a b : Z) : result F :=
  if b =? 0 then Raise ZeroDivisionError
  else match f_true_div a b with
       | Some q => Ok q
       | None => Raise OverflowError
       end.

(** An instance on which the model runs: decimal fixed point, a value
    being a number of hundredths. *)
Module Cents.
Definition t : Type := Z.
Definition mul (a b : t) : t := (a * b) / 100.
#[global] Instance ops : FloatOps t := {|
  f_zero := 0;
  f_add := Z.add;
  f_mul := mul;
  f_round2 := fun x => x;
  f_of_int := fun n => n * 100;
  f_leb := Z.leb
|}.
End Cents.

(** ** bson.ObjectId *)

Module Bson.
(** The driver's identifier type.  [ObjectId(s)] takes a string of 24
    characters and reads it with [bytes.fromhex]: pairs of hexadecimal
    digits, upper or lower case, with ASCII whitespace skipped before a
    pair and at the end; anything else raises.  The identifier is the
    bytes read, so a string with whitespace gives fewer than 12 bytes.
    [str] prints the bytes in lower-case hexadecimal, and an identifier
    is represented by this printed form. *)

Definition is_digit (c : ascii) : bool :=
  let n := nat_of_ascii c in (48 <=? n)%nat && (n <=? 57)%nat.
Definition is_lower_hex (c : ascii) : bool :=
  let n := nat_of_ascii c in (97 <=? n)%nat && (n <=? 102)%nat.
Definition is_upper_hex (c : ascii) : bool :=
  let n := nat_of_ascii c in (65 <=? n)%nat && (n <=? 70)%nat.
Definition is_hex (c : ascii) : bool :=
  is_digit c || is_lower_hex c || is_upper_hex c.

Definition lower (c : ascii) : ascii :=
  if is_upper_hex c then ascii_of_nat (nat_of_ascii c + 32) else c.

Fixpoint all_chars (p : ascii -> bool) (s : string) : bool :=
  match s with
  | EmptyString => true
  | String c rest => p c && all_chars p rest
  end.

Fixpoint map_chars (f : ascii -> ascii) (s : string) : string :=
  match s with
  | EmptyString => EmptyString
  | String c rest => String (f c) (map_chars f rest)
  end.

Record ObjectId : Type := mkObjectId { hex : string }.

(** ASCII whitespace: tab, line feed, vertical tab, form feed, carriage
    return and space. *)
Definition is_space (c : ascii) : bool :=
  let n := nat_of_ascii c in ((9 <=? n)%nat && (n <=? 13)%nat) || (n =? 32)%nat.

(** [bytes.fromhex(s)], the bytes printed in lower-case hexadecimal;
    [None] stands for the [ValueError] it raises. *)
Fixpoint fromhex (s : string) : option string :=
  match s with
  | EmptyString => Some EmptyString
  | String c rest =>
      if is_space c then fromhex rest
      else match rest with
           | EmptyString => None
           | String d rest' =>
               if is_hex c && is_hex d
               then match fromhex rest' with
                    | Some bytes => Some (String (lower c) (String (lower d) bytes))
                    | None => None
                    end
               else None
           end
  end.

(** [ObjectId(s)]; [None] stands for the [InvalidId] it raises. *)
Definition of_str (s : string) : option ObjectId :=
  if (String.length s =? 24)%nat
  then match fromhex s with
       | Some bytes => Some (mkObjectId bytes)
       | None => None
       end
  else None.

(** [str(oid)] *)
Definition str (o : ObjectId) : string := hex o.

(** [ObjectId.is_valid(s)] *)
Definition is_valid (s : string) : bool :=
  match of_str s with Some _ => true | None => false end.

Definition eqb (a b : ObjectId) : bool := String.eqb (hex a) (hex b).

(** The identifiers the store generates: 12 bytes, printed as 24
    lower-case hexadecimal digits. *)
Definition wf (o : ObjectId) : bool :=
  (String.length (hex o) =? 24)%nat
  && all_chars (fun c => is_digit c || is_lower_hex c) (hex o).
End Bson.

(** ** Pagination metadata *)

Definition floordiv (a b : Z) : result Z :=
  if b =? 0 then Raise ZeroDivisionError else Ok (a / b).

Record PaginationParams : Type := {
  page : Z;
  page_size : Z
}.

(** The constraints of the request schema: [page >= 1],
    [1 <= page_size <= 100]. *)
Definition valid_params (p : PaginationParams) : Prop :=
  1 <= page p /\ 1 <= page_size p <= 100.

Definition skip (p : PaginationParams) : Z := (page p - 1) * page_size p.
Definition limit (p : PaginationParams) : Z := page_size p.

Record PaginationMeta : Type := {
  meta_page : Z;
  meta_page_size : Z;
  total_items : Z;
  total_pages : Z;
  has_previous : bool;
  has_next : bool
}.

(** [schemas/pagination.py], the module both services import. *)
Module SchemasPagination.
Definition create (params : PaginationParams) (n : Z) : result PaginationMeta :=
  (pages <- (if n >? 0
             then floordiv (n + page_size params - 1) (page_size params)
             else Ok 1) ;;
   Ok {| meta_page := page params;
         meta_page_size := page_size params;
         total_items := n;
         total_pages := pages;
         has_previous := page params >? 1;
         has_next := page params <? pages |})%py.
End SchemasPagination.

(** [schemas/common_v2.py]. *)
Module SchemasCommonV2.
Definition create (params : PaginationParams) (n : Z) : result PaginationMeta :=
  (pages <- (if n >? 0
             then floordiv (n + page_size params - 1) (page_size params)
             else Ok 0) ;;
   Ok {| meta_page := page params;
         meta_page_size := page_size params;
         total_items := n;
         total_pages := pages;
         has_previous := page params >? 1;
         has_next := page params <? pages |})%py.
End SchemasCommonV2.

(** [utils/pagination.py]: [Paginator], which clamps its arguments. *)
Module Paginator.
Definition init (pg sz : Z) : PaginationParams :=
  {| page := Z.max 1 pg; page_size := Z.min (Z.max 1 sz) 100 |}.

(** [ceil(a / b)]: true division, which gives a float, followed by
    [math.ceil]. *)
Definition ceil_div {F : Type} {FD : FloatDivision F} (a b : Z) : result Z :=
  (q <- true_div a b ;; Ok (f_ceil q))%py.

Definition get_pagination_metadata {F : Type} {FD : FloatDivision F}
  (self : PaginationParams) (n : Z) : result PaginationMeta :=
  (pages <- (if n >? 0 then ceil_div n (page_size self) else Ok 0) ;;
   Ok {| meta_page := page self;
         meta_page_size := page_size self;
         total_items := n;
         total_pages := pages;
         has_previous := page self >? 1;
         has_next := page self <? pages |})%py.
End Paginator.

(** ** Documents *)

(** A [datetime]; [isoformat t] stands for the string [t.isoformat()]. *)
Definition datetime : Type := Z.
Inductive iso_string : Type := isoformat (t : datetime).

(** Order and payment statuses ([models/order_v2.py]); both enums
    subclass [str], a member is stored as its value. *)
Inductive OrderStatus : Type := PENDING | PROCESSING | SHIPPED | DELIVERED | CANCELLED.
Inductive PaymentStatus : Type := PAY_PENDING | PAID | FAILED | REFUNDED.

Definition order_status_value (s : OrderStatus) : string :=
  match s with
  | PENDING => "pending"
  | PROCESSING => "processing"
  | SHIPPED => "shipped"
  | DELIVERED => "delivered"
  | CANCELLED => "cancelled"
  end.

Definition payment_status_value (s : PaymentStatus) : string :=
  match s with
  | PAY_PENDING => "pending"
  | PAID => "paid"
  | FAILED => "failed"
  | REFUNDED => "refunded"
  end.

Record size_entry : Type := {
  size_label : string;   (* "size" *)
  stock : Z
}.

Section Documents.
Context {F : Type}.

(** A product document of the [products] collection. *)
Record product : Type := {
  product_oid : Bson.ObjectId;        (* "_id" *)
  p_name : option string;
  p_description : option string;
  p_price : option F;
  p_category : option string;
  p_brand : option string;
  p_tags : list string;
  p_sizes : list size_entry;
  p_created_at : option datetime;
  p_updated_at : option datetime
}.

(** A line item: the three requested fields, the three the pipeline
    fills in, and the two legacy fields the read adapter falls back
    to. *)
Record item : Type := {
  i_product_id : option string;
  i_size : option string;
  i_quantity : option Z;
  i_product_name : option string;
  i_price : option F;
  i_subtotal : option F;
  i_name : option string;
  i_unit_price : option F
}.

(** The value under ["items"] in a request: a list of items, or
    something that is not a list. *)
Inductive items_value : Type :=
| NotAList
| ItemList (l : list item).

(** An order dict; [I] is the type of the value under ["items"]. *)
Record order_dict (I : Type) : Type := {
  o_user_id : option (option string);   (* [Some None]: the key holds None *)
  o_items : option I;
  o_shipping_address : option (list (string * string));
  o_notes : option string;
  o_subtotal : option F;
  o_shipping_cost : option F;
  o_tax : option F;
  o_total : option F;
  o_order_status : option string;
  o_payment_status : option string;
  o_status : option string;             (* legacy name of order_status *)
  o_total_amount : option F;            (* legacy name of total *)
  o_tracking_number : option string;
  o_created_at : option datetime;
  o_updated_at : option (option datetime)
}.

(** What a caller passes to [create_order]. *)
Definition order_data : Type := order_dict items_value.

(** A document of the [orders] collection. *)
Record order_doc : Type := {
  order_oid : Bson.ObjectId;            (* "_id" *)
  order_fields : order_dict (list item)
}.

(** The record the order read path returns ([order_helper]). *)
Record order_out : Type := {
  out_id : string;
  out_user_id : option string;
  out_items : list item;
  out_shipping_address : list (string * string);
  out_order_status : string;
  out_payment_status : string;
  out_subtotal : F;
  out_shipping_cost : F;
  out_tax : F;
  out_total : F;
  out_tracking_number : option string;
  out_notes : option string;
  out_created_at : option iso_string;
  out_updated_at : option iso_string
}.

(** *** The query language of the document store

    The fragment the two services build.  A query is a dict; every
    entry must hold.  An entry is a condition on the field its key
    names, or, under ["$or"], a list of one-field alternatives. *)

Inductive leaf : Type :=
| LEq (v : string)                        (* {k: v} *)
| LRange (gte lte : option F)             (* {k: {"$gte": a, "$lte": b}} *)
| LRangeStr (gte lte : option string)     (* the same with string bounds *)
| LElemMatchStockGt0                      (* {"$elemMatch": {"stock": {"$gt": 0}}} *)
| LNotElemMatchStockGt0                   (* {"$not": {"$elemMatch": ...}} *)
| LSize (n : nat)                         (* {"$size": n} *)
| LRegexI (pattern : string)              (* {"$regex": p, "$options": "i"} *)
| LIn (vs : list string).                 (* {"$in": vs} *)

Inductive cond : Type :=
| Field (l : leaf)
| Or (alternatives : list (string * leaf)).

Definition query : Type := dict cond.

(** What a key resolves to in a document.  A dotted path through an
    array of sub-documents resolves to the list of the values found. *)
Inductive fieldval : Type :=
| VMissing
| VNull
| VStr (s : string)
| VNum (x : F)
| VDate (t : datetime)
| VStrs (l : list string)
| VSizes (l : list size_entry).

Definition opt_val {A : Type} (inj : A -> fieldval) (o : option A) : fieldval :=
  match o with
  | Some a => inj a
  | None => VMissing
  end.

Definition product_field (p : product) (key : string) : fieldval :=
  if String.eqb key "name" then opt_val VStr (p_name p)
  else if String.eqb key "description" then opt_val VStr (p_description p)
  else if String.eqb key "price" then opt_val VNum (p_price p)
  else if String.eqb key "category" then opt_val VStr (p_category p)
  else if String.eqb key "brand" then opt_val VStr (p_brand p)
  else if String.eqb key "tags" then VStrs (p_tags p)
  else if String.eqb key "sizes" then VSizes (p_sizes p)
  else if String.eqb key "sizes.size" then VStrs (map size_label (p_sizes p))
  else if String.eqb key "created_at" then opt_val VDate (p_created_at p)
  else if String.eqb key "updated_at" then opt_val VDate (p_updated_at p)
  else VMissing.

Definition order_field (o : order_doc) (key : string) : fieldval :=
  let d := order_fields o in
  if String.eqb key "user_id" then
    match o_user_id d with
    | Some (Some s) => VStr s
    | Some None => VNull
    | None => VMissing
    end
  else if String.eqb key "order_status" then opt_val VStr (o_order_status d)
  else if String.eqb key "payment_status" then opt_val VStr (o_payment_status d)
  else if String.eqb key "status" then opt_val VStr (o_status d)
  else if String.eqb key "subtotal" then opt_val VNum (o_subtotal d)
  else if String.eqb key "shipping_cost" then opt_val VNum (o_shipping_cost d)
  else if String.eqb key "tax" then opt_val VNum (o_tax d)
  else if String.eqb key "total" then opt_val VNum (o_total d)
  else if String.eqb key "total_amount" then opt_val VNum (o_total_amount d)
  else if String.eqb key "notes" then opt_val VStr (o_notes d)
  else if String.eqb key "tracking_number" then opt_val VStr (o_tracking_number d)
  else if String.eqb key "created_at" then opt_val VDate (o_created_at d)
  else if String.eqb key "updated_at" then
    match o_updated_at d with
    | Some (Some t) => VDate t
    | Some None => VNull
    | None => VMissing
    end
  else VMissing.
End Documents.

Arguments product : clear implicits.
Arguments item : clear implicits.
Arguments items_value : clear implicits.
Arguments order_dict : clear implicits.
Arguments order_data : clear implicits.
Arguments order_doc : clear implicits.
Arguments order_out : clear implicits.
Arguments leaf : clear implicits.
Arguments cond : clear implicits.
Arguments query : clear implicits.
Arguments fieldval : clear implicits.

(** The store's regular-expression search with option [i]
    ([regex_search_i pattern text]), left to the store. *)
Class Regex : Type := {
  regex_search_i : string -> string -> bool
}.

Section QuerySemantics.
Context {F : Type} {FO : FloatOps F} {RX : Regex}.

Definition in_range (gte lte : option F) (x : F) : bool :=
  match gte with Some a => f_leb a x | None => true end
  && match lte with Some b => f_leb x b | None => true end.

Definition in_range_str (gte lte : option string) (s : string) : bool :=
  match gte with Some a => String.leb a s | None => true end
  && match lte with Some b => String.leb s b | None => true end.

Definition some_in_stock (sizes : list size_entry) : bool :=
  existsb (fun e => stock e >? 0) sizes.

(** Comparisons hold only between values of one type; equality and
    [$regex] on an array hold when some element satisfies them. *)
Definition leaf_matches (l : leaf F) (v : fieldval F) : bool :=
  match l, v with
  | LEq x, VStr s => String.eqb s x
  | LEq x, VStrs ss => existsb (fun s => String.eqb s x) ss
  | LRange gte lte, VNum x => in_range gte lte x
  | LRangeStr gte lte, VStr s => in_range_str gte lte s
  | LElemMatchStockGt0, VSizes sizes => some_in_stock sizes
  | LNotElemMatchStockGt0, VSizes sizes => negb (some_in_stock sizes)
  | LNotElemMatchStockGt0, _ => true
  | LSize n, VSizes sizes => (List.length sizes =? n)%nat
  | LSize n, VStrs ss => (List.length ss =? n)%nat
  | LRegexI p, VStr s => regex_search_i p s
  | LRegexI p, VStrs ss => existsb (regex_search_i p) ss
  | LIn vs, VStr s => existsb (String.eqb s) vs
  | LIn vs, VStrs ss => existsb (fun s => existsb (String.eqb s) vs) ss
  | _, _ => false
  end.

Definition cond_matches (view : string -> fieldval F) (entry : string * cond F) : bool :=
  match snd entry with
  | Field l => leaf_matches l (view (fst entry))
  | Or alternatives =>
      existsb (fun alt => leaf_matches (snd alt) (view (fst alt))) alternatives
  end.

Definition query_matches (view : string -> fieldval F) (q : query F) : bool :=
  forallb (cond_matches view) q.

(** [collection.find(q)] and [collection.count_documents(q)]. *)
Definition find_products (q : query F) (products : list (product F)) : list (product F) :=
  filter (fun p => query_matches (product_field p) q) products.

Definition find_orders (q : query F) (orders : list (order_doc F)) : list (order_doc F) :=
  filter (fun o => query_matches (order_field o) q) orders.

(** [cursor.skip(s).limit(n)]; a limit of 0 is no limit. *)
Definition window {A : Type} (s n : Z) (l : list A) : list A :=
  let rest := List.skipn (Z.to_nat s) l in
  if n =? 0 then rest else List.firstn (Z.to_nat n) rest.
End QuerySemantics.

(** ** Sorting a cursor *)

Section Sorting.
Context {F : Type} {FO : FloatOps F}.

(** The store's order between values of different types, coarsened:
    null and missing first, then numbers, strings, arrays and dates;
    arrays compare equal among themselves. *)
Definition type_rank (v : fieldval F) : Z :=
  match v with
  | VMissing | VNull => 0
  | VNum _ => 1
  | VStr _ => 2
  | VStrs _ | VSizes _ => 3
  | VDate _ => 4
  end.

Definition fieldval_leb (a b : fieldval F) : bool :=
  match a, b with
  | VNum x, VNum y => f_leb x y
  | VStr x, VStr y => String.leb x y
  | VDate x, VDate y => x <=? y
  | _, _ => type_rank a <=? type_rank b
  end.

Section ByKey.
Variable A : Type.
Variable view : A -> string -> fieldval F.
Variable key : string.
Variable direction : Z.

Definition before (a b : A) : bool :=
  if direction <? 0
  then fieldval_leb (view b key) (view a key)
  else fieldval_leb (view a key) (view b key).

Fixpoint insert_sorted (a : A) (l : list A) : list A :=
  match l with
  | [] => [a]
  | b :: rest => if before a b then a :: l else b :: insert_sorted a rest
  end.

(** [cursor.sort(key, direction)] *)
Definition sort_cursor (l : list A) : list A :=
  fold_right insert_sorted [] l.
End ByKey.
End Sorting.

(** ** [services/product_service.py] *)

Section ProductService.
Context {F : Type} {FO : FloatOps F} {RX : Regex}.

Record ProductFilter : Type := {
  pf_category : option string;
  pf_brand : option string;
  pf_min_price : option F;
  pf_max_price : option F;
  pf_size : option string;
  pf_in_stock : option bool;
  pf_search : option string;
  pf_sort_by : option string;
  pf_sort_order : option string
}.

(** [q.setdefault(key, {})["$gte"] = v] and the same for ["$lte"]. *)
Definition range_of (key : string) (q : query F) : option F * option F :=
  match dict_get key q with
  | Some (Field (LRange g l)) => (g, l)
  | _ => (None, None)
  end.

Definition set_gte (key : string) (v : F) (q : query F) : query F :=
  dict_set key (Field (LRange (Some v) (snd (range_of key q)))) q.

Definition set_lte (key : string) (v : F) (q : query F) : query F :=
  dict_set key (Field (LRange (fst (range_of key q)) (Some v))) q.

Definition search_alternatives (s : string) : list (string * leaf F) :=
  [ ("name", LRegexI s); ("description", LRegexI s); ("tags", LIn [s]) ].

Definition out_of_stock_alternatives : list (string * leaf F) :=
  [ ("sizes", LSize 0); ("sizes", LNotElemMatchStockGt0) ].

(** The [query_filter] that [list_products] builds, statement by
    statement. *)
Definition list_products_query (fp : ProductFilter) : query F :=
  let q : query F := [] in
  let q := if truthy_str (pf_category fp)
           then dict_set "category" (Field (LEq (get_default (pf_category fp) ""))) q
           else q in
  let q := if truthy_str (pf_brand fp)
           then dict_set "brand" (Field (LEq (get_default (pf_brand fp) ""))) q
           else q in
  let q := match pf_min_price fp with
           | Some v => set_gte "price" v q
           | None => q
           end in
  let q := match pf_max_price fp with
           | Some v => set_lte "price" v q
           | None => q
           end in
  let q := if truthy_str (pf_size fp)
           then dict_set "sizes.size" (Field (LEq (get_default (pf_size fp) ""))) q
           else q in
  let q := match pf_in_stock fp with
           | Some true => dict_set "sizes" (Field LElemMatchStockGt0) q
           | Some false => dict_set "$or" (Or out_of_stock_alternatives) q
           | None => q
           end in
  let q := if truthy_str (pf_search fp)
           then dict_set "$or" (Or (search_alternatives (get_default (pf_search fp) ""))) q
           else q in
  q.

Definition sort_options (fp : ProductFilter) : string * Z :=
  if truthy_str (pf_sort_by fp)
  then (get_default (pf_sort_by fp) "",
        if match pf_sort_order fp with
           | Some o => String.eqb o "desc"
           | None => false
           end
        then -1 else 1)
  else ("created_at", -1).

(** A listed product: ["_id"] popped into ["id"], the timestamps
    printed. *)
Record product_out : Type := {
  po_id : string;
  po_fields : product F;
  po_created_at : iso_string;
  po_updated_at : option iso_string
}.

Definition list_product (p : product F) : result product_out :=
  match p_created_at p with
  | None => Raise (KeyError "created_at")
  | Some t =>
      Ok {| po_id := Bson.str (product_oid p);
            po_fields := p;
            po_created_at := isoformat t;
            po_updated_at := option_map isoformat (p_updated_at p) |}
  end.

Fixpoint map_result {A B : Type} (f : A -> result B) (l : list A) : result (list B) :=
  match l with
  | [] => Ok []
  | a :: rest =>
      (b <- f a ;; bs <- map_result f rest ;; Ok (b :: bs))%py
  end.

Definition list_products (products : list (product F))
           (pagination : PaginationParams) (fp : ProductFilter)
  : result (list product_out * PaginationMeta) :=
  let query_filter := list_products_query fp in
  let count := Z.of_nat (List.length (find_products query_filter products)) in
  let cursor :=
    window (skip pagination) (limit pagination)
      (sort_cursor (@product_field F) (fst (sort_options fp)) (snd (sort_options fp))
         (find_products query_filter products)) in
  (items <- map_result list_product cursor ;;
   meta <- SchemasPagination.create pagination count ;;
   Ok (items, meta))%py.

(** [check_products_exist]: ids that do not parse are skipped, the
    store is asked for the ids that do, at most as many records as
    ids asked for are read; what was requested and is not the printed
    id of a record read is missing. *)
Definition valid_object_ids (product_ids : list string) : list Bson.ObjectId :=
  flat_map (fun pid => match Bson.of_str pid with
                       | Some o => [o]
                       | None => []
                       end) product_ids.

Definition id_in (ids : list Bson.ObjectId) (p : product F) : bool :=
  existsb (Bson.eqb (product_oid p)) ids.

Definition check_products_exist (products : list (product F)) (product_ids : list string)
  : list (product F) * list string :=
  let ids := valid_object_ids product_ids in
  let found_products := List.firstn (List.length ids) (filter (id_in ids) products) in
  let found_ids := map (fun p => Bson.str (product_oid p)) found_products in
  let missing_ids :=
    filter (fun pid => negb (existsb (String.eqb pid) found_ids)) product_ids in
  (found_products, missing_ids).

(** The filter [fp] with [in_stock] not supplied. *)
Definition without_in_stock (fp : ProductFilter) : ProductFilter :=
  {| pf_category := pf_category fp;
     pf_brand := pf_brand fp;
     pf_min_price := pf_min_price fp;
     pf_max_price := pf_max_price fp;
     pf_size := pf_size fp;
     pf_in_stock := None;
     pf_search := pf_search fp;
     pf_sort_by := pf_sort_by fp;
     pf_sort_order := pf_sort_order fp |}.

(** The store's invariant on the [products] collection: identifiers
    are generated by the store and unique. *)
Definition oid_in (ids : list Bson.ObjectId) (o : Bson.ObjectId) : bool :=
  existsb (Bson.eqb o) ids.

Fixpoint distinct (ids : list Bson.ObjectId) : bool :=
  match ids with
  | [] => true
  | o :: rest => negb (oid_in rest o) && distinct rest
  end.

Definition catalog_ok (products : list (product F)) : bool :=
  forallb (fun p => Bson.wf (product_oid p)) products
  && distinct (map product_oid products).

(** A requested id is in the catalog when it is the printed id of a
    record. *)
Definition in_catalog (products : list (product F)) (pid : string) : bool :=
  existsb (fun p => String.eqb (Bson.str (product_oid p)) pid) products.
End ProductService.

Arguments ProductFilter : clear implicits.
Arguments product_out : clear implicits.
Arguments check_products_exist : simpl never.

(** ** [models/order_v2.py]: the order read adapter *)

Section OrderModel.
Context {F : Type} {FO : FloatOps F}.

(** What [order_helper] makes of a stored item.  The quantity it reads
    is an integer of a stored document, 8 bytes at most, which has a
    float. *)
Definition process_item (it : item F) : item F :=
  let product_name :=
    match i_product_name it with
    | Some n => n
    | None => get_default (i_name it) "Unknown Product"
    end in
  let price :=
    match i_price it with
    | Some p => p
    | None => get_default (i_unit_price it) (f_of_int 0)
    end in
  let subtotal :=
    match i_subtotal it with
    | Some s => s
    | None => f_round2 (f_mul (f_of_int (get_default (i_quantity it) 1)) price)
    end in
  {| i_product_id := i_product_id it;
     i_size := i_size it;
     i_quantity := i_quantity it;
     i_product_name := Some product_name;
     i_price := Some price;
     i_subtotal := Some subtotal;
     i_name := i_name it;
     i_unit_price := i_unit_price it |}.

Definition order_helper (order : order_doc F) : order_out F :=
  let d := order_fields order in
  let order_status :=
    match o_order_status d with
    | Some s => s
    | None => get_default (o_status d) "pending"
    end in
  {| out_id := Bson.str (order_oid order);
     out_user_id := match o_user_id d with Some (Some u) => Some u | _ => None end;
     out_items := map process_item (get_default (o_items d) []);
     out_shipping_address := get_default (o_shipping_address d) [];
     out_order_status := order_status;
     out_payment_status := get_default (o_payment_status d) "pending";
     out_subtotal := get_default (o_subtotal d) f_zero;
     out_shipping_cost := get_default (o_shipping_cost d) f_zero;
     out_tax := get_default (o_tax d) f_zero;
     out_total := get_default (o_total d) (get_default (o_total_amount d) f_zero);
     out_tracking_number := o_tracking_number d;
     out_notes := o_notes d;
     out_created_at := option_map isoformat (o_created_at d);
     out_updated_at := match o_updated_at d with
                       | Some (Some t) => Some (isoformat t)
                       | _ => None
                       end |}.
End OrderModel.

(** ** [utils/helpers.py] *)

Section Helpers.
Context {F : Type}.

Definition convert_objectid (object_id : string) : result Bson.ObjectId :=
  match Bson.of_str object_id with
  | Some o => Ok o
  | None => Raise (HTTPException 400 "Invalid ObjectId")
  end.

(** Replaces the value under ["items"], every other key kept. *)
Definition with_items {I J : Type} (d : order_dict F I) (v : option J) : order_dict F J :=
  {| o_user_id := o_user_id d;
     o_items := v;
     o_shipping_address := o_shipping_address d;
     o_notes := o_notes d;
     o_subtotal := o_subtotal d;
     o_shipping_cost := o_shipping_cost d;
     o_tax := o_tax d;
     o_total := o_total d;
     o_order_status := o_order_status d;
     o_payment_status := o_payment_status d;
     o_status := o_status d;
     o_total_amount := o_total_amount d;
     o_tracking_number := o_tracking_number d;
     o_created_at := o_created_at d;
     o_updated_at := o_updated_at d |}.

Definition has_required_keys (it : item F) : bool :=
  match i_product_id it, i_quantity it, i_size it with
  | Some _, Some _, Some _ => true
  | _, _, _ => false
  end.

(** [ValidationHelper.validate_order_data]: returns the dict it was
    given, whose ["items"] is now known to be a list. *)
Definition validate_order_data (data : order_data F)
  : result (order_dict F (list (item F))) :=
  if negb (truthy_str (match o_user_id data with
                       | Some u => u
                       | None => None
                       end))
  then Raise (HTTPException 400 "Missing user_id in order")
  else
    match o_items data with
    | Some (ItemList (first :: others)) =>
        if forallb has_required_keys (first :: others)
        then Ok (with_items data (Some (first :: others)))
        else Raise (HTTPException 400
                      "Each item must have product_id, quantity, and size")
    | _ => Raise (HTTPException 400 "Empty or invalid items in order")
    end.
End Helpers.

(** ** [services/order_service.py] *)

Section OrderService.
Context {F : Type} {FO : FloatOps F} {RX : Regex}.

Definition internal_server_error : exn :=
  HTTPException 500 "Internal server error".

(** [except HTTPException: raise] followed by
    [except Exception: raise HTTPException(500, ...)]. *)
Definition reraise_http {A : Type} (r : result A) : result A :=
  match r with
  | Ok a => Ok a
  | Raise (HTTPException c d) => Raise (HTTPException c d)
  | Raise _ => Raise internal_server_error
  end.

(** [except Exception: raise HTTPException(500, ...)] alone:
    [HTTPException] is an [Exception] and is caught as well. *)
Definition catch_all {A : Type} (r : result A) : result A :=
  match r with
  | Ok a => Ok a
  | Raise _ => Raise internal_server_error
  end.

(** [d[key]] on a key that may be absent. *)
Definition getitem {A : Type} (key : string) (field : option A) : result A :=
  match field with
  | Some v => Ok v
  | None => Raise (KeyError key)
  end.

(** [insert_one]: the driver assigns the fresh identifier [new_id];
    the unique index on ["_id"] refuses a duplicate. *)
Definition insert_one (new_id : Bson.ObjectId) (d : order_dict F (list (item F)))
           (orders : list (order_doc F)) : result (Bson.ObjectId * list (order_doc F)) :=
  if existsb (fun o => Bson.eqb (order_oid o) new_id) orders
  then Raise DuplicateKeyError
  else Ok (new_id, (orders ++ [ {| order_oid := new_id; order_fields := d |} ])%list).

(** [find_one({"_id": oid})] *)
Definition find_one (oid : Bson.ObjectId) (orders : list (order_doc F))
  : option (order_doc F) :=
  find (fun o => Bson.eqb (order_oid o) oid) orders.

(** [{str(p["_id"]): p for p in existing_products}] *)
Definition product_map_of (existing_products : list (product F)) : dict (product F) :=
  fold_left (fun m p => dict_set (Bson.str (product_oid p)) p m) existing_products [].

(** The enrichment loop: each item whose product is in the map gets
    its name, unit price and subtotal, and the running subtotal grows
    by the item's.  The product [price * quantity] is a float times an
    int, and raises [OverflowError] on a quantity that has no float. *)
Definition enrich_item (it : item F) (p : product F) (quantity : Z) : result (item F) :=
  (let price := get_default (p_price p) (f_of_int 0) in
   amount <- float_mul_int price quantity ;;
   Ok {| i_product_id := i_product_id it;
         i_size := i_size it;
         i_quantity := i_quantity it;
         i_product_name := Some (get_default (p_name p) "Unknown Product");
         i_price := Some price;
         i_subtotal := Some (f_round2 amount);
         i_name := i_name it;
         i_unit_price := i_unit_price it |})%py.

Fixpoint enrich_items (product_map : dict (product F)) (items : list (item F))
         (subtotal : F) : result (list (item F) * F) :=
  match items with
  | [] => Ok ([], subtotal)
  | it :: rest =>
      (pid <- getitem "product_id" (i_product_id it) ;;
       match dict_get pid product_map with
       | Some p =>
           quantity <- getitem "quantity" (i_quantity it) ;;
           it' <- enrich_item it p quantity ;;
           done <- enrich_items product_map rest
                     (f_add subtotal (get_default (i_subtotal it') f_zero)) ;;
           Ok (it' :: fst done, snd done)
       | None =>
           done <- enrich_items product_map rest subtotal ;;
           Ok (it :: fst done, snd done)
       end)%py
  end.

(** [create_order] after validation and up to the insert: product
    resolution, pricing, and the fields set on the dict. *)
Definition resolve_and_price (now : datetime) (products : list (product F))
           (validated_data : order_dict F (list (item F)))
  : result (order_dict F (list (item F))) :=
  (let items := get_default (o_items validated_data) [] in
   product_ids <- map_result (fun it => getitem "product_id" (i_product_id it)) items ;;
   let (existing_products, missing_ids) := check_products_exist products product_ids in
   match missing_ids with
   | _ :: _ =>
       Raise (HTTPException 404
                ("Products not found: " ++ String.concat ", " missing_ids))
   | [] =>
       let product_map := product_map_of existing_products in
       priced <- enrich_items product_map items f_zero ;;
       let subtotal := snd priced in
       let shipping_cost := get_default (o_shipping_cost validated_data) f_zero in
       let tax := get_default (o_tax validated_data) f_zero in
       Ok {| o_user_id := o_user_id validated_data;
             o_items := Some (fst priced);
             o_shipping_address := o_shipping_address validated_data;
             o_notes := o_notes validated_data;
             o_subtotal := Some subtotal;
             o_shipping_cost := Some shipping_cost;
             o_tax := Some tax;
             o_total := Some (f_round2 (f_add (f_add subtotal shipping_cost) tax));
             o_order_status := Some (order_status_value PENDING);
             o_payment_status := Some (payment_status_value PAY_PENDING);
             o_status := o_status validated_data;
             o_total_amount := o_total_amount validated_data;
             o_tracking_number := o_tracking_number validated_data;
             o_created_at := Some now;
             o_updated_at := Some None |}
   end)%py.

Definition priced_order (now : datetime) (products : list (product F))
           (data : order_data F) : result (order_dict F (list (item F))) :=
  (validated_data <- validate_order_data data ;;
   resolve_and_price now products validated_data)%py.

(** The insert and the read-back, under the handlers of
    [create_order]: an [HTTPException] passes, any other exception
    becomes a 500.  [new_id] is the identifier the driver draws. *)
Definition insert_and_read (new_id : Bson.ObjectId) (orders : list (order_doc F))
           (priced : result (order_dict F (list (item F))))
  : result (order_out F) * list (order_doc F) :=
  match priced with
  | Raise e => (reraise_http (Raise e), orders)
  | Ok validated_data =>
      match insert_one new_id validated_data orders with
      | Raise e => (reraise_http (Raise e), orders)
      | Ok (inserted_id, orders') =>
          match find_one inserted_id orders' with
          | Some created_order => (Ok (order_helper created_order), orders')
          | None => (reraise_http (Raise AttributeError), orders')
          end
      end
  end.

(** [create_order]: the result and the [orders] collection after the
    call; [now] is the clock. *)
Definition create_order (now : datetime) (new_id : Bson.ObjectId)
           (products : list (product F)) (orders : list (order_doc F))
           (data : order_data F) : result (order_out F) * list (order_doc F) :=
  insert_and_read new_id orders (priced_order now products data).

Record OrderFilter : Type := {
  of_user_id : option string;
  of_order_status : option OrderStatus;
  of_payment_status : option PaymentStatus;
  of_min_total : option F;
  of_max_total : option F;
  of_date_from : option string;
  of_date_to : option string
}.

(** The [query] that [list_orders] builds, statement by statement. *)
Definition list_orders_query (filters : OrderFilter) : query F :=
  let q : query F := [] in
  let q := if truthy_str (of_user_id filters)
           then dict_set "user_id" (Field (LEq (get_default (of_user_id filters) ""))) q
           else q in
  let q := match of_order_status filters with
           | Some s => dict_set "status" (Field (LEq (order_status_value s))) q
           | None => q
           end in
  let q := match of_payment_status filters with
           | Some s => dict_set "payment_status" (Field (LEq (payment_status_value s))) q
           | None => q
           end in
  let q := match of_min_total filters with
           | Some v => set_gte "total_amount" v q
           | None => q
           end in
  let q := match of_max_total filters with
           | Some v => set_lte "total_amount" v q
           | None => q
           end in
  let q := if truthy_str (of_date_from filters) || truthy_str (of_date_to filters)
           then dict_set "created_at"
                  (Field (LRangeStr
                            (if truthy_str (of_date_from filters)
                             then of_date_from filters else None)
                            (if truthy_str (of_date_to filters)
                             then of_date_to filters else None))) q
           else q in
  q.

Definition list_orders (orders : list (order_doc F))
           (pagination : PaginationParams) (filters : OrderFilter)
  : result (list (order_out F) * PaginationMeta) :=
  catch_all
    (let q := list_orders_query filters in
     let count := Z.of_nat (List.length (find_orders q orders)) in
     let cursor :=
       window (skip pagination) (limit pagination)
         (sort_cursor (@order_field F) "created_at" (-1) (find_orders q orders)) in
     meta <- SchemasPagination.create pagination count ;;
     Ok (map order_helper cursor, meta))%py.

Definition get_order_by_id (orders : list (order_doc F)) (order_id : string)
  : result (option (order_out F)) :=
  catch_all
    (object_id <- convert_objectid order_id ;;
     Ok (option_map order_helper (find_one object_id orders)))%py.

Definition valid_statuses : list string :=
  ["pending"; "processing"; "shipped"; "delivered"; "cancelled"].

(** [update_one({"_id": oid}, {"$set": {"status": s, "updated_at": now}})]:
    the first document with that id is rewritten; the count of
    modified documents is 1 when it was there and changed. *)
Definition set_status (status : string) (now : datetime)
           (d : order_dict F (list (item F))) : order_dict F (list (item F)) :=
  {| o_user_id := o_user_id d;
     o_items := o_items d;
     o_shipping_address := o_shipping_address d;
     o_notes := o_notes d;
     o_subtotal := o_subtotal d;
     o_shipping_cost := o_shipping_cost d;
     o_tax := o_tax d;
     o_total := o_total d;
     o_order_status := o_order_status d;
     o_payment_status := o_payment_status d;
     o_status := Some status;
     o_total_amount := o_total_amount d;
     o_tracking_number := o_tracking_number d;
     o_created_at := o_created_at d;
     o_updated_at := Some (Some now) |}.

Definition already_set (status : string) (now : datetime)
           (d : order_dict F (list (item F))) : bool :=
  match o_status d, o_updated_at d with
  | Some s, Some (Some t) => String.eqb s status && (t =? now)
  | _, _ => false
  end.

Fixpoint update_one_status (oid : Bson.ObjectId) (status : string) (now : datetime)
         (orders : list (order_doc F)) : Z * list (order_doc F) :=
  match orders with
  | [] => (0, [])
  | o :: rest =>
      if Bson.eqb (order_oid o) oid
      then ((if already_set status now (order_fields o) then 0 else 1),
            {| order_oid := order_oid o;
               order_fields := set_status status now (order_fields o) |} :: rest)
      else let (n, rest') := update_one_status oid status now rest in
           (n, o :: rest')
  end.

Definition update_order_status (now : datetime) (orders : list (order_doc F))
           (order_id : string) (status : string)
  : result bool * list (order_doc F) :=
  match convert_objectid order_id with
  | Raise e => (catch_all (Raise e), orders)
  | Ok object_id =>
      if negb (existsb (String.eqb status) valid_statuses)
      then (catch_all
              (Raise (HTTPException 400
                        ("Invalid status. Must be one of: "
                         ++ String.concat ", " valid_statuses))),
            orders)
      else let (modified_count, orders') :=
             update_one_status object_id status now orders in
           (Ok (modified_count >? 0), orders')
  end.

Definition delete_order (now : datetime) (orders : list (order_doc F))
           (order_id : string) : result bool * list (order_doc F) :=
  let (r, orders') := update_order_status now orders order_id "cancelled" in
  (catch_all r, orders').
End OrderService.

Arguments OrderFilter : clear implicits.

(** ** Vocabulary of the properties *)

Section Vocabulary.
Context {F : Type} {FO : FloatOps F}.

(** The items of a request, none when ["items"] is absent or not a
    list, and the product ids they ask for. *)
Definition items_of (data : order_data F) : list (item F) :=
  match o_items data with
  | Some (ItemList l) => l
  | _ => []
  end.

Definition requested_ids (data : order_data F) : list string :=
  map (fun it => get_default (i_product_id it) "") (items_of data).

(** The structural conditions of a create-order request. *)
Definition user_id_missing (data : order_data F) : bool :=
  match o_user_id data with
  | None => true                       (* absent *)
  | Some None => true                  (* None *)
  | Some (Some u) => String.eqb u ""   (* empty *)
  end.

Definition items_missing (data : order_data F) : bool :=
  match o_items data with
  | None => true                       (* absent *)
  | Some NotAList => true              (* not a list *)
  | Some (ItemList []) => true         (* empty *)
  | Some (ItemList (_ :: _)) => false
  end.

Definition item_incomplete (it : item F) : bool :=
  match i_product_id it with Some _ => false | None => true end
  || match i_size it with Some _ => false | None => true end
  || match i_quantity it with Some _ => false | None => true end.

Definition structurally_invalid (data : order_data F) : bool :=
  user_id_missing data || items_missing data
  || existsb item_incomplete (items_of data).

(** The conditions with the quantity check the request schema makes
    ([quantity > 0]) counted among them. *)
Definition quantity_not_positive (it : item F) : bool :=
  match i_quantity it with
  | Some q => q <=? 0
  | None => false
  end.

Definition structurally_invalid_or_quantity (data : order_data F) : bool :=
  structurally_invalid data || existsb quantity_not_positive (items_of data).

(** The message of the 400 a structurally invalid request gets. *)
Definition validation_detail (data : order_data F) : string :=
  if user_id_missing data then "Missing user_id in order"
  else if items_missing data then "Empty or invalid items in order"
  else "Each item must have product_id, quantity, and size".

(** The request as [validate_order_data] hands it on. *)
Definition validated (data : order_data F) : order_dict F (list (item F)) :=
  with_items data (Some (items_of data)).

(** [sub] occurs in [s]. *)
Definition occurs_in (sub s : string) : Prop :=
  exists before after, s = before ++ sub ++ after.

(** [sum] of the items' subtotals, from [0.0], left to right. *)
Definition item_subtotal (it : item F) : F := get_default (i_subtotal it) f_zero.

Definition sum_subtotals (items : list (item F)) : F :=
  fold_left f_add (map item_subtotal items) f_zero.

Definition fresh_id (orders : list (order_doc F)) (new_id : Bson.ObjectId) : bool :=
  negb (existsb (fun o => Bson.eqb (order_oid o) new_id) orders).

(** The item's quantity is an integer a document can hold. *)
Definition quantity_storable (it : item F) : bool :=
  match i_quantity it with
  | Some q => fits_int64 q
  | None => true
  end.

(** The unit price read from a catalog record: [float(p.get("price", 0))]. *)
Definition unit_price (p : product F) : F := get_default (p_price p) (f_of_int 0).

(** [priced] is the requested item [it] priced from the catalog: the
    request's product, size and quantity, with the name and unit price
    of the catalog record of that id and the rounded subtotal. *)
Definition priced_from (products : list (product F)) (it priced : item F) : Prop :=
  exists p quantity,
    In p products
    /\ i_product_id it = Some (Bson.str (product_oid p))
    /\ i_quantity it = Some quantity
    /\ i_product_id priced = i_product_id it
    /\ i_size priced = i_size it
    /\ i_quantity priced = Some quantity
    /\ i_product_name priced = Some (get_default (p_name p) "Unknown Product")
    /\ i_price priced = Some (unit_price p)
    /\ i_subtotal priced
       = Some (f_round2 (f_mul (unit_price p) (f_of_int quantity))).

(** The item as the enrichment loop leaves it. *)
Definition enriched (it : item F) (p : product F) (quantity : Z) : item F :=
  {| i_product_id := i_product_id it;
     i_size := i_size it;
     i_quantity := i_quantity it;
     i_product_name := Some (get_default (p_name p) "Unknown Product");
     i_price := Some (unit_price p);
     i_subtotal := Some (f_round2 (f_mul (unit_price p) (f_of_int quantity)));
     i_name := i_name it;
     i_unit_price := i_unit_price it |}.

(** The dict [create_order] inserts, given the priced items. *)
Definition priced_dict (now : datetime) (data : order_data F)
           (priced : list (item F)) : order_dict F (list (item F)) :=
  {| o_user_id := o_user_id data;
     o_items := Some priced;
     o_shipping_address := o_shipping_address data;
     o_notes := o_notes data;
     o_subtotal := Some (sum_subtotals priced);
     o_shipping_cost := Some (get_default (o_shipping_cost data) f_zero);
     o_tax := Some (get_default (o_tax data) f_zero);
     o_total :=
       Some (f_round2
               (f_add (f_add (sum_subtotals priced)
                         (get_default (o_shipping_cost data) f_zero))
                  (get_default (o_tax data) f_zero)));
     o_order_status := Some "pending";
     o_payment_status := Some "pending";
     o_status := o_status data;
     o_total_amount := o_total_amount data;
     o_tracking_number := o_tracking_number data;
     o_created_at := Some now;
     o_updated_at := Some None |}.
End Vocabulary.

(** The conditions a product filter asks for, one per filter field; a
    field that is not supplied asks for nothing. *)
Section ProductConditions.
Context {F : Type} {FO : FloatOps F} {RX : Regex}.

Definition equals_wanted (wanted actual : option string) : bool :=
  if truthy_str wanted
  then match actual with
       | Some a => String.eqb a (get_default wanted "")
       | None => false
       end
  else true.

(** [min_price <= price <= max_price], inclusive. *)
Definition price_holds (fp : ProductFilter F) (p : product F) : bool :=
  match pf_min_price fp, pf_max_price fp with
  | None, None => true
  | lo, hi =>
      match p_price p with
      | Some x => in_range lo hi x
      | None => false
      end
  end.

(** Some sizes-entry has this exact label. *)
Definition size_holds (fp : ProductFilter F) (p : product F) : bool :=
  if truthy_str (pf_size fp)
  then existsb (fun e => String.eqb (size_label e) (get_default (pf_size fp) ""))
         (p_sizes p)
  else true.

(** [in_stock = true]: some sizes-entry has stock above 0;
    [in_stock = false]: none has, the empty list included. *)
Definition stock_holds (fp : ProductFilter F) (p : product F) : bool :=
  match pf_in_stock fp with
  | Some true => some_in_stock (p_sizes p)
  | Some false => negb (some_in_stock (p_sizes p))
  | None => true
  end.

(** The search term is found in the name, or in the description, or
    is one of the tags. *)
Definition search_holds (fp : ProductFilter F) (p : product F) : bool :=
  if truthy_str (pf_search fp)
  then let s := get_default (pf_search fp) "" in
       match p_name p with Some n => regex_search_i s n | None => false end
       || match p_description p with Some d => regex_search_i s d | None => false end
       || existsb (String.eqb s) (p_tags p)
  else true.

(** All the supplied conditions together. *)
Definition product_satisfies (fp : ProductFilter F) (p : product F) : bool :=
  equals_wanted (pf_category fp) (p_category p)
  && equals_wanted (pf_brand fp) (p_brand p)
  && price_holds fp p
  && size_holds fp p
  && stock_holds fp p
  && search_holds fp p.
End ProductConditions.

(** ** A regular-expression instance for examples

    For a pattern without metacharacters, a case-insensitive search is
    a case-insensitive substring test. *)
Module SubstringSearch.
Definition fold_case (c : ascii) : ascii :=
  let n := nat_of_ascii c in
  if (65 <=? n)%nat && (n <=? 90)%nat then ascii_of_nat (n + 32) else c.

Fixpoint contains (pattern text : string) : bool :=
  String.prefix pattern text
  || match text with
     | EmptyString => false
     | String _ rest => contains pattern rest
     end.

#[global] Instance regex : Regex := {|
  regex_search_i := fun pattern text =>
    contains (Bson.map_chars fold_case pattern) (Bson.map_chars fold_case text)
|}.
End SubstringSearch.

(** ** A small catalog and some requests

    Prices in hundredths ([Cents]); the first product is the one of the
    scenario "P1 costs 29.99, two are ordered". *)
Module Scenario.
Import Cents SubstringSearch.

Definition oid (s : string) : Bson.ObjectId := Bson.mkObjectId s.

Definition shirt_id : string := "64b7f0a1c2d3e4f5a6b7c8d9".
Definition cap_id : string := "64b7f0a1c2d3e4f5a6b7c8da".
Definition absent_id : string := "64b7f0a1c2d3e4f5a6b7c8db".
Definition other_absent_id : string := "not-an-object-id".
Definition order_id : string := "64b7f0a1c2d3e4f5a6b7c8e0".

Definition shirt : product Cents.t :=
  {| product_oid := oid shirt_id;
     p_name := Some "Shirt";
     p_description := Some "A cotton shirt";
     p_price := Some 2999;
     p_category := Some "clothing";
     p_brand := Some "Acme";
     p_tags := ["cotton"];
     p_sizes := [ {| size_label := "M"; stock := 5 |} ];
     p_created_at := Some 1000;
     p_updated_at := Some 1000 |}.

Definition cap : product Cents.t :=
  {| product_oid := oid cap_id;
     p_name := Some "Cap";
     p_description := Some "A cap to go with the shirt";
     p_price := Some 1999;
     p_category := Some "clothing";
     p_brand := None;
     p_tags := [];
     p_sizes := [ {| size_label := "L"; stock := 0 |} ];
     p_created_at := Some 1001;
     p_updated_at := Some 1001 |}.

Definition catalog : list (product Cents.t) := [shirt; cap].

Definition line (pid size : string) (quantity : Z) : item Cents.t :=
  {| i_product_id := Some pid;
     i_size := Some size;
     i_quantity := Some quantity;
     i_product_name := None;
     i_price := None;
     i_subtotal := None;
     i_name := None;
     i_unit_price := None |}.

Definition address : list (string * string) :=
  [ ("full_name", "U One"); ("address_line1", "1 Main St"); ("city", "Town");
    ("state", "ST"); ("postal_code", "00001"); ("country", "XX") ].

(** A request as the route builds it, with the statuses a caller may
    add. *)
Definition request_with (items : list (item Cents.t))
           (order_status payment_status : option string) : order_data Cents.t :=
  {| o_user_id := Some (Some "u1");
     o_items := Some (ItemList items);
     o_shipping_address := Some address;
     o_notes := None;
     o_subtotal := None;
     o_shipping_cost := None;
     o_tax := None;
     o_total := None;
     o_order_status := order_status;
     o_payment_status := payment_status;
     o_status := None;
     o_total_amount := None;
     o_tracking_number := None;
     o_created_at := None;
     o_updated_at := None |}.

Definition request (items : list (item Cents.t)) : order_data Cents.t :=
  request_with items None None.

Definition two_shirts : order_data Cents.t := request [line shirt_id "M" 2].

Definition now : datetime := 2000.

(** The [orders] collection after [two_shirts] was ordered. *)
Definition orders_after : list (order_doc Cents.t) :=
  snd (create_order now (oid order_id) catalog [] two_shirts).

Definition first_page : PaginationParams := {| page := 1; page_size := 10 |}.

Definition no_order_filter : OrderFilter Cents.t :=
  {| of_user_id := None;
     of_order_status := None;
     of_payment_status := None;
     of_min_total := None;
     of_max_total := None;
     of_date_from := None;
     of_date_to := None |}.

Definition pending_orders : OrderFilter Cents.t :=
  {| of_user_id := None;
     of_order_status := Some PENDING;
     of_payment_status := None;
     of_min_total := None;
     of_max_total := None;
     of_date_from := None;
     of_date_to := None |}.

Definition total_up_to_100 : OrderFilter Cents.t :=
  {| of_user_id := None;
     of_order_status := None;
     of_payment_status := None;
     of_min_total := Some 0;
     of_max_total := Some 10000;
     of_date_from := None;
     of_date_to := None |}.

Definition out_of_stock_search (s : string) : ProductFilter Cents.t :=
  {| pf_category := None;
     pf_brand := None;
     pf_min_price := None;
     pf_max_price := None;
     pf_size := None;
     pf_in_stock := Some false;
     pf_search := Some s;
     pf_sort_by := None;
     pf_sort_order := Some "asc" |}.

(** The shirt's id as a client may write it, in upper case. *)
Definition shirt_id_upper : string := "64B7F0A1C2D3E4F5A6B7C8D9".
End Scenario.

(** ** More of [utils/pagination.py] and [models/base.py] *)

(** The string [str(n)] of an integer. *)
Inductive decimal_string : Type := str_of_int (n : Z).

(** [get_pagination_params]: the pair [(skip, limit)]. *)
Definition get_pagination_params (pg sz : Z) : Z * Z :=
  let pg := Z.max 1 pg in
  let sz := Z.min (Z.max 1 sz) 100 in
  ((pg - 1) * sz, sz).

(** [create_paginated_response]: the metadata of [Paginator], on a
    page size taken as it comes. *)
Definition create_paginated_response {F : Type} {FD : FloatDivision F} {T : Type}
           (items : list T) (pg sz n : Z) : result (list T * PaginationMeta) :=
  (pages <- (if n >? 0 then Paginator.ceil_div n sz else Ok 0) ;;
   Ok (items,
       {| meta_page := pg;
          meta_page_size := sz;
          total_items := n;
          total_pages := pages;
          has_previous := pg >? 1;
          has_next := pg <? pages |}))%py.

(** [create_pagination_info]: the legacy shape, offsets as strings. *)
Record pagination_info : Type := {
  pi_limit : Z;
  pi_next : option decimal_string;
  pi_previous : option decimal_string
}.

Definition create_pagination_info (lim offset : Z) (total_count : option Z)
           (has_more : bool) : pagination_info :=
  let more :=
    has_more
    || match total_count with
       | Some n => negb (n =? 0) && (offset + lim <? n)
       | None => false
       end in
  {| pi_limit := lim;
     pi_next := if more then Some (str_of_int (offset + lim)) else None;
     pi_previous :=
       if offset >? 0
       then let prev_offset := Z.max 0 (offset - lim) in
            Some (if prev_offset >? 0 then str_of_int prev_offset else str_of_int 0)
       else None |}.

(** [models/base.py]: [PaginationParams] with its field constraints
    ([skip >= 0], [0 < limit <= 100]); [None] stands for the validation
    error of the constructor. *)
Record BasePaginationParams : Type := {
  bp_skip : Z;
  bp_limit : Z
}.

Definition base_pagination_params (s l : Z) : option BasePaginationParams :=
  if (0 <=? s) && (0 <? l) && (l <=? 100)
  then Some {| bp_skip := s; bp_limit := l |}
  else None.

Definition from_page (pg sz : Z) : option BasePaginationParams :=
  let pg := if pg <? 1 then 1 else pg in
  let sz := if sz <? 1 then 10 else sz in
  let sz := if sz >? 100 then 100 else sz in
  base_pagination_params ((pg - 1) * sz) sz.

(** ** [routes/order.py]: reading and cancelling an order *)

Module OrderRoutes.
Section Routes.
Context {F : Type} {FO : FloatOps F}.

Definition get_order (orders : list (order_doc F)) (order_id : string)
  : result (order_out F) :=
  if negb (Bson.is_valid order_id)
  then Raise (HTTPException 400 "Invalid order ID format")
  else
    (order <- get_order_by_id orders order_id ;;
     match order with
     | Some o => Ok o
     | None => Raise (HTTPException 404 "Order not found")
     end)%py.

(** The message of the response, and the collection after the call. *)
Definition cancel_order (now : datetime) (orders : list (order_doc F))
           (order_id : string) : result string * list (order_doc F) :=
  if negb (Bson.is_valid order_id)
  then (Raise (HTTPException 400 "Invalid order ID format"), orders)
  else
    match delete_order now orders order_id with
    | (Ok true, orders') =>
        (Ok ("Order " ++ order_id ++ " cancelled successfully"), orders')
    | (Ok false, orders') =>
        (Raise (HTTPException 404 "Order not found or already cancelled"), orders')
    | (Raise e, orders') => (Raise e, orders')
    end.
End Routes.
End OrderRoutes.

(** ** [utils/helpers.py]: [calculate_total_amount] *)

Section CalculateTotal.
Context {F : Type} {FO : FloatOps F}.

(** [next((s for s in sizes if s["size"] == size), None)]; a size that
    the item does not carry is [None] and equals no label. *)
Definition size_info (sizes : list size_entry) (size : option string)
  : option size_entry :=
  match size with
  | Some label => find (fun s => String.eqb (size_label s) label) sizes
  | None => None
  end.

(** [f"{size}"] *)
Definition format_size (size : option string) : string :=
  get_default size "None".

Fixpoint total_of (product_map : dict (product F)) (items : list (item F)) (total : F)
  : result F :=
  match items with
  | [] => Ok total
  | it :: rest =>
      (product_id <- getitem "product_id" (i_product_id it) ;;
       let size := i_size it in
       quantity <- getitem "quantity" (i_quantity it) ;;
       match dict_get product_id product_map with
       | None => Raise (HTTPException 400 ("Invalid product ID: " ++ product_id))
       | Some p =>
           match size_info (p_sizes p) size with
           | None =>
               name <- getitem "name" (p_name p) ;;
               Raise (HTTPException 400
                        ("Size '" ++ format_size size
                         ++ "' not available for product '" ++ name ++ "'."))
           | Some _ =>
               price <- getitem "price" (p_price p) ;;
               amount <- float_mul_int price quantity ;;
               total_of product_map rest (f_add total amount)
           end
       end)%py
  end.

Definition calculate_total_amount (items : list (item F)) (products : list (product F))
  : result F :=
  (total <- total_of (product_map_of products) items f_zero ;;
   Ok (f_round2 total))%py.
End CalculateTotal.

(** ** [services/product_service.py]: create, get, update, delete *)

Section ProductStore.
Context {F : Type}.

(** A stored product: the fields the queries read, and the two they do
    not. *)
Record product_doc : Type := {
  pd_product : product F;
  pd_is_active : option bool;
  pd_image_urls : option (list string)
}.

Definition pd_oid (d : product_doc) : Bson.ObjectId := product_oid (pd_product d).

(** [schemas/product.py]: [ProductCreate] and [ProductUpdate]. *)
Record ProductCreate : Type := {
  pc_name : string;
  pc_description : string;
  pc_price : F;
  pc_category : string;
  pc_brand : option string;
  pc_tags : list string;
  pc_is_active : bool;
  pc_image_urls : list string;
  pc_sizes : list size_entry
}.

Record ProductUpdate : Type := {
  pu_name : option string;
  pu_description : option string;
  pu_price : option F;
  pu_category : option string;
  pu_brand : option string;
  pu_image_urls : option (list string);
  pu_tags : option (list string);
  pu_is_active : option bool
}.

(** [product.dict()] with the two timestamps, under the id drawn. *)
Definition new_product_doc (now : datetime) (new_id : Bson.ObjectId) (product : ProductCreate)
  : product_doc :=
  {| pd_product :=
       {| product_oid := new_id;
          p_name := Some (pc_name product);
          p_description := Some (pc_description product);
          p_price := Some (pc_price product);
          p_category := Some (pc_category product);
          p_brand := pc_brand product;
          p_tags := pc_tags product;
          p_sizes := pc_sizes product;
          p_created_at := Some now;
          p_updated_at := Some now |};
     pd_is_active := Some (pc_is_active product);
     pd_image_urls := Some (pc_image_urls product) |}.

Definition find_product (oid : Bson.ObjectId) (store : list product_doc)
  : option product_doc :=
  find (fun d => Bson.eqb (pd_oid d) oid) store.

(** What [create_product] returns: the stored document with ["_id"]
    popped into ["id"]. *)
Record created_product : Type := {
  cp_id : string;
  cp_doc : product_doc
}.

Definition create_product (now : datetime) (new_id : Bson.ObjectId)
           (store : list product_doc) (product : ProductCreate)
  : result created_product * list product_doc :=
  if existsb (fun d => Bson.eqb (pd_oid d) new_id) store
  then (Raise DuplicateKeyError, store)
  else
    let store' := (store ++ [new_product_doc now new_id product])%list in
    match find_product new_id store' with
    | Some d => (Ok {| cp_id := Bson.str (pd_oid d); cp_doc := d |}, store')
    | None => (Raise AttributeError, store')
    end.

(** What [get_product] returns: ["id"] and the printed timestamps. *)
Record product_view : Type := {
  pv_id : string;
  pv_doc : product_doc;
  pv_created_at : iso_string;
  pv_updated_at : option iso_string
}.

Definition get_product (store : list product_doc) (product_id : string)
  : result (option product_view) :=
  match Bson.of_str product_id with
  | None => Ok None
  | Some oid =>
      match find_product oid store with
      | None => Ok None
      | Some d =>
          (created <- getitem "created_at" (p_created_at (pd_product d)) ;;
           updated <- getitem "updated_at" (p_updated_at (pd_product d)) ;;
           Ok (Some {| pv_id := Bson.str (pd_oid d);
                       pv_doc := d;
                       pv_created_at := isoformat created;
                       pv_updated_at := Some (isoformat updated) |}))%py
      end
  end.

(** [{"$set": update_data}]: the fields of the update that are not
    [None], and ["updated_at"]. *)
Definition or_kept {A : Type} (new old : option A) : option A :=
  match new with
  | Some v => Some v
  | None => old
  end.

Definition apply_update (now : datetime) (u : ProductUpdate) (d : product_doc)
  : product_doc :=
  let p := pd_product d in
  {| pd_product :=
       {| product_oid := product_oid p;
          p_name := or_kept (pu_name u) (p_name p);
          p_description := or_kept (pu_description u) (p_description p);
          p_price := or_kept (pu_price u) (p_price p);
          p_category := or_kept (pu_category u) (p_category p);
          p_brand := or_kept (pu_brand u) (p_brand p);
          p_tags := get_default (pu_tags u) (p_tags p);
          p_sizes := p_sizes p;
          p_created_at := p_created_at p;
          p_updated_at := Some now |};
     pd_is_active := or_kept (pu_is_active u) (pd_is_active d);
     pd_image_urls := or_kept (pu_image_urls u) (pd_image_urls d) |}.

(** [update_one]: the first document with the id is rewritten; the
    count of documents matched comes with the collection. *)
Fixpoint update_one_product (oid : Bson.ObjectId) (f : product_doc -> product_doc)
         (store : list product_doc) : Z * list product_doc :=
  match store with
  | [] => (0, [])
  | d :: rest =>
      if Bson.eqb (pd_oid d) oid
      then (1, f d :: rest)
      else let (n, rest') := update_one_product oid f rest in (n, d :: rest')
  end.

Definition update_product (now : datetime) (store : list product_doc)
           (product_id : string) (product_update : ProductUpdate)
  : result (option product_view) * list product_doc :=
  match Bson.of_str product_id with
  | None => (Ok None, store)
  | Some oid =>
      let (matched_count, store') :=
        update_one_product oid (apply_update now product_update) store in
      if matched_count =? 0
      then (Ok None, store')
      else (get_product store' product_id, store')
  end.

(** [delete_one]: the first document with the id is removed. *)
Fixpoint delete_one_product (oid : Bson.ObjectId) (store : list product_doc)
  : Z * list product_doc :=
  match store with
  | [] => (0, [])
  | d :: rest =>
      if Bson.eqb (pd_oid d) oid
      then (1, rest)
      else let (n, rest') := delete_one_product oid rest in (n, d :: rest')
  end.

Definition delete_product (store : list product_doc) (product_id : string)
  : bool * list product_doc :=
  match Bson.of_str product_id with
  | None => (false, store)
  | Some oid =>
      let (deleted_count, store') := delete_one_product oid store in
      (deleted_count >? 0, store')
  end.

(** The store's invariant on the collection: identifiers are generated
    by the store and unique. *)
Definition store_ok (store : list product_doc) : bool :=
  forallb (fun d => Bson.wf (pd_oid d)) store && distinct (map pd_oid store).
End ProductStore.

Arguments product_doc : clear implicits.
Arguments ProductCreate : clear implicits.
Arguments ProductUpdate : clear implicits.
Arguments created_product : clear implicits.
Arguments product_view : clear implicits.

(** ** [routes/product.py]: get and delete by id *)

Module ProductRoutes.
Section Routes.
Context {F : Type}.

Definition get_product (store : list (product_doc F)) (product_id : string)
  : result (product_view F) :=
  if negb (Bson.is_valid product_id)
  then Raise (HTTPException 400 "Invalid product ID format")
  else
    (product <- get_product store product_id ;;
     match product with
     | Some v => Ok v
     | None => Raise (HTTPException 404 "Product not found")
     end)%py.

Definition delete_product (store : list (product_doc F)) (product_id : string)
  : result string * list (product_doc F) :=
  if negb (Bson.is_valid product_id)
  then (Raise (HTTPException 400 "Invalid product ID format"), store)
  else
    let (deleted, store') := delete_product store product_id in
    if deleted
    then (Ok ("Product " ++ product_id ++ " deleted successfully"), store')
    else (Raise (HTTPException 404 "Product not found"), store').
End Routes.
End ProductRoutes.

(** ** [utils/bson_utils.py] *)

(** A Python value as these helpers see it: an identifier, a string, a
    dict, a list, or something else they pass on untouched. *)
#[local] Set Warnings "-register-all".
Inductive pyval : Type :=
| PNone
| PBool (b : bool)
| PInt (n : Z)
| PStr (s : string)
| POid (o : Bson.ObjectId)
| PDict (d : list (string * pyval))
| PList (l : list pyval).

(** The argument of [str_to_objectid]: a string or an identifier. *)
Inductive id_arg : Type :=
| IdStr (s : string)
| IdOid (o : Bson.ObjectId).

(** [str_to_objectid]; [None] stands for the [ValueError] it raises. *)
Definition str_to_objectid (id_str : id_arg) : option Bson.ObjectId :=
  match id_str with
  | IdStr s => if Bson.is_valid s then Bson.of_str s else None
  | IdOid o => Some o
  end.

Definition objectid_to_str (obj_id : Bson.ObjectId) : string := Bson.str obj_id.

(** [convert_objectids_to_str]: the value stored under a key. *)
Fixpoint convert_value (v : pyval) : pyval :=
  match v with
  | POid o => PStr (Bson.str o)
  | PDict d => PDict (map (fun kv => (fst kv, convert_value (snd kv))) d)
  | PList l =>
      PList (map (fun item =>
                    match item with
                    | PDict d =>
                        PDict (map (fun kv => (fst kv, convert_value (snd kv))) d)
                    | POid o => PStr (Bson.str o)
                    | _ => item
                    end) l)
  | _ => v
  end.

Definition convert_objectids_to_str (data : list (string * pyval))
  : list (string * pyval) :=
  map (fun kv => (fst kv, convert_value (snd kv))) data.

(** [ObjectId(s) if key == "_id" and isinstance(s, str) and
    ObjectId.is_valid(s)], the string otherwise. *)
Definition id_of_string (key s : string) : pyval :=
  if String.eqb key "_id"
  then match Bson.of_str s with
       | Some o => POid o
       | None => PStr s
       end
  else PStr s.

(** [prepare_for_mongo_query]: the value stored under [key]. *)
Fixpoint prepare_value (key : string) (v : pyval) : pyval :=
  match v with
  | PStr s => id_of_string key s
  | PDict d => PDict (map (fun kv => (fst kv, prepare_value (fst kv) (snd kv))) d)
  | PList l =>
      PList (map (fun item =>
                    match item with
                    | PDict d =>
                        PDict (map (fun kv => (fst kv, prepare_value (fst kv) (snd kv))) d)
                    | PStr s => id_of_string key s
                    | _ => item
                    end) l)
  | _ => v
  end.

Definition prepare_for_mongo_query (query_filter : list (string * pyval))
  : list (string * pyval) :=
  map (fun kv => (fst kv, prepare_value (fst kv) (snd kv))) query_filter.

(** Where identifiers may stand for the round trip through strings to
    give the dict back: under ["_id"], directly or as items of a list,
    generated by the store; and no string under ["_id"] reads as an
    identifier.  A list directly inside a list is passed on by both
    helpers. *)
Definition leaf_round_trips (key : string) (v : pyval) : bool :=
  match v with
  | POid o => String.eqb key "_id" && Bson.wf o
  | PStr s => negb (String.eqb key "_id" && Bson.is_valid s)
  | _ => true
  end.

Fixpoint round_trips (key : string) (v : pyval) : bool :=
  match v with
  | PDict d => forallb (fun kv => round_trips (fst kv) (snd kv)) d
  | PList l =>
      forallb (fun item =>
                 match item with
                 | PDict d => forallb (fun kv => round_trips (fst kv) (snd kv)) d
                 | _ => leaf_round_trips key item
                 end) l
  | _ => leaf_round_trips key v
  end.

(** No identifier is left anywhere in the value. *)
Fixpoint oid_free (v : pyval) : bool :=
  match v with
  | POid _ => false
  | PDict d => forallb (fun kv => oid_free (snd kv)) d
  | PList l => forallb oid_free l
  | _ => true
  end.

(** No list is an item of a list, anywhere in the value. *)
Definition not_a_list (v : pyval) : bool :=
  match v with
  | PList _ => false
  | _ => true
  end.

Fixpoint lists_flat (v : pyval) : bool :=
  match v with
  | PDict d => forallb (fun kv => lists_flat (snd kv)) d
  | PList l => forallb (fun item => not_a_list item && lists_flat item) l
  | _ => true
  end.

(** ** More of the scenario *)

Module MoreScenario.
(** The order stored for [Scenario.two_shirts]. *)
Definition stored_order : order_doc Cents.t :=
  Eval cbv in
    match Scenario.orders_after with
    | o :: _ => o
    | [] => {| order_oid := Scenario.oid Scenario.order_id;
               order_fields := validated Scenario.two_shirts |}
    end.

Definition orders_of_user (u : string) : OrderFilter Cents.t :=
  {| of_user_id := Some u;
     of_order_status := None;
     of_payment_status := Some PAY_PENDING;
     of_min_total := None;
     of_max_total := None;
     of_date_from := None;
     of_date_to := None |}.
End MoreScenario.

Module ProductScenario.
Definition tee : ProductCreate Cents.t :=
  {| pc_name := "Tee";
     pc_description := "A plain tee";
     pc_price := 1250;
     pc_category := "clothing";
     pc_brand := None;
     pc_tags := ["plain"];
     pc_is_active := true;
     pc_image_urls := [];
     pc_sizes := [ {| size_label := "S"; stock := 10 |};
                   {| size_label := "M"; stock := 5 |} ] |}.

Definition tee_id : Bson.ObjectId := Scenario.oid "64b7f0a1c2d3e4f5a6b7c8f1".

Definition store : list (product_doc Cents.t) :=
  snd (create_product 1000 tee_id [] tee).

Definition stored_tee : product_doc Cents.t := new_product_doc 1000 tee_id tee.

Definition price_only (price : Cents.t) : ProductUpdate Cents.t :=
  {| pu_name := None;
     pu_description := None;
     pu_price := Some price;
     pu_category := None;
     pu_brand := None;
     pu_image_urls := None;
     pu_tags := None;
     pu_is_active := None |}.
End ProductScenario.

(** What [list_products] makes of a product that has its creation
    time. *)
Definition listed {F : Type} (p : product F) : product_out F :=
  {| po_id := Bson.str (product_oid p);
     po_fields := p;
     po_created_at := isoformat (get_default (p_created_at p) 0);
     po_updated_at := option_map isoformat (p_updated_at p) |}.

Definition has_created_at {F : Type} (p : product F) : bool :=
  match p_created_at p with
  | Some _ => true
  | None => false
  end.

(** [amount] is what [calculate_total_amount] adds for the item [it]:
    the price of a listed product of that id, which offers the item's
    size, times the quantity. *)
Definition line_amount {F : Type} {FO : FloatOps F} (products : list (product F))
           (it : item F) (amount : F) : Prop :=
  exists p quantity size price,
    In p products
    /\ i_product_id it = Some (Bson.str (product_oid p))
    /\ i_quantity it = Some quantity
    /\ i_size it = Some size
    /\ existsb (fun s => String.eqb (size_label s) size) (p_sizes p) = true
    /\ p_price p = Some price
    /\ amount = f_mul price (f_of_int quantity).

(** [shown] is the stored item [it] as the read path shows it: the
    request fields and every pricing field the item has are kept, and
    the three pricing fields are always there. *)
Definition shown_as {F : Type} (it shown : item F) : Prop :=
  i_product_id shown = i_product_id it
  /\ i_size shown = i_size it
  /\ i_quantity shown = i_quantity it
  /\ (exists n, i_product_name shown = Some n)
  /\ (exists p, i_price shown = Some p)
  /\ (exists s, i_subtotal shown = Some s)
  /\ (forall n, i_product_name it = Some n -> i_product_name shown = Some n)
  /\ (forall p, i_price it = Some p -> i_price shown = Some p)
  /\ (forall s, i_subtotal it = Some s -> i_subtotal shown = Some s).

(** What the two helpers of [bson_utils] make of an item of a list. *)
Definition convert_item (item : pyval) : pyval :=
  match item with
  | PDict _ | POid _ => convert_value item
  | _ => item
  end.

Definition prepare_item (key : string) (item : pyval) : pyval :=
  match item with
  | PDict _ | PStr _ => prepare_value key item
  | _ => item
  end.

Module BsonScenario.
(** A document with an identifier, a nested dict, a list of dicts and,
    in a nested filter, a list of identifiers under ["_id"]. *)
Definition an_id : Bson.ObjectId := Scenario.oid Scenario.shirt_id.

Definition document : list (string * pyval) :=
  [ ("_id", POid an_id);
    ("name", PStr "Shirt");
    ("owner", PDict [ ("_id", POid an_id); ("age", PInt 3) ]);
    ("siblings", PList [ PDict [ ("_id", POid an_id) ]; PNone ]);
    ("others", PDict [ ("_id", PList [ POid an_id; PStr "not an id" ]) ]) ].

(** A string of 24 characters with whitespace in it, which
    [ObjectId] accepts and reads to 11 bytes. *)
Definition spaced_id : string := "64b7f0a1c2d3e4f5a6b7c8  ".
End BsonScenario.

(** ** [models/user.py]: the default address *)

Record Address : Type := {
  a_full_name : string;
  a_address_line1 : string;
  a_address_line2 : option string;
  a_city : string;
  a_state : string;
  a_postal_code : string;
  a_country : string;
  a_phone : option string;
  a_is_default : bool
}.

Record User : Type := {
  u_email : string;
  u_password_hash : string;
  u_first_name : string;
  u_last_name : string;
  u_addresses : list Address;
  u_is_active : bool;
  u_is_admin : bool;
  u_last_login : option datetime
}.

Definition has_default_address (self : User) : bool :=
  existsb a_is_default (u_addresses self).

Definition get_default_address (self : User) : option Address :=
  match find a_is_default (u_addresses self) with
  | Some addr => Some addr
  | None =>
      match u_addresses self with
      | [] => None
      | first :: _ => Some first
      end
  end.

(** * Properties *)

Unset Implicit Arguments.

(** ** Pagination metadata on an empty result *)

Lemma floordiv_ok (a b : Z) : b <> 0 -> floordiv a b = Ok (a / b).
Proof.
  intros Hb. unfold floordiv.
  destruct (Z.eqb_spec b 0) as [E | _]; [contradiction | reflexivity].
Qed.

(** On valid parameters no builder divides by zero, whatever the count. *)
Lemma schemas_pagination_create_total (params : PaginationParams) (n : Z) :
  valid_params params -> exists m, SchemasPagination.create params n = Ok m.
Proof.
  intros [_ [Hs _]]. unfold SchemasPagination.create.
  destruct (n >? 0).
  - rewrite floordiv_ok by lia. simpl. eauto.
  - simpl. eauto.
Qed.

(** [schemas/common_v2.py] reports no page for an empty result. *)
Lemma common_v2_create_empty (params : PaginationParams) :
  SchemasCommonV2.create params 0
  = Ok {| meta_page := page params;
          meta_page_size := page_size params;
          total_items := 0;
          total_pages := 0;
          has_previous := page params >? 1;
          has_next := page params <? 0 |}.
Proof. reflexivity. Qed.

Lemma common_v2_empty_no_next (params : PaginationParams) :
  valid_params params ->
  exists m, SchemasCommonV2.create params 0 = Ok m
            /\ total_pages m = 0 /\ has_next m = false
            /\ has_previous m = (page params >? 1).
Proof.
  intros [Hp _]. eexists. split; [apply common_v2_create_empty |].
  simpl. repeat split. apply Z.ltb_ge. lia.
Qed.

(** So does [Paginator.get_pagination_metadata]. *)
Lemma paginator_empty_no_next {F : Type} {FD : FloatDivision F} (pg sz : Z) :
  exists m, Paginator.get_pagination_metadata (Paginator.init pg sz) 0 = Ok m
            /\ total_pages m = 0 /\ has_next m = false
            /\ has_previous m = (page (Paginator.init pg sz) >? 1).
Proof.
  eexists. split; [reflexivity |]. simpl. repeat split.
  apply Z.ltb_ge. lia.
Qed.

(** C4 (the code departs from the claim).  For every valid pagination
    params, [PaginationMeta.create] of [schemas/pagination.py], the
    builder both services use, does not divide by zero on
    [total_items = 0] and yields [has_next = false] and
    [has_previous = (page > 1)], but it yields [total_pages = 1], not
    the 0 that the claim states and that the builders of
    [schemas/common_v2.py] and [utils/pagination.py] yield. *)
Theorem schemas_pagination_empty_reports_one_page (params : PaginationParams) :
  valid_params params ->
  exists m, SchemasPagination.create params 0 = Ok m
            /\ total_pages m = 1
            /\ total_pages m <> 0
            /\ has_next m = false
            /\ has_previous m = (page params >? 1).
Proof.
  intros [Hp _]. eexists. split; [reflexivity |]. simpl.
  repeat split; try discriminate. apply Z.ltb_ge. lia.
Qed.

Lemma schemas_pagination_empty_reports_one_page_witness :
  valid_params {| page := 1; page_size := 10 |}
  /\ exists m, SchemasPagination.create {| page := 1; page_size := 10 |} 0 = Ok m
               /\ total_pages m = 1
               /\ total_pages m <> 0
               /\ has_next m = false
               /\ has_previous m = (1 >? 1).
Proof.
  split.
  - unfold valid_params. simpl. lia.
  - apply (schemas_pagination_empty_reports_one_page {| page := 1; page_size := 10 |}).
    unfold valid_params. simpl. lia.
Defined.

(** ** Identifiers *)

Lemma oid_eqb_eq (a b : Bson.ObjectId) : Bson.eqb a b = true <-> a = b.
Proof.
  destruct a as [x], b as [y]. unfold Bson.eqb. simpl.
  rewrite String.eqb_eq. split; [intros -> | intros [= ->]]; reflexivity.
Qed.

Lemma oid_eqb_refl (a : Bson.ObjectId) : Bson.eqb a a = true.
Proof. apply oid_eqb_eq. reflexivity. Qed.

Lemma canonical_char_is_hex (c : ascii) :
  Bson.is_digit c || Bson.is_lower_hex c = true -> Bson.is_hex c = true.
Proof. unfold Bson.is_hex. intros ->. reflexivity. Qed.

Lemma canonical_char_not_upper (c : ascii) :
  Bson.is_digit c || Bson.is_lower_hex c = true -> Bson.is_upper_hex c = false.
Proof.
  unfold Bson.is_digit, Bson.is_lower_hex, Bson.is_upper_hex.
  generalize (nat_of_ascii c). intros n H.
  apply orb_true_iff in H.
  apply andb_false_iff.
  destruct H as [H | H]; apply andb_true_iff in H; destruct H as [H1 H2];
    apply Nat.leb_le in H1; apply Nat.leb_le in H2.
  - left. apply Nat.leb_gt. lia.
  - right. apply Nat.leb_gt. lia.
Qed.

Lemma canonical_string_fixed (s : string) :
  Bson.all_chars (fun c => Bson.is_digit c || Bson.is_lower_hex c) s = true ->
  Bson.all_chars Bson.is_hex s = true /\ Bson.map_chars Bson.lower s = s.
Proof.
  induction s as [| c s IH]; simpl; intros H.
  - split; reflexivity.
  - apply andb_true_iff in H. destruct H as [Hc Hs].
    destruct (IH Hs) as [IH1 IH2]. split.
    + rewrite (canonical_char_is_hex c Hc). exact IH1.
    + unfold Bson.lower at 1. rewrite (canonical_char_not_upper c Hc).
      rewrite IH2. reflexivity.
Qed.

Lemma hex_char_not_space (c : ascii) :
  Bson.is_hex c = true -> Bson.is_space c = false.
Proof.
  unfold Bson.is_hex, Bson.is_digit, Bson.is_lower_hex, Bson.is_upper_hex,
    Bson.is_space.
  generalize (nat_of_ascii c). intros n H.
  apply orb_false_iff.
  repeat (apply orb_true_iff in H; destruct H as [H | H]);
    apply andb_true_iff in H; destruct H as [H1 H2];
    apply Nat.leb_le in H1; apply Nat.leb_le in H2;
    (split; [apply andb_false_iff; right; apply Nat.leb_gt; lia
            | apply Nat.eqb_neq; lia]).
Qed.

(** Induction on a string two characters at a time, as [fromhex]
    reads it. *)
Lemma string_pair_ind (P : string -> Prop) :
  P EmptyString ->
  (forall c, P (String c EmptyString)) ->
  (forall c d s, P s -> P (String d s) -> P (String c (String d s))) ->
  forall s, P s.
Proof.
  intros H0 H1 H2 s.
  assert (H : P s /\ forall c, P (String c s)).
  { induction s as [| d s [IHs IHc]].
    - split; [exact H0 | exact H1].
    - split; [exact (IHc d) |].
      intros c. exact (H2 c d s IHs (IHc d)). }
  exact (proj1 H).
Qed.

(** An even number of hexadecimal digits is read to its lower-case
    form. *)
Lemma fromhex_digits (s : string) :
  Bson.all_chars Bson.is_hex s = true ->
  Nat.even (String.length s) = true ->
  Bson.fromhex s = Some (Bson.map_chars Bson.lower s).
Proof.
  induction s as [| c | c d s IHs _] using string_pair_ind.
  - reflexivity.
  - intros _ H. discriminate H.
  - cbn [Bson.all_chars Bson.fromhex Bson.map_chars String.length Nat.even].
    intros Hall Heven.
    apply andb_true_iff in Hall. destruct Hall as [Hc Hall].
    apply andb_true_iff in Hall. destruct Hall as [Hd Hall].
    rewrite (hex_char_not_space c Hc), Hc, Hd. cbn [andb].
    rewrite (IHs Hall Heven). reflexivity.
Qed.

(** A generated identifier parses back from its printed form. *)
Lemma of_str_str (o : Bson.ObjectId) :
  Bson.wf o = true -> Bson.of_str (Bson.str o) = Some o.
Proof.
  destruct o as [s]. unfold Bson.wf, Bson.of_str, Bson.str. simpl.
  intros H. apply andb_true_iff in H. destruct H as [Hlen Hall].
  destruct (canonical_string_fixed s Hall) as [Hhex Hfix].
  rewrite Hlen. rewrite (fromhex_digits s Hhex).
  - rewrite Hfix. reflexivity.
  - apply Nat.eqb_eq in Hlen. rewrite Hlen. reflexivity.
Qed.

(** ** Dicts *)

Section DictFacts.
Variable V : Type.

Lemma dict_get_set (k k' : string) (v : V) (d : dict V) :
  dict_get k (dict_set k' v d) = if String.eqb k k' then Some v else dict_get k d.
Proof.
  induction d as [| [k0 v0] d IH]; simpl.
  - reflexivity.
  - destruct (String.eqb_spec k' k0) as [-> | Hne]; simpl.
    + destruct (String.eqb k k0); reflexivity.
    + rewrite IH. destruct (String.eqb_spec k k0) as [-> | Hne'].
      * destruct (String.eqb_spec k0 k') as [E | _]; [congruence | reflexivity].
      * reflexivity.
Qed.

(** Assigning twice to one key leaves the second value only. *)
Lemma dict_set_overwrites (k : string) (v v' : V) (d : dict V) :
  dict_set k v (dict_set k v' d) = dict_set k v d.
Proof.
  induction d as [| [k0 v0] d IH]; simpl.
  - rewrite String.eqb_refl. reflexivity.
  - destruct (String.eqb_spec k k0) as [-> | Hne]; simpl.
    + rewrite String.eqb_refl. reflexivity.
    + destruct (String.eqb_spec k k0) as [E | _]; [contradiction |].
      rewrite IH. reflexivity.
Qed.

Lemma dict_set_fresh (k : string) (v : V) (d : dict V) :
  dict_get k d = None -> dict_set k v d = (d ++ [(k, v)])%list.
Proof.
  induction d as [| [k0 v0] d IH]; simpl; intros H.
  - reflexivity.
  - destruct (String.eqb k k0); [discriminate |].
    rewrite (IH H). reflexivity.
Qed.
End DictFacts.

(** ** The catalog existence check *)

Section CheckExistFacts.
Context {F : Type}.

Lemma oid_in_In (ids : list Bson.ObjectId) (o : Bson.ObjectId) :
  oid_in ids o = true <-> In o ids.
Proof.
  unfold oid_in. rewrite existsb_exists. split.
  - intros [x [Hx E]]. apply oid_eqb_eq in E. subst. exact Hx.
  - intros H. exists o. split; [exact H | apply oid_eqb_refl].
Qed.

Lemma distinct_NoDup (ids : list Bson.ObjectId) :
  distinct ids = true -> NoDup ids.
Proof.
  induction ids as [| o ids IH]; simpl; intros H.
  - constructor.
  - apply andb_true_iff in H. destruct H as [Hn Hd].
    constructor; [| exact (IH Hd)].
    intros Hin. apply oid_in_In in Hin. rewrite Hin in Hn. discriminate.
Qed.

Lemma NoDup_map_filter {A B : Type} (f : A -> B) (p : A -> bool) (l : list A) :
  NoDup (map f l) -> NoDup (map f (filter p l)).
Proof.
  induction l as [| a l IH]; simpl; intros H.
  - constructor.
  - inversion H as [| x xs Hnin Hnd]; subst.
    destruct (p a); simpl.
    + constructor; [| exact (IH Hnd)].
      intros Hin. apply Hnin. apply in_map_iff in Hin.
      destruct Hin as [y [Hy Hin]]. apply filter_In in Hin.
      apply in_map_iff. exists y. tauto.
    + exact (IH Hnd).
Qed.

Lemma valid_object_ids_In (pids : list string) (o : Bson.ObjectId) :
  In o (valid_object_ids pids) <-> exists pid, In pid pids /\ Bson.of_str pid = Some o.
Proof.
  unfold valid_object_ids. rewrite in_flat_map. split.
  - intros [pid [Hin Ho]]. exists pid. split; [exact Hin |].
    destruct (Bson.of_str pid) as [o' |]; simpl in Ho; [| contradiction].
    destruct Ho as [-> | []]. reflexivity.
  - intros [pid [Hin Ho]]. exists pid. split; [exact Hin |].
    rewrite Ho. left. reflexivity.
Qed.

(** With unique identifiers the read never stops short: there are at
    most as many matching records as identifiers asked for. *)
Lemma matching_within_length (products : list (product F)) (ids : list Bson.ObjectId) :
  NoDup (map product_oid products) ->
  (List.length (filter (id_in ids) products) <= List.length ids)%nat.
Proof.
  intros Hnd.
  rewrite <- (length_map product_oid (filter (id_in ids) products)).
  apply NoDup_incl_length.
  - apply NoDup_map_filter. exact Hnd.
  - intros o Ho. apply in_map_iff in Ho. destruct Ho as [p [<- Hp]].
    apply filter_In in Hp. destruct Hp as [_ Hp].
    unfold id_in in Hp. apply (oid_in_In ids (product_oid p)). exact Hp.
Qed.

Lemma found_all_matching (products : list (product F)) (pids : list string) :
  NoDup (map product_oid products) ->
  fst (check_products_exist products pids)
  = filter (id_in (valid_object_ids pids)) products.
Proof.
  intros Hnd. unfold check_products_exist. simpl.
  apply firstn_all2. apply matching_within_length. exact Hnd.
Qed.

Lemma in_firstn {A : Type} (n : nat) (l : list A) (x : A) :
  In x (List.firstn n l) -> In x l.
Proof.
  intros H. rewrite <- (firstn_skipn n l). apply in_or_app. left. exact H.
Qed.

(** What is read is always part of the catalog. *)
Lemma found_in_catalog (products : list (product F)) (pids : list string) (p : product F) :
  In p (fst (check_products_exist products pids)) -> In p products.
Proof.
  unfold check_products_exist. simpl. intros H.
  apply in_firstn in H.
  apply filter_In in H. tauto.
Qed.

Lemma missing_In (products : list (product F)) (pids : list string) (pid : string) :
  In pid (snd (check_products_exist products pids))
  <-> In pid pids
      /\ ~ exists p, In p (fst (check_products_exist products pids))
                     /\ Bson.str (product_oid p) = pid.
Proof.
  unfold check_products_exist. simpl.
  set (found := List.firstn _ _).
  rewrite filter_In. split.
  - intros [Hin Hneg]. split; [exact Hin |].
    intros [p [Hp Hstr]].
    apply negb_true_iff in Hneg.
    assert (E : existsb (String.eqb pid)
                  (map (fun p => Bson.str (product_oid p)) found) = true).
    { apply existsb_exists. exists pid. split.
      - apply in_map_iff. exists p. tauto.
      - apply String.eqb_refl. }
    rewrite E in Hneg. discriminate.
  - intros [Hin Hno]. split; [exact Hin |].
    apply negb_true_iff. apply not_true_is_false. intros E.
    apply existsb_exists in E. destruct E as [x [Hx Hxe]].
    apply String.eqb_eq in Hxe. subst x.
    apply in_map_iff in Hx. destruct Hx as [p [Hp Hin']].
    apply Hno. exists p. tauto.
Qed.
End CheckExistFacts.

Section CheckExistExact.
Context {F : Type}.

Lemma catalog_ok_inv (products : list (product F)) :
  catalog_ok products = true ->
  (forall p, In p products -> Bson.wf (product_oid p) = true)
  /\ NoDup (map product_oid products).
Proof.
  unfold catalog_ok. intros H. apply andb_true_iff in H. destruct H as [Hwf Hd].
  split.
  - intros p Hp. rewrite forallb_forall in Hwf. exact (Hwf p Hp).
  - apply distinct_NoDup. exact Hd.
Qed.

Lemma in_catalog_In (products : list (product F)) (pid : string) :
  in_catalog products pid = true
  <-> exists p, In p products /\ Bson.str (product_oid p) = pid.
Proof.
  unfold in_catalog. rewrite existsb_exists. split.
  - intros [p [Hp E]]. apply String.eqb_eq in E. eauto.
  - intros [p [Hp E]]. exists p. split; [exact Hp |]. apply String.eqb_eq. exact E.
Qed.

(** The records read are exactly the catalog records whose identifier
    is that of a requested id that parses. *)
Lemma found_exact (products : list (product F)) (pids : list string) (p : product F) :
  NoDup (map product_oid products) ->
  (In p (fst (check_products_exist products pids))
   <-> In p products
       /\ exists pid, In pid pids /\ Bson.of_str pid = Some (product_oid p)).
Proof.
  intros Hnd. rewrite (found_all_matching products pids Hnd).
  rewrite filter_In. unfold id_in.
  rewrite (oid_in_In (valid_object_ids pids) (product_oid p)).
  rewrite valid_object_ids_In. reflexivity.
Qed.

(** A requested id that is the printed id of a record is read back. *)
Lemma resolved_found (products : list (product F)) (pids : list string) (pid : string) :
  catalog_ok products = true ->
  In pid pids -> in_catalog products pid = true ->
  exists p, In p (fst (check_products_exist products pids))
            /\ Bson.str (product_oid p) = pid.
Proof.
  intros Hok Hin Hcat. destruct (catalog_ok_inv products Hok) as [Hwf Hnd].
  apply in_catalog_In in Hcat. destruct Hcat as [p [Hp Hstr]].
  exists p. split; [| exact Hstr].
  apply (found_exact products pids p Hnd). split; [exact Hp |].
  exists pid. split; [exact Hin |].
  rewrite <- Hstr. apply of_str_str. exact (Hwf p Hp).
Qed.

(** A requested id that is not the printed id of any record is
    reported missing. *)
Lemma absent_is_missing (products : list (product F)) (pids : list string) (pid : string) :
  In pid pids -> in_catalog products pid = false ->
  In pid (snd (check_products_exist products pids)).
Proof.
  intros Hin Habs. apply missing_In. split; [exact Hin |].
  intros [p [Hp Hstr]].
  assert (E : in_catalog products pid = true).
  { apply in_catalog_In. exists p. split; [| exact Hstr].
    exact (found_in_catalog products pids p Hp). }
  rewrite E in Habs. discriminate.
Qed.

Lemma missing_exact (products : list (product F)) (pids : list string) (pid : string) :
  catalog_ok products = true ->
  (In pid (snd (check_products_exist products pids))
   <-> In pid pids /\ in_catalog products pid = false).
Proof.
  intros Hok. split.
  - intros H. apply missing_In in H. destruct H as [Hin Hno].
    split; [exact Hin |]. apply not_true_is_false. intros Hcat.
    apply Hno. exact (resolved_found products pids pid Hok Hin Hcat).
  - intros [Hin Habs]. exact (absent_is_missing products pids pid Hin Habs).
Qed.

(** An id that does not parse is reported missing, not raised. *)
Lemma invalid_is_missing (products : list (product F)) (pids : list string) (pid : string) :
  catalog_ok products = true ->
  In pid pids -> Bson.of_str pid = None ->
  In pid (snd (check_products_exist products pids)).
Proof.
  intros Hok Hin Hinv. apply absent_is_missing; [exact Hin |].
  apply not_true_is_false. intros Hcat.
  destruct (catalog_ok_inv products Hok) as [Hwf _].
  apply in_catalog_In in Hcat. destruct Hcat as [p [Hp Hstr]].
  pose proof (of_str_str (product_oid p) (Hwf p Hp)) as E.
  rewrite Hstr in E. congruence.
Qed.

Lemma all_resolved_none_missing (products : list (product F)) (pids : list string) :
  catalog_ok products = true ->
  forallb (in_catalog products) pids = true ->
  snd (check_products_exist products pids) = [].
Proof.
  intros Hok Hall.
  destruct (snd (check_products_exist products pids)) as [| pid rest] eqn:E;
    [reflexivity |].
  assert (Hin : In pid (snd (check_products_exist products pids)))
    by (rewrite E; left; reflexivity).
  apply (missing_exact products pids pid Hok) in Hin. destruct Hin as [Hin Habs].
  rewrite forallb_forall in Hall. rewrite (Hall pid Hin) in Habs. discriminate.
Qed.
End CheckExistExact.

(** ** Structural validation *)

Section ValidationFacts.
Context {F : Type}.

Lemma has_required_keys_complete (it : item F) :
  has_required_keys it = negb (item_incomplete it).
Proof.
  unfold has_required_keys, item_incomplete.
  destruct (i_product_id it), (i_quantity it), (i_size it); reflexivity.
Qed.

Lemma forallb_required_keys (l : list (item F)) :
  forallb has_required_keys l = negb (existsb item_incomplete l).
Proof.
  induction l as [| it l IH]; simpl; [reflexivity |].
  rewrite IH, has_required_keys_complete, negb_orb. reflexivity.
Qed.

(** [validate_order_data] raises its 400 exactly on a structurally
    invalid request, and hands on the request otherwise. *)
Lemma validate_order_data_spec (data : order_data F) :
  validate_order_data data
  = if structurally_invalid data
    then Raise (HTTPException 400 (validation_detail data))
    else Ok (validated data).
Proof.
  unfold validate_order_data, structurally_invalid, validation_detail,
    validated, user_id_missing, items_missing, items_of, truthy_str.
  destruct (o_user_id data) as [[[| c u] |] |]; simpl; try reflexivity.
  destruct (o_items data) as [[| [| first others]] |]; simpl; try reflexivity.
  change (has_required_keys first && forallb has_required_keys others)
    with (forallb has_required_keys (first :: others)).
  rewrite forallb_required_keys. simpl.
  destruct (item_incomplete first || existsb item_incomplete others); reflexivity.
Qed.
End ValidationFacts.

(** ** The pricing pipeline *)

Section PipelineFacts.
Context {F : Type} {FO : FloatOps F} {RX : Regex}.

Lemma requested_ids_read (l : list (item F)) :
  existsb item_incomplete l = false ->
  map_result (fun it => getitem "product_id" (i_product_id it)) l
  = Ok (map (fun it => get_default (i_product_id it) "") l).
Proof.
  induction l as [| it l IH]; simpl; intros H; [reflexivity |].
  apply orb_false_iff in H. destruct H as [Hit Hl].
  rewrite (IH Hl). unfold item_incomplete in Hit.
  destruct (i_product_id it); [reflexivity | discriminate].
Qed.

(** The product map holds, under a printed id, a record read from the
    catalog that prints to it, and has every printed id of the
    records read. *)
Lemma product_map_lookup (found : list (product F)) (pid : string) :
  forall (m : dict (product F)) (Q : product F -> Prop),
    (forall p, In p found -> Bson.str (product_oid p) = pid -> Q p) ->
    ((exists v, dict_get pid m = Some v /\ Q v)
     \/ (exists p, In p found /\ Bson.str (product_oid p) = pid)) ->
    exists v,
      dict_get pid (fold_left (fun m p => dict_set (Bson.str (product_oid p)) p m)
                      found m) = Some v
      /\ Q v.
Proof.
  induction found as [| a found IH]; intros m Q HQ Hcase; simpl.
  - destruct Hcase as [Hm | [p [[] _]]]. exact Hm.
  - apply IH.
    + intros p Hp. apply HQ. right. exact Hp.
    + rewrite dict_get_set.
      destruct (String.eqb_spec pid (Bson.str (product_oid a))) as [E | Hne].
      * left. exists a. split; [reflexivity |].
        apply HQ; [left; reflexivity | symmetry; exact E].
      * destruct Hcase as [Hm | [p [[-> | Hp] Hstr]]].
        -- left. exact Hm.
        -- symmetry in Hstr. contradiction.
        -- right. exists p. split; assumption.
Qed.

Lemma product_map_of_get (found : list (product F)) (pid : string) :
  (exists p, In p found /\ Bson.str (product_oid p) = pid) ->
  exists v, dict_get pid (product_map_of found) = Some v
            /\ In v found /\ Bson.str (product_oid v) = pid.
Proof.
  intros H. unfold product_map_of.
  apply (product_map_lookup found pid []
           (fun v => In v found /\ Bson.str (product_oid v) = pid)).
  - intros p Hp Hstr. split; assumption.
  - right. exact H.
Qed.

Lemma product_map_sound (l : list (product F)) (pid : string) (v : product F) :
  forall m : dict (product F),
    dict_get pid (fold_left (fun m p => dict_set (Bson.str (product_oid p)) p m) l m)
    = Some v ->
    (In v l /\ Bson.str (product_oid v) = pid) \/ dict_get pid m = Some v.
Proof.
  induction l as [| a l IH]; intros m H; cbn [fold_left] in H.
  - right. exact H.
  - destruct (IH _ H) as [[Hin Hstr] | Hm].
    + left. split; [right; exact Hin | exact Hstr].
    + rewrite dict_get_set in Hm.
      destruct (String.eqb_spec pid (Bson.str (product_oid a))) as [E | _].
      * injection Hm as <-. left. split; [left; reflexivity | symmetry; exact E].
      * right. exact Hm.
Qed.

Lemma product_map_of_sound (l : list (product F)) (pid : string) (v : product F) :
  dict_get pid (product_map_of l) = Some v ->
  In v l /\ Bson.str (product_oid v) = pid.
Proof.
  intros H. destruct (product_map_sound l pid v [] H) as [Hv | Hempty];
    [exact Hv | discriminate].
Qed.

Lemma fits_int64_float (n : Z) : fits_int64 n = true -> fits_float n = true.
Proof.
  unfold fits_int64, fits_float, int_too_large. intros H.
  apply andb_true_iff in H. destruct H as [Hlo Hhi].
  apply Z.leb_le in Hlo. apply Z.ltb_lt in Hhi. apply Z.ltb_lt.
  assert (Hbig : 2 ^ 63 < 2 ^ 1024 - 2 ^ 970) by (vm_compute; reflexivity).
  set (a := 2 ^ 63) in *. set (b := 2 ^ 1024 - 2 ^ 970) in *.
  clearbody a b. lia.
Qed.

(** [enrich_item] gives the enriched item unless the quantity has no
    float. *)
Lemma enrich_item_run (it : item F) (p : product F) (quantity : Z) :
  enrich_item it p quantity
  = if fits_float quantity then Ok (enriched it p quantity) else Raise OverflowError.
Proof.
  unfold enrich_item, float_mul_int, float_of_int, enriched, unit_price.
  destruct (fits_float quantity); reflexivity.
Qed.

Lemma enriched_priced (products : list (product F)) (it : item F)
      (p : product F) (pid : string) (quantity : Z) :
  In p products -> Bson.str (product_oid p) = pid ->
  i_product_id it = Some pid -> i_quantity it = Some quantity ->
  priced_from products it (enriched it p quantity).
Proof.
  intros Hp Hstr Hpid Hq. exists p, quantity. subst pid.
  simpl. repeat split; assumption.
Qed.

(** The loop prices every item and accumulates the subtotals from the
    left, when every item is complete, its product is in the map and
    its quantity has a float. *)
Lemma enrich_items_priced (products : list (product F)) (m : dict (product F))
      (items : list (item F)) :
  (forall it, In it items ->
              item_incomplete it = false
              /\ (forall q, i_quantity it = Some q -> fits_float q = true)
              /\ exists p, dict_get (get_default (i_product_id it) "") m = Some p
                           /\ In p products
                           /\ Bson.str (product_oid p) = get_default (i_product_id it) "") ->
  forall subtotal,
  exists priced,
    enrich_items m items subtotal
    = Ok (priced, fold_left f_add (map item_subtotal priced) subtotal)
    /\ Forall2 (priced_from products) items priced.
Proof.
  induction items as [| it items IH]; intros Hall subtotal; cbn [enrich_items].
  - exists []. split; [reflexivity | constructor].
  - destruct (Hall it (or_introl eq_refl)) as [Hcomplete [Hfits [p [Hget [Hp Hstr]]]]].
    unfold item_incomplete in Hcomplete.
    destruct (i_product_id it) as [pid |] eqn:Epid; [| discriminate].
    destruct (i_size it) as [sz |] eqn:Esz; [| discriminate].
    destruct (i_quantity it) as [q |] eqn:Eq; [| discriminate].
    cbn [get_default] in Hget, Hstr. cbn [getitem bind]. rewrite Hget.
    rewrite enrich_item_run, (Hfits q eq_refl). cbn [bind].
    destruct (IH (fun it' H' => Hall it' (or_intror H'))
                (f_add subtotal
                   (get_default (i_subtotal (enriched it p q)) f_zero)))
      as [priced [Hrun Hrel]].
    rewrite Hrun. cbn [bind fst snd].
    exists (enriched it p q :: priced). split; [reflexivity |].
    constructor; [| exact Hrel].
    apply (enriched_priced products it p pid q); assumption.
Qed.

(** Conversely, what the loop returns is the items priced, when the
    map holds catalog records under their printed ids and has the id
    of every item. *)
Lemma enrich_items_ok_inv (products : list (product F)) (m : dict (product F))
      (items : list (item F)) :
  (forall pid p, dict_get pid m = Some p ->
                 In p products /\ Bson.str (product_oid p) = pid) ->
  (forall it pid, In it items -> i_product_id it = Some pid ->
                  dict_get pid m <> None) ->
  forall subtotal priced total,
    enrich_items m items subtotal = Ok (priced, total) ->
    Forall2 (priced_from products) items priced
    /\ total = fold_left f_add (map item_subtotal priced) subtotal.
Proof.
  intros Hsound.
  induction items as [| it items IH]; intros Hall subtotal priced total;
    cbn [enrich_items].
  - intros [= <- <-]. split; [constructor | reflexivity].
  - destruct (i_product_id it) as [pid |] eqn:Epid; cbn [getitem bind];
      [| intros H; discriminate H].
    destruct (dict_get pid m) as [p |] eqn:Hget.
    + destruct (i_quantity it) as [q |] eqn:Eq; cbn [getitem bind];
        [| intros H; discriminate H].
      rewrite enrich_item_run.
      destruct (fits_float q); cbn [bind]; [| intros H; discriminate H].
      destruct (enrich_items m items _) as [[rest t] |] eqn:Erest; cbn [bind fst snd];
        [| intros H; discriminate H].
      intros [= <- <-].
      destruct (IH (fun it' pid' H' => Hall it' pid' (or_intror H')) _ _ _ Erest)
        as [Hrel Ht].
      destruct (Hsound pid p Hget) as [Hp Hstr].
      split; [| exact Ht].
      constructor; [| exact Hrel].
      apply (enriched_priced products it p pid q); assumption.
    + exfalso. exact (Hall it pid (or_introl eq_refl) Epid Hget).
Qed.

Lemma process_item_priced (products : list (product F)) (it priced : item F) :
  priced_from products it priced -> process_item priced = priced.
Proof.
  intros [p [q [_ [_ [_ [_ [_ [_ [Hname [Hprice Hsub]]]]]]]]]].
  unfold process_item. rewrite Hname, Hprice, Hsub.
  destruct priced; simpl in *. subst. reflexivity.
Qed.

Lemma process_items_priced (products : list (product F)) (items priced : list (item F)) :
  Forall2 (priced_from products) items priced -> map process_item priced = priced.
Proof.
  induction 1 as [| it it' items priced Hrel _ IH]; simpl; [reflexivity |].
  rewrite (process_item_priced products it it' Hrel), IH. reflexivity.
Qed.

Lemma find_one_inserted (new_id : Bson.ObjectId) (orders : list (order_doc F))
      (d : order_doc F) :
  fresh_id orders new_id = true -> order_oid d = new_id ->
  find_one new_id (orders ++ [d]) = Some d.
Proof.
  unfold fresh_id, find_one. intros Hfresh Hid.
  apply negb_true_iff in Hfresh.
  induction orders as [| o orders IH]; simpl in *.
  - rewrite Hid, oid_eqb_refl. reflexivity.
  - apply orb_false_iff in Hfresh. destruct Hfresh as [Ho Hrest].
    rewrite Ho. exact (IH Hrest).
Qed.

(** With a fresh identifier the priced order is inserted and read
    back. *)
Lemma insert_and_read_fresh (new_id : Bson.ObjectId) (orders : list (order_doc F))
      (d : order_dict F (list (item F))) :
  fresh_id orders new_id = true ->
  insert_and_read new_id orders (Ok d)
  = (Ok (order_helper {| order_oid := new_id; order_fields := d |}),
     (orders ++ [ {| order_oid := new_id; order_fields := d |} ])%list).
Proof.
  intros Hfresh. unfold insert_and_read, insert_one.
  pose proof Hfresh as Hf. unfold fresh_id in Hf. apply negb_true_iff in Hf.
  rewrite Hf.
  rewrite (find_one_inserted new_id orders
             {| order_oid := new_id; order_fields := d |} Hfresh eq_refl).
  reflexivity.
Qed.

(** A call that raises leaves the collection as it was. *)
Lemma insert_and_read_raise (new_id : Bson.ObjectId) (orders : list (order_doc F))
      (e : exn) :
  insert_and_read new_id orders (Raise e) = (reraise_http (Raise e), orders).
Proof. reflexivity. Qed.
End PipelineFacts.

(** ** Strings *)

Lemma append_assoc (a b c : string) : ((a ++ b) ++ c = a ++ (b ++ c))%string.
Proof. induction a as [| x a IH]; simpl; [reflexivity | rewrite IH; reflexivity]. Qed.

Lemma append_empty_r (a : string) : (a ++ "" = a)%string.
Proof. induction a as [| x a IH]; simpl; [reflexivity | rewrite IH; reflexivity]. Qed.

Lemma occurs_in_prefixed (sub pre s : string) :
  occurs_in sub s -> occurs_in sub (pre ++ s).
Proof.
  intros [b [a ->]]. exists (pre ++ b)%string, a.
  rewrite append_assoc. reflexivity.
Qed.

(** Every element of a list occurs in the list joined by a separator. *)
Lemma occurs_in_concat (sep x : string) (l : list string) :
  In x l -> occurs_in x (String.concat sep l).
Proof.
  induction l as [| y l IH]; intros Hin; [destruct Hin |].
  destruct l as [| z l].
  - destruct Hin as [-> | []]. exists ""%string, ""%string. simpl.
    rewrite append_empty_r. reflexivity.
  - change (String.concat sep (y :: z :: l))
      with (y ++ sep ++ String.concat sep (z :: l))%string.
    destruct Hin as [-> | Hin].
    + exists ""%string, (sep ++ String.concat sep (z :: l))%string. reflexivity.
    + apply occurs_in_prefixed. apply occurs_in_prefixed. exact (IH Hin).
Qed.

(** ** [create_order] on resolved and on unresolved requests *)

Section CreateOrderFacts.
Context {F : Type} {FO : FloatOps F} {RX : Regex}.

Lemma valid_items_complete (data : order_data F) :
  structurally_invalid data = false ->
  existsb item_incomplete (items_of data) = false.
Proof.
  unfold structurally_invalid. intros H.
  apply orb_false_iff in H. tauto.
Qed.

Lemma priced_order_validated (now : datetime) (products : list (product F))
      (data : order_data F) :
  structurally_invalid data = false ->
  priced_order now products data = resolve_and_price now products (validated data).
Proof.
  intros H. unfold priced_order. rewrite validate_order_data_spec, H. reflexivity.
Qed.

(** A requested id the catalog lacks stops the pipeline with a 404
    that lists the missing ids. *)
Lemma resolve_and_price_missing (now : datetime) (products : list (product F))
      (data : order_data F) :
  structurally_invalid data = false ->
  snd (check_products_exist products (requested_ids data)) <> [] ->
  resolve_and_price now products (validated data)
  = Raise (HTTPException 404
             ("Products not found: "
              ++ String.concat ", "
                   (snd (check_products_exist products (requested_ids data))))).
Proof.
  intros Hvalid Hmissing. unfold resolve_and_price.
  cbn [validated with_items o_items get_default].
  rewrite (requested_ids_read (items_of data) (valid_items_complete data Hvalid)).
  cbn [bind]. fold (requested_ids data).
  destruct (check_products_exist products (requested_ids data)) as [found missing].
  cbn [snd] in Hmissing. destruct missing; [contradiction | reflexivity].
Qed.

(** When every requested id is in the catalog and the quantities are
    integers a document can hold, the pipeline prices the order. *)
Lemma resolve_and_price_resolved (now : datetime) (products : list (product F))
      (data : order_data F) :
  structurally_invalid data = false ->
  catalog_ok products = true ->
  forallb (in_catalog products) (requested_ids data) = true ->
  forallb quantity_storable (items_of data) = true ->
  exists priced,
    Forall2 (priced_from products) (items_of data) priced
    /\ resolve_and_price now products (validated data)
       = Ok (priced_dict now data priced).
Proof.
  intros Hvalid Hok Hall Hstorable.
  pose proof (valid_items_complete data Hvalid) as Hcomplete.
  pose proof (all_resolved_none_missing products (requested_ids data) Hok Hall) as Hnone.
  destruct (enrich_items_priced products
              (product_map_of (fst (check_products_exist products (requested_ids data))))
              (items_of data)) with (subtotal := f_zero) as [priced [Hrun Hrel]].
  { intros it Hit. split; [| split].
    - rewrite <- not_true_iff_false. intros Hinc.
      rewrite <- not_true_iff_false in Hcomplete. apply Hcomplete.
      apply existsb_exists. exists it. split; assumption.
    - intros q Hq. apply fits_int64_float.
      rewrite forallb_forall in Hstorable. pose proof (Hstorable it Hit) as Hs.
      unfold quantity_storable in Hs. rewrite Hq in Hs. exact Hs.
    - assert (Hreq : In (get_default (i_product_id it) "") (requested_ids data)).
      { unfold requested_ids. apply in_map_iff. exists it. split; [reflexivity | exact Hit]. }
      rewrite forallb_forall in Hall.
      destruct (resolved_found products (requested_ids data) _ Hok Hreq (Hall _ Hreq))
        as [p0 Hp0].
      destruct (product_map_of_get _ _ (ex_intro _ p0 Hp0)) as [p [Hget [Hp Hstr]]].
      exists p. split; [exact Hget |]. split; [| exact Hstr].
      exact (found_in_catalog products (requested_ids data) p Hp). }
  exists priced. split; [exact Hrel |].
  unfold resolve_and_price.
  cbn [validated with_items o_items get_default].
  rewrite (requested_ids_read (items_of data) Hcomplete).
  cbn [bind]. fold (requested_ids data).
  destruct (check_products_exist products (requested_ids data)) as [found missing].
  cbn [fst snd] in Hnone, Hrun. subst missing. rewrite Hrun. reflexivity.
Qed.

(** With nothing missing, every requested id is the printed id of a
    record read. *)
Lemma none_missing_found (products : list (product F)) (pids : list string)
      (pid : string) :
  snd (check_products_exist products pids) = [] -> In pid pids ->
  exists p, In p (fst (check_products_exist products pids))
            /\ Bson.str (product_oid p) = pid.
Proof.
  intros Hnone Hin.
  destruct (existsb (fun p => String.eqb (Bson.str (product_oid p)) pid)
              (fst (check_products_exist products pids))) eqn:E.
  - apply existsb_exists in E. destruct E as [p [Hp Heq]].
    apply String.eqb_eq in Heq. exists p. split; assumption.
  - exfalso.
    assert (Hmiss : In pid (snd (check_products_exist products pids))).
    { apply missing_In. split; [exact Hin |].
      intros [p [Hp Hstr]].
      assert (Et : existsb (fun p => String.eqb (Bson.str (product_oid p)) pid)
                     (fst (check_products_exist products pids)) = true).
      { apply existsb_exists. exists p. split; [exact Hp |].
        rewrite Hstr. apply String.eqb_refl. }
      rewrite Et in E. discriminate. }
    rewrite Hnone in Hmiss. destruct Hmiss.
Qed.

(** Conversely, a request the pipeline prices had all its products in
    the catalog, and the dict holds its items priced from them. *)
Lemma resolve_and_price_ok_inv (now : datetime) (products : list (product F))
      (data : order_data F) (d : order_dict F (list (item F))) :
  structurally_invalid data = false ->
  resolve_and_price now products (validated data) = Ok d ->
  exists priced,
    Forall2 (priced_from products) (items_of data) priced
    /\ d = priced_dict now data priced.
Proof.
  intros Hvalid.
  pose proof (valid_items_complete data Hvalid) as Hcomplete.
  unfold resolve_and_price.
  cbn [validated with_items o_items get_default].
  rewrite (requested_ids_read (items_of data) Hcomplete).
  cbn [bind]. fold (requested_ids data).
  pose proof (none_missing_found products (requested_ids data)) as Hfound.
  pose proof (found_in_catalog products (requested_ids data)) as Hcat.
  destruct (check_products_exist products (requested_ids data)) as [found missing].
  cbn [fst snd] in Hfound, Hcat.
  destruct missing as [| x missing]; [| intros H; discriminate H].
  destruct (enrich_items (product_map_of found) (items_of data) f_zero)
    as [[priced total] |] eqn:Erun; cbn [bind fst snd]; [| intros H; discriminate H].
  intros [= <-].
  destruct (enrich_items_ok_inv products (product_map_of found) (items_of data))
    with (subtotal := f_zero) (priced := priced) (total := total) as [Hrel Ht].
  - intros pid p Hget.
    destruct (product_map_of_sound found pid p Hget) as [Hp Hstr].
    split; [exact (Hcat p Hp) | exact Hstr].
  - intros it pid Hit Hpid Hget.
    assert (Hreq : In pid (requested_ids data)).
    { unfold requested_ids. apply in_map_iff. exists it.
      rewrite Hpid. split; [reflexivity | exact Hit]. }
    destruct (product_map_of_get found pid (Hfound pid eq_refl Hreq))
      as [p [Hget' _]].
    rewrite Hget' in Hget. discriminate.
  - exact Erun.
  - exists priced. split; [exact Hrel |]. subst total. reflexivity.
Qed.
End CreateOrderFacts.

Section CreateOrderClaims.
Context {F : Type} {FO : FloatOps F} {RX : Regex}.

Lemma reraise_http_not_ok {A : Type} (e : exn) (a : A) :
  reraise_http (Raise e) <> Ok a.
Proof. destruct e; discriminate. Qed.

(** A call that returns an order has priced the request, inserted the
    priced dict under the fresh identifier and read it back. *)
Lemma create_order_ok_inv (now : datetime) (new_id : Bson.ObjectId)
      (products : list (product F)) (orders orders' : list (order_doc F))
      (data : order_data F) (out : order_out F) :
  create_order now new_id products orders data = (Ok out, orders') ->
  exists d,
    priced_order now products data = Ok d
    /\ fresh_id orders new_id = true
    /\ orders' = (orders ++ [ {| order_oid := new_id; order_fields := d |} ])%list
    /\ out = order_helper {| order_oid := new_id; order_fields := d |}.
Proof.
  unfold create_order. destruct (priced_order now products data) as [d | e].
  - destruct (fresh_id orders new_id) eqn:Hfresh.
    + rewrite (insert_and_read_fresh new_id orders d Hfresh).
      intros [= <- <-]. exists d. repeat split; reflexivity.
    + unfold insert_and_read, insert_one. unfold fresh_id in Hfresh.
      apply negb_false_iff in Hfresh. rewrite Hfresh.
      intros H. discriminate H.
  - rewrite insert_and_read_raise. intros [= H _].
    exfalso. exact (reraise_http_not_ok e out H).
Qed.

Lemma resolve_and_price_status (now : datetime) (products : list (product F))
      (vd d : order_dict F (list (item F))) :
  resolve_and_price now products vd = Ok d ->
  o_order_status d = Some "pending" /\ o_payment_status d = Some "pending".
Proof.
  unfold resolve_and_price.
  destruct (map_result _ _) as [pids | e]; cbn [bind]; [| discriminate].
  destruct (check_products_exist products pids) as [found missing].
  destruct missing; [| discriminate].
  destruct (enrich_items _ _ _) as [priced | e]; cbn [bind]; [| discriminate].
  intros [= <-]. split; reflexivity.
Qed.

Lemma priced_order_status (now : datetime) (products : list (product F))
      (data : order_data F) (d : order_dict F (list (item F))) :
  priced_order now products data = Ok d ->
  o_order_status d = Some "pending" /\ o_payment_status d = Some "pending".
Proof.
  unfold priced_order. destruct (validate_order_data data) as [vd | e];
    cbn [bind]; [| discriminate].
  apply resolve_and_price_status.
Qed.
End CreateOrderClaims.

(** C1.  For every valid create-order request, the created order
    satisfies the pricing equations.  First, [create_order] does create
    an order when the request passes structural validation, every
    product id it asks for is the id of a catalog record, every quantity
    is an integer a document can hold (8 bytes; such an integer has a
    float), the catalog's identifiers are those the store generates and
    the order's identifier is fresh.  Second, whenever [create_order]
    returns an order, it has inserted one order and returned it, and in
    the created order: every item is the requested item with the unit
    price of its catalog record and [subtotal = round(price * quantity,
    2)]; the order's subtotal is the sum of the items' subtotals;
    [shipping_cost] and [tax] are the caller's, 0.0 when not supplied;
    and [total = round(subtotal + shipping_cost + tax, 2)].  (A quantity
    too large for a float makes the product raise, and the call answers
    500 without creating an order.) *)
Theorem create_order_totals {F : Type} {FO : FloatOps F} {RX : Regex}
        (now : datetime) (new_id : Bson.ObjectId)
        (products : list (product F)) (orders : list (order_doc F))
        (data : order_data F) :
  (structurally_invalid data = false ->
   catalog_ok products = true ->
   forallb (in_catalog products) (requested_ids data) = true ->
   forallb quantity_storable (items_of data) = true ->
   fresh_id orders new_id = true ->
   exists out orders',
     create_order now new_id products orders data = (Ok out, orders'))
  /\ forall out orders',
       create_order now new_id products orders data = (Ok out, orders') ->
       exists stored,
         orders' = (orders ++ [stored])%list
         /\ order_oid stored = new_id
         /\ out = order_helper stored
         /\ o_items (order_fields stored) = Some (out_items out)
         /\ o_subtotal (order_fields stored) = Some (out_subtotal out)
         /\ o_total (order_fields stored) = Some (out_total out)
         /\ Forall2 (priced_from products) (items_of data) (out_items out)
         /\ out_subtotal out = sum_subtotals (out_items out)
         /\ out_shipping_cost out = get_default (o_shipping_cost data) f_zero
         /\ out_tax out = get_default (o_tax data) f_zero
         /\ out_total out
            = f_round2 (f_add (f_add (out_subtotal out) (out_shipping_cost out))
                          (out_tax out)).
Proof.
  split.
  - intros Hvalid Hok Hall Hstorable Hfresh.
    destruct (resolve_and_price_resolved now products data Hvalid Hok Hall Hstorable)
      as [priced [_ Hrun]].
    unfold create_order.
    rewrite (priced_order_validated now products data Hvalid), Hrun.
    rewrite insert_and_read_fresh by exact Hfresh.
    eexists. eexists. reflexivity.
  - intros out orders' Hrun.
    destruct (create_order_ok_inv now new_id products orders orders' data out Hrun)
      as [d [Hpriced [_ [-> ->]]]].
    unfold priced_order in Hpriced. rewrite validate_order_data_spec in Hpriced.
    destruct (structurally_invalid data) eqn:Hvalid; cbn [bind] in Hpriced;
      [discriminate |].
    destruct (resolve_and_price_ok_inv now products data d Hvalid Hpriced)
      as [priced [Hrel ->]].
    eexists. split; [reflexivity |].
    cbn [order_oid order_fields order_helper out_items out_subtotal out_total
         out_shipping_cost out_tax priced_dict o_items o_subtotal o_total
         o_shipping_cost o_tax get_default].
    rewrite (process_items_priced products (items_of data) priced Hrel).
    repeat split; try reflexivity. exact Hrel.
Qed.

Lemma create_order_totals_witness :
  exists out orders',
    create_order Scenario.now (Scenario.oid Scenario.order_id) Scenario.catalog []
      Scenario.two_shirts = (Ok out, orders')
    /\ exists stored,
         orders' = ([] ++ [stored])%list
         /\ order_oid stored = Scenario.oid Scenario.order_id
         /\ out = order_helper stored
         /\ o_items (order_fields stored) = Some (out_items out)
         /\ o_subtotal (order_fields stored) = Some (out_subtotal out)
         /\ o_total (order_fields stored) = Some (out_total out)
         /\ Forall2 (priced_from Scenario.catalog) (items_of Scenario.two_shirts)
              (out_items out)
         /\ out_subtotal out = sum_subtotals (out_items out)
         /\ out_shipping_cost out = get_default (o_shipping_cost Scenario.two_shirts) f_zero
         /\ out_tax out = get_default (o_tax Scenario.two_shirts) f_zero
         /\ out_total out
            = f_round2 (f_add (f_add (out_subtotal out) (out_shipping_cost out))
                          (out_tax out)).
Proof.
  destruct (create_order_totals Scenario.now (Scenario.oid Scenario.order_id)
              Scenario.catalog [] Scenario.two_shirts) as [Hcreates Hpriced].
  destruct (Hcreates eq_refl eq_refl eq_refl eq_refl eq_refl) as [out [orders' Hrun]].
  exists out, orders'. split; [exact Hrun |].
  exact (Hpriced out orders' Hrun).
Defined.

(** The scenario of the specification: two items at 29.99 give a
    subtotal and a total of 59.98, pending. *)
Example two_shirts_order :
  exists out orders',
    create_order Scenario.now (Scenario.oid Scenario.order_id) Scenario.catalog []
      Scenario.two_shirts = (Ok out, orders')
    /\ out_subtotal out = 5998 /\ out_total out = 5998
    /\ out_order_status out = "pending" /\ out_payment_status out = "pending".
Proof. eexists. eexists. split; [reflexivity |]. repeat split. Qed.

(** A quantity that has no float: the product of price and quantity
    raises, the call answers 500 and nothing is stored. *)
Example create_order_quantity_without_float :
  create_order Scenario.now (Scenario.oid Scenario.order_id) Scenario.catalog []
    (Scenario.request [Scenario.line Scenario.shirt_id "M" (10 ^ 400)])
  = (Raise (HTTPException 500 "Internal server error"), []).
Proof. vm_compute. reflexivity. Qed.

(** C6.  For every create-order request, whatever [order_status] and
    [payment_status] the caller put in it, the order that [create_order]
    creates has [order_status = "pending"] and
    [payment_status = "pending"], in the record returned and in the
    document stored. *)
Theorem create_order_status_pending {F : Type} {FO : FloatOps F} {RX : Regex}
        (now : datetime) (new_id : Bson.ObjectId)
        (products : list (product F)) (orders orders' : list (order_doc F))
        (data : order_data F) (out : order_out F) :
  create_order now new_id products orders data = (Ok out, orders') ->
  out_order_status out = "pending"
  /\ out_payment_status out = "pending"
  /\ exists stored,
       orders' = (orders ++ [stored])%list
       /\ o_order_status (order_fields stored) = Some "pending"
       /\ o_payment_status (order_fields stored) = Some "pending".
Proof.
  intros Hrun.
  destruct (create_order_ok_inv now new_id products orders orders' data out Hrun)
    as [d [Hpriced [_ [-> ->]]]].
  destruct (priced_order_status now products data d Hpriced) as [Hos Hps].
  unfold order_helper. cbn [out_order_status out_payment_status order_fields].
  rewrite Hos, Hps. repeat split.
  eexists. split; [reflexivity |]. cbn [order_fields]. split; assumption.
Qed.

Lemma create_order_status_pending_witness :
  exists out orders',
    create_order Scenario.now (Scenario.oid Scenario.order_id) Scenario.catalog []
      (Scenario.request_with [Scenario.line Scenario.shirt_id "M" 2]
         (Some "shipped") (Some "paid")) = (Ok out, orders')
    /\ out_order_status out = "pending"
    /\ out_payment_status out = "pending"
    /\ exists stored,
         orders' = ([] ++ [stored])%list
         /\ o_order_status (order_fields stored) = Some "pending"
         /\ o_payment_status (order_fields stored) = Some "pending".
Proof.
  eexists. eexists. split; [reflexivity |].
  apply (create_order_status_pending Scenario.now (Scenario.oid Scenario.order_id)
           Scenario.catalog [] _
           (Scenario.request_with [Scenario.line Scenario.shirt_id "M" 2]
              (Some "shipped") (Some "paid")) _).
  reflexivity.
Defined.

(** C2.  For every create-order request that passes structural
    validation and asks for at least one product id that no catalog
    record has, [create_order] raises a 404 whose detail is
    ["Products not found: "] followed by the missing ids joined by
    [", "]; every requested id the catalog lacks is among them and
    occurs in the detail; the [orders] collection is left as it was. *)
Theorem create_order_missing_products {F : Type} {FO : FloatOps F} {RX : Regex}
        (now : datetime) (new_id : Bson.ObjectId)
        (products : list (product F)) (orders : list (order_doc F))
        (data : order_data F) (pid : string) :
  structurally_invalid data = false ->
  In pid (requested_ids data) ->
  in_catalog products pid = false ->
  let missing_ids := snd (check_products_exist products (requested_ids data)) in
  let detail := ("Products not found: " ++ String.concat ", " missing_ids)%string in
  create_order now new_id products orders data
  = (Raise (HTTPException 404 detail), orders)
  /\ forall pid',
       In pid' (requested_ids data) -> in_catalog products pid' = false ->
       In pid' missing_ids /\ occurs_in pid' detail.
Proof.
  intros Hvalid Hin Habs missing_ids detail.
  assert (Hmissing : forall pid', In pid' (requested_ids data) ->
                                  in_catalog products pid' = false ->
                                  In pid' missing_ids).
  { intros pid' Hin' Habs'. apply absent_is_missing; assumption. }
  split.
  - unfold create_order.
    rewrite (priced_order_validated now products data Hvalid).
    rewrite (resolve_and_price_missing now products data Hvalid).
    + reflexivity.
    + intros E. pose proof (Hmissing pid Hin Habs) as H.
      unfold missing_ids in H. rewrite E in H. destruct H.
  - intros pid' Hin' Habs'. split; [exact (Hmissing pid' Hin' Habs') |].
    unfold detail. apply occurs_in_prefixed. apply occurs_in_concat.
    exact (Hmissing pid' Hin' Habs').
Qed.

Lemma create_order_missing_products_witness :
  let data := Scenario.request
                [ Scenario.line Scenario.absent_id "M" 1;
                  Scenario.line Scenario.shirt_id "M" 2;
                  Scenario.line Scenario.other_absent_id "S" 1 ] in
  let missing_ids := snd (check_products_exist Scenario.catalog (requested_ids data)) in
  let detail := ("Products not found: " ++ String.concat ", " missing_ids)%string in
  create_order Scenario.now (Scenario.oid Scenario.order_id) Scenario.catalog
    Scenario.orders_after data
  = (Raise (HTTPException 404 detail), Scenario.orders_after)
  /\ forall pid',
       In pid' (requested_ids data) -> in_catalog Scenario.catalog pid' = false ->
       In pid' missing_ids /\ occurs_in pid' detail.
Proof.
  apply (create_order_missing_products Scenario.now (Scenario.oid Scenario.order_id)
           Scenario.catalog Scenario.orders_after
           (Scenario.request
              [ Scenario.line Scenario.absent_id "M" 1;
                Scenario.line Scenario.shirt_id "M" 2;
                Scenario.line Scenario.other_absent_id "S" 1 ])
           Scenario.absent_id).
  - reflexivity.
  - simpl. left. reflexivity.
  - reflexivity.
Defined.

(** With one product of three missing, and one id malformed, the
    detail names both and nothing is stored. *)
Example one_of_three_missing :
  create_order Scenario.now (Scenario.oid Scenario.order_id) Scenario.catalog []
    (Scenario.request
       [ Scenario.line Scenario.absent_id "M" 1;
         Scenario.line Scenario.shirt_id "M" 2;
         Scenario.line Scenario.other_absent_id "S" 1 ])
  = (Raise (HTTPException 404
              "Products not found: 64b7f0a1c2d3e4f5a6b7c8db, not-an-object-id"),
     []).
Proof. reflexivity. Qed.

(** C7, as amended.  [create_order] raises a 400 and creates no order
    exactly when [user_id] is absent, None or empty, or [items] is
    absent, not a list or empty, or some item lacks [product_id], [size]
    or [quantity]; on every other request it goes on to product
    resolution with the request as given.  The sign of a quantity is not
    looked at. *)
Theorem create_order_validation {F : Type} {FO : FloatOps F} {RX : Regex}
        (now : datetime) (new_id : Bson.ObjectId)
        (products : list (product F)) (orders : list (order_doc F))
        (data : order_data F) :
  create_order now new_id products orders data
  = if structurally_invalid data
    then (Raise (HTTPException 400 (validation_detail data)), orders)
    else insert_and_read new_id orders
           (resolve_and_price now products (validated data)).
Proof.
  unfold create_order, priced_order.
  rewrite validate_order_data_spec.
  destruct (structurally_invalid data); reflexivity.
Qed.

(** C7 as stated fails: a request whose only item has quantity 0 is
    among those the claim has rejected with a 400, and [create_order]
    creates an order for it. *)
Lemma create_order_accepts_zero_quantity :
  let data := Scenario.request [Scenario.line Scenario.shirt_id "M" 0] in
  structurally_invalid_or_quantity data = true
  /\ exists out stored,
       create_order Scenario.now (Scenario.oid Scenario.order_id) Scenario.catalog [] data
       = (Ok out, [stored])
       /\ out_total out = 0.
Proof.
  split; [reflexivity |].
  eexists. eexists. split; reflexivity.
Qed.

(** ** Listing orders *)

Section ListOrdersFacts.
Context {F : Type} {FO : FloatOps F} {RX : Regex}.

Lemma query_matches_entry (view : string -> fieldval F) (q : query F)
      (k : string) (c : cond F) :
  query_matches view q = true -> dict_get k q = Some c ->
  cond_matches view (k, c) = true.
Proof.
  unfold query_matches. induction q as [| [k0 c0] q IH]; simpl; intros Hq Hget.
  - discriminate.
  - apply andb_true_iff in Hq. destruct Hq as [H0 Hrest].
    destruct (String.eqb_spec k k0) as [-> | _].
    + injection Hget as <-. exact H0.
    + exact (IH Hrest Hget).
Qed.

Lemma status_entry (filters : OrderFilter F) (s : OrderStatus) :
  of_order_status filters = Some s ->
  dict_get "status" (list_orders_query filters)
  = Some (Field (LEq (order_status_value s))).
Proof.
  intros Hs. unfold list_orders_query, set_gte, set_lte. rewrite Hs.
  destruct (truthy_str (of_user_id filters)),
    (of_payment_status filters), (of_min_total filters), (of_max_total filters),
    (truthy_str (of_date_from filters) || truthy_str (of_date_to filters));
    repeat rewrite dict_get_set; reflexivity.
Qed.

(** The order-status filter is a condition on the field ["status"]: a
    document it lets through has that field, whatever its
    ["order_status"] is; [create_order] never sets it. *)
Lemma status_filter_reads_status (orders : list (order_doc F))
      (filters : OrderFilter F) (s : OrderStatus) (o : order_doc F) :
  of_order_status filters = Some s ->
  In o (find_orders (list_orders_query filters) orders) ->
  o_status (order_fields o) = Some (order_status_value s).
Proof.
  intros Hs Hin. unfold find_orders in Hin. apply filter_In in Hin.
  destruct Hin as [_ Hq].
  pose proof (query_matches_entry _ _ _ _ Hq (status_entry filters s Hs)) as H.
  unfold cond_matches in H. cbn [fst snd] in H.
  change (order_field o "status") with (opt_val (@VStr F) (o_status (order_fields o))) in H.
  destruct (o_status (order_fields o)) as [v |]; simpl in H; [| discriminate].
  apply String.eqb_eq in H. rewrite H. reflexivity.
Qed.

Lemma total_amount_entry (filters : OrderFilter F) :
  of_min_total filters <> None \/ of_max_total filters <> None ->
  dict_get "total_amount" (list_orders_query filters)
  = Some (Field (LRange (of_min_total filters) (of_max_total filters))).
Proof.
  intros H. unfold list_orders_query, set_gte, set_lte, range_of.
  destruct (truthy_str (of_user_id filters)), (of_order_status filters),
    (of_payment_status filters),
    (of_min_total filters), (of_max_total filters),
    (truthy_str (of_date_from filters) || truthy_str (of_date_to filters));
    try (destruct H as [H | H]; congruence);
    repeat (rewrite dict_get_set; cbn [String.eqb Ascii.eqb Bool.eqb andb fst snd]);
    reflexivity.
Qed.

(** The total filters are a condition on the field ["total_amount"];
    [create_order] writes ["total"]. *)
Lemma total_filter_reads_total_amount (orders : list (order_doc F))
      (filters : OrderFilter F) (o : order_doc F) :
  of_min_total filters <> None \/ of_max_total filters <> None ->
  In o (find_orders (list_orders_query filters) orders) ->
  exists t, o_total_amount (order_fields o) = Some t
            /\ in_range (of_min_total filters) (of_max_total filters) t = true.
Proof.
  intros Hf Hin. unfold find_orders in Hin. apply filter_In in Hin.
  destruct Hin as [_ Hq].
  pose proof (query_matches_entry _ _ _ _ Hq (total_amount_entry filters Hf)) as H.
  unfold cond_matches in H. cbn [fst snd] in H.
  change (order_field o "total_amount")
    with (opt_val (@VNum F) (o_total_amount (order_fields o))) in H.
  destruct (o_total_amount (order_fields o)) as [t |]; simpl in H; [| discriminate].
  exists t. split; [reflexivity | exact H].
Qed.
End ListOrdersFacts.

(** C3 (the code departs from the claim).  The order created by
    [create_order] for the scenario request is stored with
    [order_status = "pending"] and [total = 59.98] and is listed when no
    filter is set; [list_orders] with [order_status = pending] does not
    return it, nor does [list_orders] with [min_total = 0] and
    [max_total = 100]: the filters are conditions on the fields
    ["status"] and ["total_amount"], which [create_order] does not
    write. *)
Theorem list_orders_misses_created_order :
  (exists stored,
     Scenario.orders_after = [stored]
     /\ o_order_status (order_fields stored) = Some (order_status_value PENDING)
     /\ o_total (order_fields stored) = Some 5998
     /\ exists meta,
          list_orders Scenario.orders_after Scenario.first_page Scenario.no_order_filter
          = Ok ([order_helper stored], meta)
          /\ total_items meta = 1)
  /\ (exists meta,
        list_orders Scenario.orders_after Scenario.first_page Scenario.pending_orders
        = Ok ([], meta)
        /\ total_items meta = 0)
  /\ (exists meta,
        list_orders Scenario.orders_after Scenario.first_page Scenario.total_up_to_100
        = Ok ([], meta)
        /\ total_items meta = 0).
Proof.
  split; [| split].
  - eexists. split; [reflexivity |]. split; [reflexivity |]. split; [reflexivity |].
    eexists. split; reflexivity.
  - eexists. split; reflexivity.
  - eexists. split; reflexivity.
Qed.

(** ** Updating an order's status *)

(** C5 (the code departs from the claim).  For every collection of
    orders, every order id and every status that is not one of
    [pending], [processing], [shipped], [delivered], [cancelled],
    [update_order_status] leaves the collection unchanged, as the claim
    states, but the 400 it raises for the status is caught by its own
    [except Exception] and what the caller gets is a 500
    ["Internal server error"]. *)
Theorem update_order_status_unknown_status {F : Type}
        (now : datetime) (orders : list (order_doc F)) (order_id status : string) :
  existsb (String.eqb status) valid_statuses = false ->
  update_order_status now orders order_id status
  = (Raise (HTTPException 500 "Internal server error"), orders).
Proof.
  intros Hstatus. unfold update_order_status.
  destruct (convert_objectid order_id) as [object_id | e].
  - rewrite Hstatus. reflexivity.
  - reflexivity.
Qed.

Lemma update_order_status_unknown_status_witness :
  existsb (String.eqb "bogus") valid_statuses = false
  /\ update_order_status 3000 Scenario.orders_after Scenario.order_id "bogus"
     = (Raise (HTTPException 500 "Internal server error"), Scenario.orders_after).
Proof.
  split.
  - reflexivity.
  - apply (update_order_status_unknown_status 3000 Scenario.orders_after
             Scenario.order_id "bogus").
    reflexivity.
Defined.

(** ** The product query *)

Section ProductQueryFacts.
Context {F : Type} {FO : FloatOps F} {RX : Regex}.

Lemma eq_on_field (v : string) (a : option string) :
  leaf_matches (LEq v) (opt_val (@VStr F) a)
  = match a with Some x => String.eqb x v | None => false end.
Proof. destruct a; reflexivity. Qed.

Lemma range_on_field (lo hi : option F) (a : option F) :
  leaf_matches (LRange lo hi) (opt_val (@VNum F) a)
  = match a with Some x => in_range lo hi x | None => false end.
Proof. destruct a; reflexivity. Qed.

Lemma regex_on_field (s : string) (a : option string) :
  leaf_matches (@LRegexI F s) (opt_val (@VStr F) a)
  = match a with Some x => regex_search_i s x | None => false end.
Proof. destruct a; reflexivity. Qed.

Lemma label_among (v : string) (sizes : list size_entry) :
  existsb (fun s => String.eqb s v) (map size_label sizes)
  = existsb (fun e => String.eqb (size_label e) v) sizes.
Proof.
  induction sizes as [| e sizes IH]; simpl; [reflexivity | rewrite IH; reflexivity].
Qed.

Lemma tag_among (s : string) (tags : list string) :
  existsb (fun t => existsb (String.eqb t) [s]) tags = existsb (String.eqb s) tags.
Proof.
  induction tags as [| t tags IH]; [reflexivity |].
  change (existsb (fun t => existsb (String.eqb t) [s]) (t :: tags))
    with (existsb (String.eqb t) [s]
          || existsb (fun t => existsb (String.eqb t) [s]) tags).
  rewrite IH. simpl. rewrite orb_false_r, (String.eqb_sym t s). reflexivity.
Qed.

(** The two alternatives of [in_stock = false] say no more than the
    second: a list of no sizes has none in stock. *)
Lemma out_of_stock_alternatives_hold (sizes : list size_entry) :
  (List.length sizes =? 0)%nat || (negb (some_in_stock sizes) || false)
  = negb (some_in_stock sizes).
Proof. destruct sizes; simpl; [reflexivity | rewrite orb_false_r; reflexivity]. Qed.

Ltac read_fields :=
  unfold query_matches, cond_matches;
  cbn [forallb existsb fst snd search_alternatives out_of_stock_alternatives];
  change (product_field ?p "category") with (opt_val (@VStr F) (p_category p));
  change (product_field ?p "brand") with (opt_val (@VStr F) (p_brand p));
  change (product_field ?p "price") with (opt_val (@VNum F) (p_price p));
  change (product_field ?p "name") with (opt_val (@VStr F) (p_name p));
  change (product_field ?p "description") with (opt_val (@VStr F) (p_description p));
  change (product_field ?p "tags") with (@VStrs F (p_tags p));
  change (product_field ?p "sizes") with (@VSizes F (p_sizes p));
  change (product_field ?p "sizes.size") with (@VStrs F (map size_label (p_sizes p)));
  rewrite ?eq_on_field, ?range_on_field, ?regex_on_field;
  cbn [leaf_matches];
  rewrite ?label_among, ?tag_among, ?out_of_stock_alternatives_hold.

(** When [in_stock = false] and a search term do not come together,
    the query holds of a product exactly when every supplied
    condition does. *)
Lemma query_is_conjunction (fp : ProductFilter F) (p : product F) :
  (pf_in_stock fp = Some false -> truthy_str (pf_search fp) = false) ->
  query_matches (product_field p) (list_products_query fp) = product_satisfies fp p.
Proof.
  intros Hclash.
  unfold list_products_query, product_satisfies, equals_wanted, price_holds,
    size_holds, stock_holds, search_holds, set_gte, set_lte.
  destruct (truthy_str (pf_category fp)), (truthy_str (pf_brand fp)),
    (pf_min_price fp), (pf_max_price fp), (truthy_str (pf_size fp)),
    (pf_in_stock fp) as [[|] |], (truthy_str (pf_search fp));
    try (specialize (Hclash eq_refl); discriminate Hclash);
    cbn [dict_set dict_get range_of String.eqb Ascii.eqb Bool.eqb andb fst snd];
    read_fields;
    cbn [andb orb];
    rewrite ?andb_true_r, ?orb_false_r, ?andb_assoc, ?orb_assoc;
    reflexivity.
Qed.
End ProductQueryFacts.

(** C8 (the code departs from the claim).  When [in_stock = false] and
    a search term are supplied together, the search's ["$or"] replaces
    the ["$or"] that [in_stock = false] had set: the query built is the
    one built without [in_stock], and it holds of a product exactly
    when the other supplied conditions do, in stock or not. *)
Theorem search_replaces_out_of_stock_condition {F : Type} {FO : FloatOps F} {RX : Regex}
        (fp : ProductFilter F) :
  pf_in_stock fp = Some false ->
  truthy_str (pf_search fp) = true ->
  list_products_query fp = list_products_query (without_in_stock fp)
  /\ dict_get "$or" (list_products_query fp)
     = Some (Or (search_alternatives (get_default (pf_search fp) "")))
  /\ forall p,
       query_matches (product_field p) (list_products_query fp)
       = product_satisfies (without_in_stock fp) p.
Proof.
  intros Hstock Hsearch.
  assert (E : list_products_query fp = list_products_query (without_in_stock fp)).
  { unfold list_products_query, without_in_stock. cbn [pf_category pf_brand
      pf_min_price pf_max_price pf_size pf_in_stock pf_search].
    rewrite Hstock, Hsearch. apply dict_set_overwrites. }
  split; [exact E |]. split.
  - unfold list_products_query. rewrite Hstock, Hsearch.
    rewrite dict_get_set. reflexivity.
  - intros p. rewrite E. apply query_is_conjunction.
    cbn [without_in_stock pf_in_stock]. discriminate.
Qed.

Lemma search_replaces_out_of_stock_condition_witness :
  let fp := Scenario.out_of_stock_search "shirt" in
  list_products_query fp = list_products_query (without_in_stock fp)
  /\ dict_get "$or" (list_products_query fp)
     = Some (Or (search_alternatives (get_default (pf_search fp) "")))
  /\ forall p,
       query_matches (product_field p) (list_products_query fp)
       = product_satisfies (without_in_stock fp) p.
Proof.
  apply (search_replaces_out_of_stock_condition (Scenario.out_of_stock_search "shirt"));
    reflexivity.
Defined.

(** The shirt has five in stock and does not satisfy [in_stock = false];
    a listing with [in_stock = false] and the search term "shirt"
    returns it, first of two. *)
Example in_stock_shirt_listed :
  some_in_stock (p_sizes Scenario.shirt) = true
  /\ product_satisfies (Scenario.out_of_stock_search "shirt") Scenario.shirt = false
  /\ exists items meta,
       list_products Scenario.catalog Scenario.first_page
         (Scenario.out_of_stock_search "shirt") = Ok (items, meta)
       /\ map (@po_fields Cents.t) items = [Scenario.cap; Scenario.shirt]
       /\ total_items meta = 2.
Proof.
  split; [reflexivity |]. split; [reflexivity |].
  eexists. eexists. split; [reflexivity |]. split; reflexivity.
Qed.

(** ** The existence check on a non-canonical spelling *)

(** C9 (the code departs from the claim).  Asked for the shirt's id
    written in upper case, [check_products_exist] returns the shirt's
    record among the found records and the requested id among the
    missing ids: the id parses to the shirt's identifier, and is then
    compared, as a string, with the lower-case printed identifier. *)
Theorem check_products_exist_upper_case_id :
  Bson.of_str Scenario.shirt_id_upper = Some (product_oid Scenario.shirt)
  /\ check_products_exist Scenario.catalog [Scenario.shirt_id_upper]
     = ([Scenario.shirt], [Scenario.shirt_id_upper]).
Proof. split; reflexivity. Qed.

(** On the same catalog the canonical spelling resolves, and an id that
    is no identifier is reported missing without an error. *)
Example check_products_exist_canonical :
  check_products_exist Scenario.catalog
    [Scenario.shirt_id; Scenario.other_absent_id; Scenario.absent_id]
  = ([Scenario.shirt], [Scenario.other_absent_id; Scenario.absent_id]).
Proof. reflexivity. Qed.

(** An order for the shirt under that spelling is refused as if the
    shirt were not in the catalog. *)
Example create_order_upper_case_id :
  create_order Scenario.now (Scenario.oid Scenario.order_id) Scenario.catalog []
    (Scenario.request [Scenario.line Scenario.shirt_id_upper "M" 2])
  = (Raise (HTTPException 404 "Products not found: 64B7F0A1C2D3E4F5A6B7C8D9"), []).
Proof. reflexivity. Qed.

(** ** The order read path *)

(** C10.  For every stored order document, the record [order_helper]
    returns carries: as [order_status], the document's [order_status]
    if present, else its [status], else ["pending"]; as
    [payment_status], the document's, else ["pending"]; as [total], the
    document's [total] if present, else its [total_amount], else 0.0. *)
Theorem order_helper_defaults {F : Type} {FO : FloatOps F} (order : order_doc F) :
  let d := order_fields order in
  let out := order_helper order in
  (forall s, o_order_status d = Some s -> out_order_status out = s)
  /\ (o_order_status d = None ->
      forall s, o_status d = Some s -> out_order_status out = s)
  /\ (o_order_status d = None -> o_status d = None ->
      out_order_status out = "pending")
  /\ (forall s, o_payment_status d = Some s -> out_payment_status out = s)
  /\ (o_payment_status d = None -> out_payment_status out = "pending")
  /\ (forall t, o_total d = Some t -> out_total out = t)
  /\ (o_total d = None -> forall t, o_total_amount d = Some t -> out_total out = t)
  /\ (o_total d = None -> o_total_amount d = None -> out_total out = f_zero).
Proof.
  cbv zeta. unfold order_helper.
  cbn [out_order_status out_payment_status out_total].
  repeat split.
  - intros s ->. reflexivity.
  - intros -> s ->. reflexivity.
  - intros -> ->. reflexivity.
  - intros s ->. reflexivity.
  - intros ->. reflexivity.
  - intros t ->. reflexivity.
  - intros -> t ->. reflexivity.
  - intros -> ->. reflexivity.
Qed.

(** * Further properties of the code *)

(** ** Page counts and windows *)

Lemma ceiling_bounds (n s : Z) :
  0 < s -> (((n + s - 1) / s) - 1) * s < n <= ((n + s - 1) / s) * s.
Proof.
  intros Hs.
  pose proof (Z.div_mod (n + s - 1) s ltac:(lia)) as Hdm.
  pose proof (Z.mod_pos_bound (n + s - 1) s Hs) as Hmod.
  nia.
Qed.

(** X1.  For valid pagination params and a positive item count, the
    two schema builders return the same metadata, and its [total_pages]
    is the ceiling of [total_items / page_size]: the pages before the
    last do not hold all the items, all the pages do. *)
Theorem total_pages_is_ceiling (params : PaginationParams) (n : Z) :
  valid_params params -> 0 < n ->
  exists m,
    SchemasPagination.create params n = Ok m
    /\ SchemasCommonV2.create params n = Ok m
    /\ total_items m = n
    /\ (total_pages m - 1) * page_size params < n <= total_pages m * page_size params.
Proof.
  intros [_ [Hs _]] Hn.
  unfold SchemasPagination.create, SchemasCommonV2.create.
  assert (E : (n >? 0) = true) by (apply Z.gtb_lt; lia).
  rewrite E, floordiv_ok by lia. cbn [bind].
  eexists. split; [reflexivity |]. split; [reflexivity |].
  cbn [total_items total_pages]. split; [reflexivity |].
  apply ceiling_bounds. lia.
Qed.

Lemma total_pages_is_ceiling_witness :
  exists m,
    SchemasPagination.create {| page := 2; page_size := 10 |} 25 = Ok m
    /\ SchemasCommonV2.create {| page := 2; page_size := 10 |} 25 = Ok m
    /\ total_items m = 25
    /\ (total_pages m - 1) * 10 < 25 <= total_pages m * 10.
Proof.
  apply (total_pages_is_ceiling {| page := 2; page_size := 10 |} 25).
  - unfold valid_params. simpl. lia.
  - lia.
Defined.

(** X2.  For valid pagination params and any item count that is not
    negative, both schema builders set [has_next] exactly when items
    remain after the page's window, that is when
    [skip + limit < total_items]; this holds of the empty result too,
    where the two builders differ on [total_pages]. *)
Theorem has_next_iff_items_remain (params : PaginationParams) (n : Z) :
  valid_params params -> 0 <= n ->
  exists m1 m2,
    SchemasPagination.create params n = Ok m1
    /\ SchemasCommonV2.create params n = Ok m2
    /\ has_next m1 = (skip params + limit params <? n)
    /\ has_next m2 = (skip params + limit params <? n)
    /\ has_previous m1 = (0 <? skip params)
    /\ has_previous m2 = (0 <? skip params).
Proof.
  intros [Hp [Hs _]] Hn.
  unfold SchemasPagination.create, SchemasCommonV2.create, skip, limit.
  assert (Hprev : (page params >? 1) = (0 <? (page params - 1) * page_size params)).
  { destruct (Z.ltb_spec 0 ((page params - 1) * page_size params));
      [apply Z.gtb_lt | rewrite Z.gtb_ltb; apply Z.ltb_ge]; nia. }
  destruct (Z.gtb_spec n 0) as [Hpos | Hzero].
  - rewrite floordiv_ok by lia. cbn [bind].
    eexists. eexists. split; [reflexivity |]. split; [reflexivity |].
    cbn [has_next has_previous].
    pose proof (ceiling_bounds n (page_size params) ltac:(lia)) as Hc.
    assert (Hnext : (page params <? (n + page_size params - 1) / page_size params)
                    = ((page params - 1) * page_size params + page_size params <? n)).
    { destruct (Z.ltb_spec ((page params - 1) * page_size params + page_size params) n);
        [apply Z.ltb_lt | apply Z.ltb_ge]; nia. }
    rewrite Hnext, Hprev. repeat split.
  - cbn [bind].
    eexists. eexists. split; [reflexivity |]. split; [reflexivity |].
    cbn [has_next has_previous]. rewrite Hprev.
    assert (Hnone : ((page params - 1) * page_size params + page_size params <? n) = false)
      by (apply Z.ltb_ge; nia).
    rewrite Hnone. repeat split; apply Z.ltb_ge; lia.
Qed.

Lemma has_next_iff_items_remain_witness :
  exists m1 m2,
    SchemasPagination.create {| page := 3; page_size := 10 |} 25 = Ok m1
    /\ SchemasCommonV2.create {| page := 3; page_size := 10 |} 25 = Ok m2
    /\ has_next m1 = (skip {| page := 3; page_size := 10 |}
                      + limit {| page := 3; page_size := 10 |} <? 25)
    /\ has_next m2 = (skip {| page := 3; page_size := 10 |}
                      + limit {| page := 3; page_size := 10 |} <? 25)
    /\ has_previous m1 = (0 <? skip {| page := 3; page_size := 10 |})
    /\ has_previous m2 = (0 <? skip {| page := 3; page_size := 10 |}).
Proof.
  apply (has_next_iff_items_remain {| page := 3; page_size := 10 |} 25).
  - unfold valid_params. simpl. lia.
  - lia.
Defined.

Lemma firstn_plus {A : Type} (a b : nat) (l : list A) :
  List.firstn (a + b) l = (List.firstn a l ++ List.firstn b (List.skipn a l))%list.
Proof.
  revert l. induction a as [| a IH]; intros l; [reflexivity |].
  destruct l as [| x l]; simpl.
  - rewrite firstn_nil. reflexivity.
  - rewrite IH. reflexivity.
Qed.

(** The window of page [k + 1]. *)
Lemma window_of_page {A : Type} (k : nat) (s : Z) (l : list A) :
  0 < s ->
  window (skip {| page := Z.of_nat (S k); page_size := s |})
    (limit {| page := Z.of_nat (S k); page_size := s |}) l
  = List.firstn (Z.to_nat s) (List.skipn (k * Z.to_nat s) l).
Proof.
  intros Hs. unfold window, skip, limit. cbn [page page_size].
  destruct (Z.eqb_spec s 0) as [E | _]; [lia |].
  replace (Z.to_nat ((Z.of_nat (S k) - 1) * s)) with (k * Z.to_nat s)%nat by nia.
  reflexivity.
Qed.

Lemma pages_are_a_prefix {A : Type} (s : Z) (l : list A) (pages : nat) :
  0 < s ->
  flat_map (fun k => window (skip {| page := Z.of_nat k; page_size := s |})
                       (limit {| page := Z.of_nat k; page_size := s |}) l)
    (seq 1 pages)
  = List.firstn (pages * Z.to_nat s) l.
Proof.
  intros Hs. induction pages as [| pages IH].
  - reflexivity.
  - rewrite seq_S, flat_map_app, IH. cbn [flat_map plus].
    rewrite (window_of_page pages s l Hs), app_nil_r.
    replace (S pages * Z.to_nat s)%nat with (pages * Z.to_nat s + Z.to_nat s)%nat by lia.
    rewrite firstn_plus. reflexivity.
Qed.

(** X3.  For a page size of at least 1 and any list of results, the
    windows [(skip, limit)] of the pages 1 to [total_pages], one after
    the other, are the list itself: paging through a result loses no
    item and repeats none.  [total_pages] is the one
    [PaginationMeta.create] of [schemas/pagination.py] reports for the
    length of the list. *)
Theorem pages_cover_the_results {A : Type} (s : Z) (l : list A) :
  1 <= s ->
  exists m,
    SchemasPagination.create {| page := 1; page_size := s |}
      (Z.of_nat (List.length l)) = Ok m
    /\ flat_map (fun k => window (skip {| page := Z.of_nat k; page_size := s |})
                            (limit {| page := Z.of_nat k; page_size := s |}) l)
         (seq 1 (Z.to_nat (total_pages m)))
       = l.
Proof.
  intros Hs. unfold SchemasPagination.create. cbn [page_size page].
  destruct (Z.gtb_spec (Z.of_nat (List.length l)) 0) as [Hpos | Hzero].
  - rewrite floordiv_ok by lia. cbn [bind].
    eexists. split; [reflexivity |]. cbn [total_pages].
    rewrite pages_are_a_prefix by lia.
    apply firstn_all2.
    pose proof (ceiling_bounds (Z.of_nat (List.length l)) s ltac:(lia)) as [_ Hc].
    nia.
  - cbn [bind]. eexists. split; [reflexivity |]. cbn [total_pages].
    rewrite pages_are_a_prefix by lia.
    apply firstn_all2. lia.
Qed.

Lemma pages_cover_the_results_witness :
  exists m,
    SchemasPagination.create {| page := 1; page_size := 2 |}
      (Z.of_nat (List.length [1; 2; 3; 4; 5])) = Ok m
    /\ flat_map (fun k => window (skip {| page := Z.of_nat k; page_size := 2 |})
                            (limit {| page := Z.of_nat k; page_size := 2 |})
                            [1; 2; 3; 4; 5])
         (seq 1 (Z.to_nat (total_pages m)))
       = [1; 2; 3; 4; 5].
Proof. apply (pages_cover_the_results 2 [1; 2; 3; 4; 5]). lia. Defined.

(** X4.  Whatever page and page size [Paginator] is built with, the
    values it keeps satisfy [page >= 1] and [1 <= page_size <= 100],
    values that already do are kept, its [skip] is not negative, and
    [get_pagination_params] returns the [skip] and [limit] of the
    [Paginator] built with the same arguments. *)
Theorem paginator_clamps (pg sz : Z) :
  let self := Paginator.init pg sz in
  valid_params self
  /\ (valid_params {| page := pg; page_size := sz |} ->
      self = {| page := pg; page_size := sz |})
  /\ 0 <= skip self
  /\ get_pagination_params pg sz = (skip self, limit self).
Proof.
  cbv zeta. unfold Paginator.init, valid_params, skip, limit, get_pagination_params.
  cbn [page page_size]. repeat split; try lia.
  - intros [Hp [Hs1 Hs2]]. f_equal; lia.
  - nia.
Qed.

(** X5.  [Paginator.get_pagination_metadata] never divides by zero:
    whatever the arguments of the [Paginator], the only exception it
    raises is the [OverflowError] of a quotient too large for a float,
    and on an item count of 0 or less it raises nothing;
    [create_paginated_response], which takes the page size as it comes,
    raises [ZeroDivisionError] exactly when the page size is 0 and the
    item count is positive, and raises nothing on an item count of 0 or
    less. *)
Theorem metadata_division_by_zero {F : Type} {FD : FloatDivision F} {T : Type}
        (items : list T) (pg sz n : Z) :
  (forall e, Paginator.get_pagination_metadata (Paginator.init pg sz) n = Raise e ->
             e = OverflowError /\ 0 < n)
  /\ (n <= 0 ->
      exists m, Paginator.get_pagination_metadata (Paginator.init pg sz) n = Ok m)
  /\ (create_paginated_response items pg sz n = Raise ZeroDivisionError
      <-> sz = 0 /\ 0 < n)
  /\ (n <= 0 -> exists r, create_paginated_response items pg sz n = Ok r).
Proof.
  unfold Paginator.get_pagination_metadata, create_paginated_response,
    Paginator.ceil_div, true_div, Paginator.init. cbn [page_size page].
  split; [| split; [| split]].
  - intros e. destruct (Z.gtb_spec n 0) as [Hn | Hn]; cbn [bind];
      [| intros Hr; discriminate Hr].
    destruct (Z.eqb_spec (Z.min (Z.max 1 sz) 100) 0) as [E | _]; [lia |].
    destruct (f_true_div n (Z.min (Z.max 1 sz) 100)); cbn [bind];
      intros Hr; [discriminate Hr |].
    injection Hr as <-. split; [reflexivity | exact Hn].
  - intros Hn. destruct (Z.gtb_spec n 0) as [Hp | _]; [lia |]. cbn [bind]. eauto.
  - destruct (Z.gtb_spec n 0) as [Hn | Hn]; cbn [bind].
    + destruct (Z.eqb_spec sz 0) as [E | E]; cbn [bind].
      * split; [intros _; split; assumption | reflexivity].
      * destruct (f_true_div n sz); cbn [bind];
          (split; [intros Hr; discriminate Hr | intros [Hz _]; contradiction]).
    + split; [intros Hr; discriminate Hr | lia].
  - intros Hn. destruct (Z.gtb_spec n 0) as [Hp | _]; [lia |]. cbn [bind]. eauto.
Qed.

Lemma base_pagination_params_accepts (s l : Z) :
  0 <= s -> 0 < l <= 100 ->
  base_pagination_params s l = Some {| bp_skip := s; bp_limit := l |}.
Proof.
  intros Hs Hl. unfold base_pagination_params.
  replace ((0 <=? s) && (0 <? l) && (l <=? 100)) with true; [reflexivity |].
  symmetry. rewrite !andb_true_iff, Z.leb_le, Z.ltb_lt, Z.leb_le. lia.
Qed.

(** X6.  [PaginationParams.from_page] of [models/base.py] never fails
    the constraints of the model it builds, whatever page and page size
    it is given: [skip >= 0] and [0 < limit <= 100]; a page size below
    1 becomes 10, one above 100 becomes 100, a page below 1 becomes the
    first. *)
Theorem from_page_within_constraints (pg sz : Z) :
  exists p,
    from_page pg sz = Some p
    /\ 0 <= bp_skip p
    /\ 0 < bp_limit p <= 100
    /\ bp_skip p = (Z.max 1 pg - 1) * bp_limit p
    /\ (sz < 1 -> bp_limit p = 10)
    /\ (100 < sz -> bp_limit p = 100)
    /\ (1 <= sz <= 100 -> bp_limit p = sz).
Proof.
  unfold from_page.
  set (pg' := if pg <? 1 then 1 else pg).
  set (sz' := if (if sz <? 1 then 10 else sz) >? 100
              then 100 else (if sz <? 1 then 10 else sz)).
  assert (Hpg : pg' = Z.max 1 pg)
    by (unfold pg'; destruct (Z.ltb_spec pg 1); lia).
  assert (Hsz : 0 < sz' <= 100
                /\ (sz < 1 -> sz' = 10) /\ (100 < sz -> sz' = 100)
                /\ (1 <= sz <= 100 -> sz' = sz)).
  { unfold sz'. destruct (Z.ltb_spec sz 1).
    - destruct (Z.gtb_spec 10 100); lia.
    - destruct (Z.gtb_spec sz 100); lia. }
  rewrite base_pagination_params_accepts by nia.
  eexists. split; [reflexivity |]. cbn [bp_skip bp_limit].
  rewrite Hpg. repeat split; try tauto; try lia; nia.
Qed.

(** X7.  In the legacy offset metadata of [create_pagination_info]:
    there is a previous offset exactly when the offset is positive, it
    is never negative, it is [offset - limit] or 0, and with a positive
    limit it lies before the offset; a next offset, when there is one,
    is [offset + limit]; and without [has_more], a total count that is
    absent or 0 gives no next offset, whatever the offset. *)
Theorem pagination_info_offsets (lim offset : Z) (total_count : option Z)
        (has_more : bool) :
  let info := create_pagination_info lim offset total_count has_more in
  (pi_previous info = None <-> offset <= 0)
  /\ (forall p, pi_previous info = Some (str_of_int p) ->
                0 <= p /\ p = Z.max 0 (offset - lim) /\ (0 < lim -> p < offset))
  /\ (forall q, pi_next info = Some (str_of_int q) -> q = offset + lim)
  /\ (has_more = false -> total_count = None \/ total_count = Some 0 ->
      pi_next info = None)
  /\ (forall n, total_count = Some n -> n <> 0 -> offset + lim < n ->
                pi_next info = Some (str_of_int (offset + lim))).
Proof.
  cbv zeta. unfold create_pagination_info. cbn [pi_previous pi_next].
  split; [| split; [| split; [| split]]].
  - destruct (Z.gtb_spec offset 0) as [Hpos | Hneg]; split; intros Hx;
      try discriminate; try lia.
    reflexivity.
  - intros p. destruct (Z.gtb_spec offset 0); [| discriminate].
    destruct (Z.gtb_spec (Z.max 0 (offset - lim)) 0); intros [= <-]; lia.
  - intros q. destruct (has_more || _); [| discriminate]. intros [= <-]. reflexivity.
  - intros -> [-> | ->]; reflexivity.
  - intros n -> Hn Hlt.
    replace (negb (n =? 0) && (offset + lim <? n)) with true.
    + rewrite orb_true_r. reflexivity.
    + symmetry. apply andb_true_iff. split.
      * apply negb_true_iff. apply Z.eqb_neq. exact Hn.
      * apply Z.ltb_lt. exact Hlt.
Qed.

(** ** Reading an order back *)

Section OrderReadFacts.
Context {F : Type} {FO : FloatOps F} {RX : Regex}.

Lemma find_one_some (oid : Bson.ObjectId) (orders : list (order_doc F))
      (d : order_doc F) :
  find_one oid orders = Some d -> In d orders /\ order_oid d = oid.
Proof.
  unfold find_one. intros H. apply find_some in H. destruct H as [Hin E].
  apply oid_eqb_eq in E. split; assumption.
Qed.

Lemma get_order_by_id_found (orders : list (order_doc F)) (oid : Bson.ObjectId)
      (d : order_doc F) :
  Bson.wf oid = true -> find_one oid orders = Some d ->
  get_order_by_id orders (Bson.str oid) = Ok (Some (order_helper d)).
Proof.
  intros Hwf Hfind. unfold get_order_by_id, convert_objectid.
  rewrite (of_str_str oid Hwf). cbn [bind catch_all]. rewrite Hfind. reflexivity.
Qed.
End OrderReadFacts.

(** X8.  An order that [create_order] has created is read back by
    [get_order_by_id] under the id it was returned with, and what is
    read is the record that [create_order] returned (the identifier
    being one the store generates). *)
Theorem get_order_by_id_after_create {F : Type} {FO : FloatOps F} {RX : Regex}
        (now : datetime) (new_id : Bson.ObjectId)
        (products : list (product F)) (orders orders' : list (order_doc F))
        (data : order_data F) (out : order_out F) :
  Bson.wf new_id = true ->
  create_order now new_id products orders data = (Ok out, orders') ->
  out_id out = Bson.str new_id
  /\ get_order_by_id orders' (out_id out) = Ok (Some out).
Proof.
  intros Hwf Hrun.
  destruct (create_order_ok_inv now new_id products orders orders' data out Hrun)
    as [d [_ [Hfresh [-> ->]]]].
  split; [reflexivity |].
  cbn [order_helper out_id order_oid].
  apply (get_order_by_id_found _ new_id); [exact Hwf |].
  apply find_one_inserted; [exact Hfresh | reflexivity].
Qed.

Lemma get_order_by_id_after_create_witness :
  exists out orders',
    create_order Scenario.now (Scenario.oid Scenario.order_id) Scenario.catalog []
      Scenario.two_shirts = (Ok out, orders')
    /\ out_id out = Bson.str (Scenario.oid Scenario.order_id)
    /\ get_order_by_id orders' (out_id out) = Ok (Some out).
Proof.
  eexists. eexists. split; [reflexivity |].
  apply (get_order_by_id_after_create Scenario.now (Scenario.oid Scenario.order_id)
           Scenario.catalog [] _ Scenario.two_shirts _); reflexivity.
Defined.

(** X9.  On an id that is no identifier (a string [ObjectId] refuses),
    [get_order_by_id] raises a 500: the 400 of [convert_objectid] is
    caught by its [except Exception];
    the route [get_order] checks the id first and answers 400, answers
    404 for an identifier no stored order has, and returns the order
    read otherwise. *)
Theorem get_order_error_codes {F : Type} {FO : FloatOps F}
        (orders : list (order_doc F)) (order_id : string) :
  (Bson.of_str order_id = None ->
   get_order_by_id orders order_id = Raise (HTTPException 500 "Internal server error")
   /\ OrderRoutes.get_order orders order_id
      = Raise (HTTPException 400 "Invalid order ID format"))
  /\ (forall oid, Bson.of_str order_id = Some oid ->
        find_one oid orders = None ->
        get_order_by_id orders order_id = Ok None
        /\ OrderRoutes.get_order orders order_id
           = Raise (HTTPException 404 "Order not found"))
  /\ (forall oid d, Bson.of_str order_id = Some oid ->
        find_one oid orders = Some d ->
        OrderRoutes.get_order orders order_id = Ok (order_helper d)).
Proof.
  unfold OrderRoutes.get_order, get_order_by_id, convert_objectid, Bson.is_valid.
  split; [| split].
  - intros ->. split; reflexivity.
  - intros oid -> Hnone. cbn [bind catch_all negb]. rewrite Hnone. split; reflexivity.
  - intros oid d -> Hfind. cbn [bind catch_all negb]. rewrite Hfind. reflexivity.
Qed.

(** A string of 24 characters with whitespace in it is an identifier
    to the route as it is to the driver: no stored order has it. *)
Example get_order_spaced_id :
  OrderRoutes.get_order Scenario.orders_after BsonScenario.spaced_id
  = Raise (HTTPException 404 "Order not found").
Proof. reflexivity. Qed.


(** ** Updating and cancelling an order *)

Section UpdateStatusFacts.
Context {F : Type}.

Lemma update_one_status_ids (oid : Bson.ObjectId) (status : string) (now : datetime)
      (orders : list (order_doc F)) :
  map order_oid (snd (update_one_status oid status now orders)) = map order_oid orders.
Proof.
  induction orders as [| o orders IH]; [reflexivity |].
  cbn [update_one_status]. destruct (Bson.eqb (order_oid o) oid).
  - reflexivity.
  - destruct (update_one_status oid status now orders) as [n rest'].
    cbn [snd map] in *. rewrite IH. reflexivity.
Qed.

Lemma update_one_status_absent (oid : Bson.ObjectId) (status : string) (now : datetime)
      (orders : list (order_doc F)) :
  find_one oid orders = None ->
  update_one_status oid status now orders = (0, orders).
Proof.
  unfold find_one. induction orders as [| o orders IH]; [reflexivity |].
  cbn [find update_one_status]. destruct (Bson.eqb (order_oid o) oid); [discriminate |].
  intros H. rewrite (IH H). reflexivity.
Qed.

Lemma update_one_status_found (oid : Bson.ObjectId) (status : string) (now : datetime)
      (orders : list (order_doc F)) (d : order_doc F) :
  find_one oid orders = Some d ->
  fst (update_one_status oid status now orders)
  = (if already_set status now (order_fields d) then 0 else 1)
  /\ find_one oid (snd (update_one_status oid status now orders))
     = Some {| order_oid := order_oid d;
               order_fields := set_status status now (order_fields d) |}
  /\ forall oid', oid' <> oid ->
       find_one oid' (snd (update_one_status oid status now orders))
       = find_one oid' orders.
Proof.
  unfold find_one. induction orders as [| o orders IH]; [discriminate |].
  cbn [find update_one_status].
  destruct (Bson.eqb (order_oid o) oid) eqn:E.
  - intros [= <-]. cbn [fst snd find order_oid]. rewrite E.
    split; [reflexivity |]. split; [reflexivity |].
    intros oid' Hne.
    destruct (Bson.eqb (order_oid o) oid') eqn:E'; [| reflexivity].
    apply oid_eqb_eq in E, E'. congruence.
  - intros H. destruct (IH H) as [H1 [H2 H3]].
    destruct (update_one_status oid status now orders) as [n rest'].
    cbn [fst snd find] in *. rewrite E.
    split; [exact H1 |]. split; [exact H2 |].
    intros oid' Hne. rewrite (H3 oid' Hne). reflexivity.
Qed.

Lemma update_order_status_run (now : datetime) (orders : list (order_doc F))
      (order_id status : string) (oid : Bson.ObjectId) :
  existsb (String.eqb status) valid_statuses = true ->
  Bson.of_str order_id = Some oid ->
  update_order_status now orders order_id status
  = (Ok (fst (update_one_status oid status now orders) >? 0),
     snd (update_one_status oid status now orders)).
Proof.
  intros Hstatus Hid. unfold update_order_status, convert_objectid.
  rewrite Hid, Hstatus. cbn [negb].
  destruct (update_one_status oid status now orders). reflexivity.
Qed.
End UpdateStatusFacts.

(** X10.  With one of the five statuses and the id of a stored order,
    [update_order_status] rewrites that order and no other: the order
    gets the status under ["status"] and the time under
    ["updated_at"], keeps its ["order_status"], ["payment_status"],
    items and totals, no order is added or removed, and the call
    returns true unless the order already had that status and that
    time. *)
Theorem update_order_status_effect {F : Type}
        (now : datetime) (orders : list (order_doc F))
        (order_id status : string) (oid : Bson.ObjectId) (d : order_doc F) :
  existsb (String.eqb status) valid_statuses = true ->
  Bson.of_str order_id = Some oid ->
  find_one oid orders = Some d ->
  exists orders' d',
    update_order_status now orders order_id status
    = (Ok (negb (already_set status now (order_fields d))), orders')
    /\ map order_oid orders' = map order_oid orders
    /\ find_one oid orders' = Some d'
    /\ order_oid d' = order_oid d
    /\ o_status (order_fields d') = Some status
    /\ o_updated_at (order_fields d') = Some (Some now)
    /\ o_order_status (order_fields d') = o_order_status (order_fields d)
    /\ o_payment_status (order_fields d') = o_payment_status (order_fields d)
    /\ o_items (order_fields d') = o_items (order_fields d)
    /\ o_total (order_fields d') = o_total (order_fields d)
    /\ forall oid', oid' <> oid -> find_one oid' orders' = find_one oid' orders.
Proof.
  intros Hstatus Hid Hfind.
  rewrite (update_order_status_run now orders order_id status oid Hstatus Hid).
  destruct (update_one_status_found oid status now orders d Hfind) as [H1 [H2 H3]].
  eexists. eexists. split.
  - rewrite H1. destruct (already_set status now (order_fields d)); reflexivity.
  - split; [apply update_one_status_ids |]. split; [exact H2 |].
    cbn [order_oid order_fields set_status o_status o_updated_at o_order_status
         o_payment_status o_items o_total].
    repeat split. exact H3.
Qed.

Lemma update_order_status_effect_witness :
  exists orders' d',
    update_order_status 3000 Scenario.orders_after Scenario.order_id "shipped"
    = (Ok true, orders')
    /\ map order_oid orders' = map order_oid Scenario.orders_after
    /\ find_one (Scenario.oid Scenario.order_id) orders' = Some d'
    /\ o_status (order_fields d') = Some "shipped"
    /\ o_order_status (order_fields d') = Some "pending".
Proof.
  destruct (update_order_status_effect 3000 Scenario.orders_after Scenario.order_id
              "shipped" (Scenario.oid Scenario.order_id)
              MoreScenario.stored_order
              eq_refl eq_refl eq_refl)
    as [orders' [d' [Hrun [Hids [Hfind [_ [Hst [_ [Hos _]]]]]]]]].
  exists orders', d'. repeat split; assumption.
Defined.

(** X11.  After a successful [update_order_status] on a stored order,
    [get_order_by_id] returns the order as it was returned before, field
    by field, except that [updated_at] is the time of the update and
    that [order_status], for an order stored without that field, is the
    status given.  So for an order that has an ["order_status"], as
    every order [create_order] creates has, the update does not change
    the status read back, nor the items, the amounts or any other
    field: only [updated_at] moves. *)
Theorem update_order_status_then_read {F : Type} {FO : FloatOps F}
        (now : datetime) (orders : list (order_doc F))
        (status : string) (oid : Bson.ObjectId) (d : order_doc F) :
  existsb (String.eqb status) valid_statuses = true ->
  Bson.wf oid = true ->
  find_one oid orders = Some d ->
  exists changed orders' out,
    update_order_status now orders (Bson.str oid) status = (Ok changed, orders')
    /\ get_order_by_id orders (Bson.str oid) = Ok (Some (order_helper d))
    /\ get_order_by_id orders' (Bson.str oid) = Ok (Some out)
    /\ out
       = {| out_id := out_id (order_helper d);
            out_user_id := out_user_id (order_helper d);
            out_items := out_items (order_helper d);
            out_shipping_address := out_shipping_address (order_helper d);
            out_order_status :=
              match o_order_status (order_fields d) with
              | Some s => s
              | None => status
              end;
            out_payment_status := out_payment_status (order_helper d);
            out_subtotal := out_subtotal (order_helper d);
            out_shipping_cost := out_shipping_cost (order_helper d);
            out_tax := out_tax (order_helper d);
            out_total := out_total (order_helper d);
            out_tracking_number := out_tracking_number (order_helper d);
            out_notes := out_notes (order_helper d);
            out_created_at := out_created_at (order_helper d);
            out_updated_at := Some (isoformat now) |}
    /\ (forall s, o_order_status (order_fields d) = Some s ->
                  out_order_status out = out_order_status (order_helper d)).
Proof.
  intros Hstatus Hwf Hfind.
  rewrite (update_order_status_run now orders (Bson.str oid) status oid Hstatus
             (of_str_str oid Hwf)).
  destruct (update_one_status_found oid status now orders d Hfind) as [_ [H2 _]].
  eexists. eexists. eexists. split; [reflexivity |].
  split; [exact (get_order_by_id_found _ oid _ Hwf Hfind) |].
  split; [exact (get_order_by_id_found _ oid _ Hwf H2) |].
  unfold order_helper.
  cbn [order_oid order_fields set_status out_id out_user_id out_items
       out_shipping_address out_order_status out_payment_status out_subtotal
       out_shipping_cost out_tax out_total out_tracking_number out_notes
       out_created_at out_updated_at o_user_id o_items o_shipping_address o_notes
       o_subtotal o_shipping_cost o_tax o_total o_order_status o_payment_status
       o_status o_total_amount o_tracking_number o_created_at o_updated_at
       get_default].
  split.
  - destruct (o_order_status (order_fields d)); reflexivity.
  - intros s Hs. rewrite Hs. reflexivity.
Qed.

Lemma update_order_status_then_read_witness :
  exists changed orders' out,
    update_order_status 3000 Scenario.orders_after
      (Bson.str (Scenario.oid Scenario.order_id)) "shipped" = (Ok changed, orders')
    /\ get_order_by_id orders' (Bson.str (Scenario.oid Scenario.order_id))
       = Ok (Some out)
    /\ out_order_status out = "pending"
    /\ out_total out = 5998
    /\ out_items out = out_items (order_helper MoreScenario.stored_order)
    /\ out_updated_at out = Some (isoformat 3000).
Proof.
  destruct (update_order_status_then_read 3000 Scenario.orders_after "shipped"
              (Scenario.oid Scenario.order_id)
              MoreScenario.stored_order
              eq_refl eq_refl eq_refl)
    as [changed [orders' [out [Hrun [_ [Hget [Hout _]]]]]]].
  exists changed, orders', out.
  split; [exact Hrun |]. split; [exact Hget |].
  rewrite Hout. repeat split.
Defined.

(** X12.  With one of the five statuses and an identifier that no
    stored order has, [update_order_status] returns false and leaves
    the collection as it was. *)
Theorem update_order_status_unknown_order {F : Type}
        (now : datetime) (orders : list (order_doc F))
        (order_id status : string) (oid : Bson.ObjectId) :
  existsb (String.eqb status) valid_statuses = true ->
  Bson.of_str order_id = Some oid ->
  find_one oid orders = None ->
  update_order_status now orders order_id status = (Ok false, orders).
Proof.
  intros Hstatus Hid Hnone.
  rewrite (update_order_status_run now orders order_id status oid Hstatus Hid).
  rewrite (update_one_status_absent oid status now orders Hnone). reflexivity.
Qed.

Lemma update_order_status_unknown_order_witness :
  update_order_status 3000 Scenario.orders_after Scenario.absent_id "shipped"
  = (Ok false, Scenario.orders_after).
Proof.
  apply (update_order_status_unknown_order 3000 Scenario.orders_after
           Scenario.absent_id "shipped" (Scenario.oid Scenario.absent_id));
    reflexivity.
Defined.

(** X13.  [cancel_order] of [routes/order.py], on the id of a stored
    order that is not already cancelled at that very time, answers with
    the success message and removes nothing: the order is still stored,
    with ["status"] set to ["cancelled"] and its ["order_status"] as it
    was.  On an identifier no stored order has it answers 404, on an id
    that is no identifier 400, and the collection is as it was. *)
Theorem cancel_order_keeps_the_order {F : Type}
        (now : datetime) (orders : list (order_doc F)) (order_id : string) :
  (forall oid d,
     Bson.of_str order_id = Some oid ->
     find_one oid orders = Some d ->
     already_set "cancelled" now (order_fields d) = false ->
     exists orders' d',
       OrderRoutes.cancel_order now orders order_id
       = (Ok ("Order " ++ order_id ++ " cancelled successfully")%string, orders')
       /\ List.length orders' = List.length orders
       /\ find_one oid orders' = Some d'
       /\ o_status (order_fields d') = Some "cancelled"
       /\ o_order_status (order_fields d') = o_order_status (order_fields d))
  /\ (forall oid,
        Bson.of_str order_id = Some oid ->
        find_one oid orders = None ->
        OrderRoutes.cancel_order now orders order_id
        = (Raise (HTTPException 404 "Order not found or already cancelled"), orders))
  /\ (Bson.of_str order_id = None ->
      OrderRoutes.cancel_order now orders order_id
      = (Raise (HTTPException 400 "Invalid order ID format"), orders)).
Proof.
  unfold OrderRoutes.cancel_order, delete_order, Bson.is_valid.
  split; [| split].
  - intros oid d Hid Hfind Hnot. rewrite Hid. cbn [negb].
    rewrite (update_order_status_run now orders order_id "cancelled" oid eq_refl Hid).
    destruct (update_one_status_found oid "cancelled" now orders d Hfind)
      as [H1 [H2 _]].
    rewrite H1, Hnot. cbn [catch_all Z.gtb Z.compare].
    eexists. eexists. split; [reflexivity |].
    split; [| split; [exact H2 | split; reflexivity]].
    rewrite <- (length_map order_oid (snd _)), update_one_status_ids.
    apply length_map.
  - intros oid Hid Hnone. rewrite Hid. cbn [negb].
    rewrite (update_order_status_run now orders order_id "cancelled" oid eq_refl Hid).
    rewrite (update_one_status_absent oid "cancelled" now orders Hnone).
    reflexivity.
  - intros ->. reflexivity.
Qed.

(** ** Listing orders, continued *)

Section ListingFacts.
Context {F : Type} {FO : FloatOps F} {RX : Regex}.

Lemma insert_sorted_In {A : Type} (view : A -> string -> fieldval F)
      (key : string) (direction : Z) (a x : A) (l : list A) :
  In x (insert_sorted view key direction a l) <-> x = a \/ In x l.
Proof.
  induction l as [| b l IH]; cbn [insert_sorted].
  - simpl. intuition.
  - destruct (before view key direction a b); simpl; [intuition |].
    rewrite IH. intuition.
Qed.

Lemma sort_cursor_In {A : Type} (view : A -> string -> fieldval F)
      (key : string) (direction : Z) (x : A) (l : list A) :
  In x (sort_cursor view key direction l) <-> In x l.
Proof.
  unfold sort_cursor. induction l as [| a l IH]; cbn [fold_right]; [reflexivity |].
  rewrite insert_sorted_In, IH. simpl. intuition.
Qed.

Lemma insert_sorted_length {A : Type} (view : A -> string -> fieldval F)
      (key : string) (direction : Z) (a : A) (l : list A) :
  List.length (insert_sorted view key direction a l) = S (List.length l).
Proof.
  induction l as [| b l IH]; cbn [insert_sorted]; [reflexivity |].
  destruct (before view key direction a b); simpl; [reflexivity |].
  rewrite IH. reflexivity.
Qed.

Lemma window_In {A : Type} (s n : Z) (x : A) (l : list A) :
  In x (window s n l) -> In x l.
Proof.
  unfold window. intros H.
  assert (Hskip : In x (List.skipn (Z.to_nat s) l)).
  { destruct (n =? 0); [exact H | exact (in_firstn _ _ _ H)]. }
  rewrite <- (firstn_skipn (Z.to_nat s) l). apply in_or_app. right. exact Hskip.
Qed.

Lemma window_length {A : Type} (s n : Z) (l : list A) :
  0 < n -> (List.length (window s n l) <= Z.to_nat n)%nat.
Proof.
  intros Hn. unfold window. destruct (Z.eqb_spec n 0); [lia |].
  apply firstn_le_length.
Qed.

Lemma list_orders_run (orders : list (order_doc F))
      (pagination : PaginationParams) (filters : OrderFilter F) :
  valid_params pagination ->
  exists meta,
    list_orders orders pagination filters
    = Ok (map order_helper
            (window (skip pagination) (limit pagination)
               (sort_cursor (@order_field F) "created_at" (-1)
                  (find_orders (list_orders_query filters) orders))),
          meta)
    /\ total_items meta
       = Z.of_nat (List.length (find_orders (list_orders_query filters) orders)).
Proof.
  intros Hvalid. unfold list_orders.
  destruct (schemas_pagination_create_total pagination
              (Z.of_nat (List.length (find_orders (list_orders_query filters) orders)))
              Hvalid) as [meta Hmeta].
  rewrite Hmeta. cbn [bind catch_all]. exists meta. split; [reflexivity |].
  unfold SchemasPagination.create in Hmeta.
  destruct (_ >? 0) in Hmeta.
  - destruct (floordiv _ _) in Hmeta; cbn [bind] in Hmeta; [| discriminate].
    injection Hmeta as <-. reflexivity.
  - cbn [bind] in Hmeta. injection Hmeta as <-. reflexivity.
Qed.

Lemma user_id_entry (filters : OrderFilter F) :
  truthy_str (of_user_id filters) = true ->
  dict_get "user_id" (list_orders_query filters)
  = Some (Field (LEq (get_default (of_user_id filters) ""))).
Proof.
  intros Hu. unfold list_orders_query, set_gte, set_lte. rewrite Hu.
  destruct (of_order_status filters), (of_payment_status filters),
    (of_min_total filters), (of_max_total filters),
    (truthy_str (of_date_from filters) || truthy_str (of_date_to filters));
    repeat rewrite dict_get_set; reflexivity.
Qed.

Lemma payment_status_entry (filters : OrderFilter F) (s : PaymentStatus) :
  of_payment_status filters = Some s ->
  dict_get "payment_status" (list_orders_query filters)
  = Some (Field (LEq (payment_status_value s))).
Proof.
  intros Hs. unfold list_orders_query, set_gte, set_lte. rewrite Hs.
  destruct (truthy_str (of_user_id filters)), (of_order_status filters),
    (of_min_total filters), (of_max_total filters),
    (truthy_str (of_date_from filters) || truthy_str (of_date_to filters));
    repeat rewrite dict_get_set; reflexivity.
Qed.
End ListingFacts.

(** X14.  For valid pagination params, [list_orders] returns at most
    [page_size] orders and reports as [total_items] the number of
    stored orders its query holds of, whatever the page; with a user id
    in the filter every order returned is that user's, and with a
    payment status in the filter every order returned has that payment
    status. *)
Theorem list_orders_user_and_payment_filters {F : Type} {FO : FloatOps F} {RX : Regex}
        (orders : list (order_doc F)) (pagination : PaginationParams)
        (filters : OrderFilter F) :
  valid_params pagination ->
  exists items meta,
    list_orders orders pagination filters = Ok (items, meta)
    /\ (List.length items <= Z.to_nat (page_size pagination))%nat
    /\ total_items meta
       = Z.of_nat (List.length (find_orders (list_orders_query filters) orders))
    /\ (truthy_str (of_user_id filters) = true ->
        forall out, In out items -> out_user_id out = of_user_id filters)
    /\ (forall s, of_payment_status filters = Some s ->
        forall out, In out items -> out_payment_status out = payment_status_value s).
Proof.
  intros Hvalid.
  destruct (list_orders_run orders pagination filters Hvalid) as [meta [Hrun Htotal]].
  eexists. exists meta. split; [exact Hrun |].
  assert (Hmatch : forall out,
             In out (map order_helper
                       (window (skip pagination) (limit pagination)
                          (sort_cursor (@order_field F) "created_at" (-1)
                             (find_orders (list_orders_query filters) orders)))) ->
             exists o, out = order_helper o
                       /\ query_matches (order_field o) (list_orders_query filters) = true).
  { intros out Hin. apply in_map_iff in Hin. destruct Hin as [o [<- Hin]].
    exists o. split; [reflexivity |].
    apply window_In in Hin. apply sort_cursor_In in Hin.
    unfold find_orders in Hin. apply filter_In in Hin. tauto. }
  split; [| split; [exact Htotal | split]].
  - rewrite length_map. apply window_length.
    destruct Hvalid as [_ [Hs _]]. unfold limit. lia.
  - intros Hu out Hin. destruct (Hmatch out Hin) as [o [-> Hq]].
    pose proof (query_matches_entry _ _ _ _ Hq (user_id_entry filters Hu)) as H.
    unfold cond_matches in H. cbn [fst snd] in H.
    change (order_field o "user_id")
      with (match o_user_id (order_fields o) with
            | Some (Some s) => @VStr F s
            | Some None => VNull
            | None => VMissing
            end) in H.
    cbn [order_helper out_user_id].
    destruct (o_user_id (order_fields o)) as [[u |] |]; simpl in H; try discriminate.
    apply String.eqb_eq in H. rewrite H.
    destruct (of_user_id filters); [reflexivity | discriminate].
  - intros s Hs out Hin. destruct (Hmatch out Hin) as [o [-> Hq]].
    pose proof (query_matches_entry _ _ _ _ Hq (payment_status_entry filters s Hs)) as H.
    unfold cond_matches in H. cbn [fst snd] in H.
    change (order_field o "payment_status")
      with (opt_val (@VStr F) (o_payment_status (order_fields o))) in H.
    cbn [order_helper out_payment_status].
    destruct (o_payment_status (order_fields o)) as [v |]; simpl in H; [| discriminate].
    apply String.eqb_eq in H. rewrite H. reflexivity.
Qed.

Lemma list_orders_user_and_payment_filters_witness :
  exists items meta,
    list_orders Scenario.orders_after Scenario.first_page
      (MoreScenario.orders_of_user "u1") = Ok (items, meta)
    /\ (List.length items <= Z.to_nat 10)%nat
    /\ total_items meta = 1
    /\ (forall out, In out items -> out_user_id out = Some "u1")
    /\ (forall out, In out items -> out_payment_status out = "pending").
Proof.
  destruct (list_orders_user_and_payment_filters Scenario.orders_after
              Scenario.first_page (MoreScenario.orders_of_user "u1"))
    as [items [meta [Hrun [Hlen [Htotal [Huser Hpay]]]]]].
  - unfold valid_params. simpl. lia.
  - exists items, meta. split; [exact Hrun |]. split; [exact Hlen |].
    split; [exact Htotal |]. split.
    + exact (Huser eq_refl).
    + exact (Hpay PAY_PENDING eq_refl).
Defined.

Lemma find_orders_empty_query {F : Type} {FO : FloatOps F} {RX : Regex}
      (orders : list (order_doc F)) :
  find_orders [] orders = orders.
Proof.
  unfold find_orders, query_matches. cbn [forallb].
  induction orders as [| o orders IH]; [reflexivity |].
  cbn [filter]. rewrite IH. reflexivity.
Qed.

(** X15.  With an empty filter [list_orders] counts every stored order:
    [total_items] is the size of the collection, whatever the page
    asked for. *)
Theorem list_orders_unfiltered_counts_all {F : Type} {FO : FloatOps F} {RX : Regex}
        (orders : list (order_doc F)) (pagination : PaginationParams)
        (filters : OrderFilter F) :
  valid_params pagination ->
  truthy_str (of_user_id filters) = false ->
  of_order_status filters = None ->
  of_payment_status filters = None ->
  of_min_total filters = None ->
  of_max_total filters = None ->
  truthy_str (of_date_from filters) = false ->
  truthy_str (of_date_to filters) = false ->
  exists items meta,
    list_orders orders pagination filters = Ok (items, meta)
    /\ total_items meta = Z.of_nat (List.length orders)
    /\ forall out, In out items -> exists o, In o orders /\ out = order_helper o.
Proof.
  intros Hvalid Hu Hos Hps Hmin Hmax Hfrom Hto.
  destruct (list_orders_run orders pagination filters Hvalid) as [meta [Hrun Htotal]].
  assert (Hq : list_orders_query filters = []).
  { unfold list_orders_query. rewrite Hu, Hos, Hps, Hmin, Hmax, Hfrom, Hto. reflexivity. }
  assert (Hall : find_orders (list_orders_query filters) orders = orders).
  { rewrite Hq. apply find_orders_empty_query. }
  eexists. exists meta. split; [exact Hrun |]. split.
  - rewrite Htotal, Hall. reflexivity.
  - intros out Hin. apply in_map_iff in Hin. destruct Hin as [o [<- Hin]].
    exists o. split; [| reflexivity].
    apply window_In in Hin. apply sort_cursor_In in Hin.
    rewrite Hall in Hin. exact Hin.
Qed.

Lemma list_orders_unfiltered_counts_all_witness :
  exists items meta,
    list_orders Scenario.orders_after Scenario.first_page Scenario.no_order_filter
    = Ok (items, meta)
    /\ total_items meta = Z.of_nat (List.length Scenario.orders_after)
    /\ forall out, In out items ->
         exists o, In o Scenario.orders_after /\ out = order_helper o.
Proof.
  apply (list_orders_unfiltered_counts_all Scenario.orders_after
           Scenario.first_page Scenario.no_order_filter);
    try reflexivity.
  unfold valid_params. simpl. lia.
Defined.

(** ** The product store *)

Section ProductStoreFacts.
Context {F : Type}.

Lemma find_product_appended (new_id : Bson.ObjectId) (store : list (product_doc F))
      (d : product_doc F) :
  existsb (fun d => Bson.eqb (pd_oid d) new_id) store = false ->
  pd_oid d = new_id ->
  find_product new_id (store ++ [d]) = Some d.
Proof.
  unfold find_product. intros Hfresh Hid.
  induction store as [| x store IH]; simpl in *.
  - rewrite Hid, oid_eqb_refl. reflexivity.
  - apply orb_false_iff in Hfresh. destruct Hfresh as [Hx Hrest].
    rewrite Hx. exact (IH Hrest).
Qed.

Lemma update_one_product_found (oid : Bson.ObjectId)
      (f : product_doc F -> product_doc F) (store : list (product_doc F))
      (d : product_doc F) :
  (forall x, pd_oid (f x) = pd_oid x) ->
  find_product oid store = Some d ->
  fst (update_one_product oid f store) = 1
  /\ map (@pd_oid F) (snd (update_one_product oid f store)) = map (@pd_oid F) store
  /\ find_product oid (snd (update_one_product oid f store)) = Some (f d)
  /\ forall oid', oid' <> oid ->
       find_product oid' (snd (update_one_product oid f store))
       = find_product oid' store.
Proof.
  intros Hf. unfold find_product.
  induction store as [| x store IH]; [discriminate |].
  cbn [find update_one_product].
  destruct (Bson.eqb (pd_oid x) oid) eqn:E.
  - intros [= <-]. cbn [fst snd find map]. rewrite Hf, E.
    split; [reflexivity |]. split; [reflexivity |]. split; [reflexivity |].
    intros oid' Hne.
    destruct (Bson.eqb (pd_oid x) oid') eqn:E'; [| reflexivity].
    apply oid_eqb_eq in E, E'. congruence.
  - intros H. destruct (IH H) as [H1 [H2 [H3 H4]]].
    destruct (update_one_product oid f store) as [n rest'].
    cbn [fst snd find map] in *. rewrite E, H2.
    split; [exact H1 |]. split; [reflexivity |]. split; [exact H3 |].
    intros oid' Hne. rewrite (H4 oid' Hne). reflexivity.
Qed.

Lemma update_one_product_absent (oid : Bson.ObjectId)
      (f : product_doc F -> product_doc F) (store : list (product_doc F)) :
  find_product oid store = None ->
  update_one_product oid f store = (0, store).
Proof.
  unfold find_product. induction store as [| x store IH]; [reflexivity |].
  cbn [find update_one_product]. destruct (Bson.eqb (pd_oid x) oid); [discriminate |].
  intros H. rewrite (IH H). reflexivity.
Qed.

Lemma delete_one_product_absent (oid : Bson.ObjectId) (store : list (product_doc F)) :
  find_product oid store = None ->
  delete_one_product oid store = (0, store).
Proof.
  unfold find_product. induction store as [| x store IH]; [reflexivity |].
  cbn [find delete_one_product]. destruct (Bson.eqb (pd_oid x) oid); [discriminate |].
  intros H. rewrite (IH H). reflexivity.
Qed.

Lemma find_product_not_in (oid : Bson.ObjectId) (store : list (product_doc F)) :
  oid_in (map (@pd_oid F) store) oid = false -> find_product oid store = None.
Proof.
  unfold find_product, oid_in. induction store as [| x store IH]; [reflexivity |].
  cbn [map existsb find]. intros H. apply orb_false_iff in H. destruct H as [Hx Hrest].
  replace (Bson.eqb (pd_oid x) oid) with false.
  - exact (IH Hrest).
  - symmetry. destruct (Bson.eqb (pd_oid x) oid) eqn:E; [| reflexivity].
    apply oid_eqb_eq in E. rewrite E, oid_eqb_refl in Hx. discriminate.
Qed.

Lemma delete_one_product_found (oid : Bson.ObjectId) (store : list (product_doc F))
      (d : product_doc F) :
  distinct (map (@pd_oid F) store) = true ->
  find_product oid store = Some d ->
  fst (delete_one_product oid store) = 1
  /\ S (List.length (snd (delete_one_product oid store))) = List.length store
  /\ find_product oid (snd (delete_one_product oid store)) = None
  /\ forall oid', oid' <> oid ->
       find_product oid' (snd (delete_one_product oid store))
       = find_product oid' store.
Proof.
  unfold find_product.
  induction store as [| x store IH]; [discriminate |].
  cbn [map distinct find delete_one_product]. intros Hd.
  apply andb_true_iff in Hd. destruct Hd as [Hx Hd].
  destruct (Bson.eqb (pd_oid x) oid) eqn:E.
  - intros _. cbn [fst snd]. apply oid_eqb_eq in E.
    split; [reflexivity |]. split; [reflexivity |]. split.
    + apply (find_product_not_in oid store). rewrite <- E.
      apply negb_true_iff in Hx. exact Hx.
    + intros oid' Hne.
      destruct (Bson.eqb (pd_oid x) oid') eqn:E'; [| reflexivity].
      apply oid_eqb_eq in E'. congruence.
  - intros H. destruct (IH Hd H) as [H1 [H2 [H3 H4]]].
    destruct (delete_one_product oid store) as [n rest'].
    cbn [fst snd find List.length] in *. rewrite E.
    split; [exact H1 |]. split; [rewrite H2; reflexivity |].
    split; [exact H3 |].
    intros oid' Hne. rewrite (H4 oid' Hne). reflexivity.
Qed.
End ProductStoreFacts.

(** X16.  A product created by [create_product] under a generated
    identifier that is not in use is read back by [get_product] under
    the id returned: the sizes are those given, in the order given, the
    name, price and the other fields are those given, and both
    timestamps are the time of creation. *)
Theorem get_product_after_create {F : Type}
        (now : datetime) (new_id : Bson.ObjectId)
        (store : list (product_doc F)) (product : ProductCreate F) :
  Bson.wf new_id = true ->
  existsb (fun d => Bson.eqb (pd_oid d) new_id) store = false ->
  exists created view,
    create_product now new_id store product
    = (Ok created, (store ++ [new_product_doc now new_id product])%list)
    /\ cp_id created = Bson.str new_id
    /\ get_product (store ++ [new_product_doc now new_id product]) (cp_id created)
       = Ok (Some view)
    /\ pv_id view = cp_id created
    /\ pv_doc view = cp_doc created
    /\ p_sizes (pd_product (pv_doc view)) = pc_sizes product
    /\ p_name (pd_product (pv_doc view)) = Some (pc_name product)
    /\ p_price (pd_product (pv_doc view)) = Some (pc_price product)
    /\ p_tags (pd_product (pv_doc view)) = pc_tags product
    /\ pv_created_at view = isoformat now
    /\ pv_updated_at view = Some (isoformat now).
Proof.
  intros Hwf Hfresh.
  pose proof (find_product_appended new_id store (new_product_doc now new_id product)
                Hfresh eq_refl) as Hfind.
  unfold create_product. rewrite Hfresh, Hfind.
  eexists. eexists. split; [reflexivity |].
  cbn [cp_id cp_doc]. split; [reflexivity |].
  unfold get_product.
  change (pd_oid (new_product_doc now new_id product)) with new_id.
  rewrite (of_str_str new_id Hwf), Hfind. cbn [bind getitem new_product_doc
    pd_product p_created_at p_updated_at].
  split; [reflexivity |]. repeat split.
Qed.

Lemma get_product_after_create_witness :
  exists created view,
    create_product 1000 ProductScenario.tee_id [] ProductScenario.tee
    = (Ok created, [ProductScenario.stored_tee])
    /\ get_product [ProductScenario.stored_tee] (cp_id created) = Ok (Some view)
    /\ p_sizes (pd_product (pv_doc view))
       = [ {| size_label := "S"; stock := 10 |}; {| size_label := "M"; stock := 5 |} ].
Proof.
  destruct (get_product_after_create 1000 ProductScenario.tee_id []
              ProductScenario.tee eq_refl eq_refl)
    as [created [view [Hrun [_ [Hget [_ [_ [Hsizes _]]]]]]]].
  exists created, view. repeat split; assumption.
Defined.

(** X17.  [update_product] on the id of a stored product rewrites that
    product only: each field the update gives is set, each field it
    leaves [None] is kept, ["updated_at"] becomes the time of the call,
    and the sizes, the creation time and the identifier are never
    changed; no product is added or removed, and the product returned is
    the one now stored. *)
Theorem update_product_is_partial {F : Type}
        (now : datetime) (store : list (product_doc F)) (product_id : string)
        (u : ProductUpdate F) (oid : Bson.ObjectId) (d : product_doc F)
        (created : datetime) :
  Bson.of_str product_id = Some oid ->
  find_product oid store = Some d ->
  p_created_at (pd_product d) = Some created ->
  exists store' view,
    update_product now store product_id u = (Ok (Some view), store')
    /\ find_product oid store' = Some (pv_doc view)
    /\ map (@pd_oid F) store' = map (@pd_oid F) store
    /\ (forall oid', oid' <> oid -> find_product oid' store' = find_product oid' store)
    /\ p_sizes (pd_product (pv_doc view)) = p_sizes (pd_product d)
    /\ p_created_at (pd_product (pv_doc view)) = Some created
    /\ pd_oid (pv_doc view) = pd_oid d
    /\ p_updated_at (pd_product (pv_doc view)) = Some now
    /\ pv_updated_at view = Some (isoformat now)
    /\ p_name (pd_product (pv_doc view)) = or_kept (pu_name u) (p_name (pd_product d))
    /\ p_price (pd_product (pv_doc view)) = or_kept (pu_price u) (p_price (pd_product d))
    /\ p_description (pd_product (pv_doc view))
       = or_kept (pu_description u) (p_description (pd_product d))
    /\ p_category (pd_product (pv_doc view))
       = or_kept (pu_category u) (p_category (pd_product d))
    /\ p_brand (pd_product (pv_doc view)) = or_kept (pu_brand u) (p_brand (pd_product d))
    /\ p_tags (pd_product (pv_doc view)) = get_default (pu_tags u) (p_tags (pd_product d))
    /\ pd_is_active (pv_doc view) = or_kept (pu_is_active u) (pd_is_active d)
    /\ pd_image_urls (pv_doc view) = or_kept (pu_image_urls u) (pd_image_urls d).
Proof.
  intros Hid Hfind Hcreated.
  destruct (update_one_product_found oid (apply_update now u) store d
              (fun x => eq_refl) Hfind) as [H1 [H2 [H3 H4]]].
  unfold update_product. rewrite Hid.
  destruct (update_one_product oid (apply_update now u) store) as [n store'].
  cbn [fst snd] in *. subst n. cbn [Z.eqb].
  unfold get_product. rewrite Hid, H3.
  cbn [apply_update pd_product p_created_at p_updated_at getitem bind].
  rewrite Hcreated. cbn [getitem bind].
  eexists. eexists. split; [reflexivity |].
  cbn [pv_doc pv_updated_at pd_product pd_is_active pd_image_urls p_sizes
       p_created_at p_updated_at p_name p_price p_description p_category p_brand
       p_tags].
  split; [exact H3 |]. split; [exact H2 |]. split; [exact H4 |].
  repeat split. exact Hcreated.
Qed.

Lemma update_product_is_partial_witness :
  exists store' view,
    update_product 2000 ProductScenario.store
      (Bson.str ProductScenario.tee_id) (ProductScenario.price_only 1500)
    = (Ok (Some view), store')
    /\ p_price (pd_product (pv_doc view)) = Some 1500
    /\ p_name (pd_product (pv_doc view)) = Some "Tee"
    /\ p_sizes (pd_product (pv_doc view)) = pc_sizes ProductScenario.tee
    /\ p_updated_at (pd_product (pv_doc view)) = Some 2000.
Proof.
  destruct (update_product_is_partial 2000 ProductScenario.store
              (Bson.str ProductScenario.tee_id) (ProductScenario.price_only 1500)
              ProductScenario.tee_id ProductScenario.stored_tee 1000
              eq_refl eq_refl eq_refl)
    as [store' [view [Hrun [_ [_ [_ [Hsizes [_ [_ [Hup [_ [Hname [Hprice _]]]]]]]]]]]]].
  exists store', view. repeat split; assumption.
Defined.

(** X18.  With unique identifiers in the collection, [delete_product]
    on the id of a stored product returns true and removes that product
    and no other: one product less is stored, [get_product] under the
    same id then returns [None], and every other identifier finds what
    it found before. *)
Theorem delete_product_removes_it {F : Type}
        (store : list (product_doc F)) (product_id : string)
        (oid : Bson.ObjectId) (d : product_doc F) :
  distinct (map (@pd_oid F) store) = true ->
  Bson.of_str product_id = Some oid ->
  find_product oid store = Some d ->
  exists store',
    delete_product store product_id = (true, store')
    /\ S (List.length store') = List.length store
    /\ find_product oid store' = None
    /\ get_product store' product_id = Ok None
    /\ forall oid', oid' <> oid -> find_product oid' store' = find_product oid' store.
Proof.
  intros Hdistinct Hid Hfind.
  destruct (delete_one_product_found oid store d Hdistinct Hfind) as [H1 [H2 [H3 H4]]].
  unfold delete_product, get_product. rewrite Hid.
  destruct (delete_one_product oid store) as [n store'].
  cbn [fst snd] in *. subst n.
  exists store'. split; [reflexivity |]. split; [exact H2 |]. split; [exact H3 |].
  rewrite H3. split; [reflexivity | exact H4].
Qed.

Lemma delete_product_removes_it_witness :
  exists store',
    delete_product ProductScenario.store (Bson.str ProductScenario.tee_id) = (true, store')
    /\ S (List.length store') = List.length ProductScenario.store
    /\ find_product ProductScenario.tee_id store' = None
    /\ get_product store' (Bson.str ProductScenario.tee_id) = Ok None
    /\ forall oid', oid' <> ProductScenario.tee_id ->
         find_product oid' store' = find_product oid' ProductScenario.store.
Proof.
  apply (delete_product_removes_it ProductScenario.store
           (Bson.str ProductScenario.tee_id) ProductScenario.tee_id
           ProductScenario.stored_tee); reflexivity.
Defined.

(** X19.  An id that is no identifier, or an identifier that no stored
    product has, is answered without an error and without a write by
    the three product operations: [get_product] and [update_product]
    return [None], [delete_product] returns false, the collection is as
    it was.  The routes turn the first into a 400 and the second into a
    404. *)
Theorem unknown_product_id {F : Type}
        (now : datetime) (store : list (product_doc F)) (product_id : string)
        (u : ProductUpdate F) :
  (Bson.of_str product_id = None
   \/ exists oid, Bson.of_str product_id = Some oid /\ find_product oid store = None) ->
  get_product store product_id = Ok None
  /\ update_product now store product_id u = (Ok None, store)
  /\ delete_product store product_id = (false, store)
  /\ ProductRoutes.get_product store product_id
     = Raise (HTTPException (if Bson.is_valid product_id then 404 else 400)
                (if Bson.is_valid product_id
                 then "Product not found" else "Invalid product ID format"))
  /\ ProductRoutes.delete_product store product_id
     = (Raise (HTTPException (if Bson.is_valid product_id then 404 else 400)
                 (if Bson.is_valid product_id
                  then "Product not found" else "Invalid product ID format")),
        store).
Proof.
  unfold ProductRoutes.get_product, ProductRoutes.delete_product, get_product,
    update_product, delete_product, Bson.is_valid.
  intros [Hinvalid | [oid [Hid Hnone]]].
  - rewrite Hinvalid. repeat split.
  - rewrite Hid, Hnone.
    rewrite (update_one_product_absent oid (apply_update now u) store Hnone).
    rewrite (delete_one_product_absent oid store Hnone).
    repeat split.
Qed.

Lemma unknown_product_id_witness :
  get_product ProductScenario.store "no-id" = Ok None
  /\ update_product 2000 ProductScenario.store "no-id" (ProductScenario.price_only 1)
     = (Ok None, ProductScenario.store)
  /\ delete_product ProductScenario.store "no-id" = (false, ProductScenario.store)
  /\ ProductRoutes.get_product ProductScenario.store "no-id"
     = Raise (HTTPException 400 "Invalid product ID format")
  /\ ProductRoutes.delete_product ProductScenario.store "no-id"
     = (Raise (HTTPException 400 "Invalid product ID format"), ProductScenario.store).
Proof.
  apply (unknown_product_id 2000 ProductScenario.store "no-id"
           (ProductScenario.price_only 1)).
  left. reflexivity.
Defined.

Example get_product_spaced_id :
  ProductRoutes.get_product ProductScenario.store BsonScenario.spaced_id
  = Raise (HTTPException 404 "Product not found").
Proof. reflexivity. Qed.


(** ** Listing products *)

Section ListProductsFacts.
Context {F : Type} {FO : FloatOps F} {RX : Regex}.

Lemma list_all_products (l : list (product F)) :
  forallb has_created_at l = true ->
  map_result list_product l = Ok (map listed l).
Proof.
  induction l as [| p l IH]; [reflexivity |].
  cbn [forallb map_result map]. intros H. apply andb_true_iff in H.
  destruct H as [Hp Hl]. rewrite (IH Hl).
  unfold list_product, listed, has_created_at in *.
  destruct (p_created_at p); [reflexivity | discriminate].
Qed.

Lemma forallb_sub {A : Type} (f : A -> bool) (l l' : list A) :
  (forall x, In x l' -> In x l) -> forallb f l = true -> forallb f l' = true.
Proof.
  intros Hsub Hall. apply forallb_forall. intros x Hx.
  rewrite forallb_forall in Hall. exact (Hall x (Hsub x Hx)).
Qed.
End ListProductsFacts.

(** X20.  For valid pagination params, products that all have a
    creation time, and a filter that does not ask for [in_stock = false]
    together with a search term, [list_products] returns at most
    [page_size] products, each of them a stored product that satisfies
    every supplied condition, and reports as [total_items] the number
    of stored products that satisfy them, whatever the page. *)
Theorem list_products_returns_matching {F : Type} {FO : FloatOps F} {RX : Regex}
        (products : list (product F)) (pagination : PaginationParams)
        (fp : ProductFilter F) :
  valid_params pagination ->
  forallb has_created_at products = true ->
  (pf_in_stock fp = Some false -> truthy_str (pf_search fp) = false) ->
  exists items meta,
    list_products products pagination fp = Ok (items, meta)
    /\ (List.length items <= Z.to_nat (page_size pagination))%nat
    /\ total_items meta
       = Z.of_nat (List.length (filter (product_satisfies fp) products))
    /\ forall item, In item items ->
         In (po_fields item) products
         /\ product_satisfies fp (po_fields item) = true
         /\ po_id item = Bson.str (product_oid (po_fields item)).
Proof.
  intros Hvalid Hcreated Hclash.
  assert (Hfind : find_products (list_products_query fp) products
                  = filter (product_satisfies fp) products).
  { unfold find_products. apply filter_ext. intros p.
    apply query_is_conjunction. exact Hclash. }
  unfold list_products. rewrite Hfind.
  set (cursor := window (skip pagination) (limit pagination)
                   (sort_cursor (@product_field F) (fst (sort_options fp))
                      (snd (sort_options fp))
                      (filter (product_satisfies fp) products))).
  assert (Hcursor : forall p, In p cursor ->
                              In p products /\ product_satisfies fp p = true).
  { intros p Hp. unfold cursor in Hp. apply window_In in Hp.
    apply sort_cursor_In in Hp. apply filter_In in Hp. exact Hp. }
  rewrite (list_all_products cursor).
  2:{ apply (forallb_sub has_created_at products cursor); [| exact Hcreated].
      intros p Hp. exact (proj1 (Hcursor p Hp)). }
  destruct (schemas_pagination_create_total pagination
              (Z.of_nat (List.length (filter (product_satisfies fp) products)))
              Hvalid) as [meta Hmeta].
  rewrite Hmeta. cbn [bind]. eexists. exists meta. split; [reflexivity |].
  split; [| split].
  - rewrite length_map. unfold cursor. apply window_length.
    destruct Hvalid as [_ [Hs _]]. unfold limit. lia.
  - unfold SchemasPagination.create in Hmeta.
    destruct (_ >? 0) in Hmeta.
    + destruct (floordiv _ _) in Hmeta; cbn [bind] in Hmeta; [| discriminate].
      injection Hmeta as <-. reflexivity.
    + cbn [bind] in Hmeta. injection Hmeta as <-. reflexivity.
  - intros item Hin. apply in_map_iff in Hin. destruct Hin as [p [<- Hp]].
    cbn [listed po_fields po_id]. destruct (Hcursor p Hp) as [H1 H2].
    repeat split; assumption.
Qed.

Lemma list_products_returns_matching_witness :
  let fp := without_in_stock (Scenario.out_of_stock_search "shirt") in
  exists items meta,
    list_products Scenario.catalog Scenario.first_page fp = Ok (items, meta)
    /\ (List.length items <= Z.to_nat 10)%nat
    /\ total_items meta
       = Z.of_nat (List.length (filter (product_satisfies fp) Scenario.catalog))
    /\ forall item, In item items ->
         In (po_fields item) Scenario.catalog
         /\ product_satisfies fp (po_fields item) = true
         /\ po_id item = Bson.str (product_oid (po_fields item)).
Proof.
  apply (list_products_returns_matching Scenario.catalog Scenario.first_page
           (without_in_stock (Scenario.out_of_stock_search "shirt"))).
  - unfold valid_params. simpl. lia.
  - reflexivity.
  - discriminate.
Defined.

(** ** [calculate_total_amount] *)

Section CalculateTotalFacts.
Context {F : Type} {FO : FloatOps F}.

Lemma find_size_offered (sizes : list size_entry) (size : option string) (s : size_entry) :
  size_info sizes size = Some s ->
  exists label, size = Some label
                /\ existsb (fun e => String.eqb (size_label e) label) sizes = true.
Proof.
  unfold size_info. destruct size as [label |]; [| discriminate].
  intros H. apply find_some in H. exists label. split; [reflexivity |].
  apply existsb_exists. exists s. exact H.
Qed.

Lemma total_of_ok (products : list (product F)) (items : list (item F)) :
  forall total t,
    total_of (product_map_of products) items total = Ok t ->
    exists amounts,
      Forall2 (line_amount products) items amounts
      /\ t = fold_left f_add amounts total.
Proof.
  induction items as [| it items IH]; intros total t H; cbn [total_of] in H.
  - injection H as <-. exists []. split; [constructor | reflexivity].
  - destruct (i_product_id it) as [pid |] eqn:Epid; cbn [getitem bind] in H;
      [| discriminate].
    destruct (i_quantity it) as [q |] eqn:Eq; cbn [getitem bind] in H;
      [| discriminate].
    destruct (dict_get pid (product_map_of products)) as [p |] eqn:Eget;
      [| discriminate].
    destruct (size_info (p_sizes p) (i_size it)) as [s |] eqn:Esize.
    + destruct (p_price p) as [price |] eqn:Eprice; cbn [getitem bind] in H;
        [| discriminate].
      unfold float_mul_int, float_of_int in H.
      destruct (fits_float q); cbn [bind] in H; [| discriminate].
      destruct (IH _ _ H) as [amounts [Hrel Ht]].
      destruct (product_map_of_sound products pid p Eget) as [Hin Hstr].
      destruct (find_size_offered _ _ _ Esize) as [label [Hlabel Hoffered]].
      exists (f_mul price (f_of_int q) :: amounts). split; [| exact Ht].
      constructor; [| exact Hrel].
      exists p, q, label, price. rewrite Hstr. repeat split; assumption.
    + destruct (p_name p); cbn [getitem bind] in H; discriminate.
Qed.
End CalculateTotalFacts.

(** X21.  [calculate_total_amount] returns a total only when every item
    carries a product id, a quantity and a size, the id is that of a
    product in the list, that product offers the size and has a price;
    the total is then the sum, from 0.0 and in the order of the items,
    of price times quantity, rounded once to two digits at the end. *)
Theorem calculate_total_amount_checks_sizes {F : Type} {FO : FloatOps F}
        (items : list (item F)) (products : list (product F)) (t : F) :
  calculate_total_amount items products = Ok t ->
  exists amounts,
    Forall2 (line_amount products) items amounts
    /\ t = f_round2 (fold_left f_add amounts f_zero).
Proof.
  unfold calculate_total_amount. intros H.
  destruct (total_of (product_map_of products) items f_zero) as [total |] eqn:E;
    cbn [bind] in H; [| discriminate].
  injection H as <-.
  destruct (total_of_ok products items f_zero total E) as [amounts [Hrel ->]].
  exists amounts. split; [exact Hrel | reflexivity].
Qed.

Lemma calculate_total_amount_checks_sizes_witness :
  exists amounts,
    Forall2 (line_amount Scenario.catalog)
      [Scenario.line Scenario.shirt_id "M" 2; Scenario.line Scenario.cap_id "L" 1] amounts
    /\ 7997 = f_round2 (fold_left f_add amounts f_zero).
Proof.
  apply (calculate_total_amount_checks_sizes
           [Scenario.line Scenario.shirt_id "M" 2; Scenario.line Scenario.cap_id "L" 1]
           Scenario.catalog 7997).
  reflexivity.
Defined.

(** A size the product does not offer is refused, which [create_order]
    does not do. *)
Example calculate_total_amount_unknown_size :
  calculate_total_amount [Scenario.line Scenario.shirt_id "XL" 2] Scenario.catalog
  = Raise (HTTPException 400 "Size 'XL' not available for product 'Shirt'.")
  /\ exists out orders',
       create_order Scenario.now (Scenario.oid Scenario.order_id) Scenario.catalog []
         (Scenario.request [Scenario.line Scenario.shirt_id "XL" 2]) = (Ok out, orders').
Proof. split; [reflexivity |]. eexists. eexists. reflexivity. Qed.

(** ** The items of an order read back *)

Section OrderItemsFacts.
Context {F : Type} {FO : FloatOps F}.

Lemma process_item_shown (it : item F) : shown_as it (process_item it).
Proof.
  unfold shown_as, process_item.
  cbn [i_product_id i_size i_quantity i_product_name i_price i_subtotal].
  repeat split; eauto.
  - intros n ->. reflexivity.
  - intros p ->. reflexivity.
  - intros s ->. reflexivity.
Qed.

Lemma process_item_idempotent (it : item F) :
  process_item (process_item it) = process_item it.
Proof. reflexivity. Qed.
End OrderItemsFacts.

(** X22.  For every stored order, the items [order_helper] returns are
    the stored items one for one and in order; each keeps its product
    id, size and quantity and whatever name, price and subtotal it was
    stored with, each has a name, a price and a subtotal, and passing
    the returned items through the adapter again changes nothing. *)
Theorem order_helper_items {F : Type} {FO : FloatOps F} (order : order_doc F) :
  Forall2 shown_as (get_default (o_items (order_fields order)) [])
    (out_items (order_helper order))
  /\ map process_item (out_items (order_helper order)) = out_items (order_helper order).
Proof.
  cbn [order_helper out_items].
  induction (get_default (o_items (order_fields order)) []) as [| it items [IH1 IH2]].
  - split; [constructor | reflexivity].
  - cbn [map]. split.
    + constructor; [apply process_item_shown | exact IH1].
    + rewrite process_item_idempotent, IH2. reflexivity.
Qed.

(** An item stored without a subtotal, as legacy orders are, is
    shown with [round(quantity * price, 2)], where the quantity is 1
    when the item has none and the price is the item's, else its
    ["unit_price"], else [float(0)]; its name is the item's
    ["product_name"], else its ["name"], else ["Unknown Product"]. *)
Lemma order_helper_legacy_item {F : Type} {FO : FloatOps F} (it : item F) :
  i_subtotal it = None ->
  let price :=
    match i_price it, i_unit_price it with
    | Some p, _ => p
    | None, Some p => p
    | None, None => f_of_int 0
    end in
  let quantity :=
    match i_quantity it with
    | Some q => q
    | None => 1
    end in
  i_subtotal (process_item it) = Some (f_round2 (f_mul (f_of_int quantity) price))
  /\ i_price (process_item it) = Some price
  /\ i_product_name (process_item it)
     = Some match i_product_name it, i_name it with
            | Some n, _ => n
            | None, Some n => n
            | None, None => "Unknown Product"
            end.
Proof.
  intros Hsub. cbv zeta. unfold process_item.
  cbn [i_subtotal i_price i_product_name]. rewrite Hsub.
  destruct (i_price it), (i_unit_price it), (i_quantity it), (i_product_name it),
    (i_name it); repeat split.
Qed.

(** ** [bson_utils] *)

Lemma lower_is_canonical (c : ascii) :
  Bson.is_hex c = true ->
  Bson.is_digit (Bson.lower c) || Bson.is_lower_hex (Bson.lower c) = true.
Proof.
  unfold Bson.is_hex, Bson.lower. intros H.
  destruct (Bson.is_upper_hex c) eqn:Eupper.
  - unfold Bson.is_upper_hex in Eupper. apply andb_true_iff in Eupper.
    destruct Eupper as [H1 H2]. apply Nat.leb_le in H1, H2.
    unfold Bson.is_digit, Bson.is_lower_hex.
    rewrite nat_ascii_embedding by lia.
    apply orb_true_iff. right. apply andb_true_iff.
    split; apply Nat.leb_le; lia.
  - rewrite orb_false_r in H. exact H.
Qed.

Lemma map_chars_length (f : ascii -> ascii) (s : string) :
  String.length (Bson.map_chars f s) = String.length s.
Proof. induction s as [| c s IH]; simpl; [reflexivity | rewrite IH; reflexivity]. Qed.

Lemma map_chars_lower_canonical (s : string) :
  Bson.all_chars Bson.is_hex s = true ->
  Bson.all_chars (fun c => Bson.is_digit c || Bson.is_lower_hex c)
    (Bson.map_chars Bson.lower s) = true.
Proof.
  induction s as [| c s IH]; simpl; intros H; [reflexivity |].
  apply andb_true_iff in H. destruct H as [Hc Hs].
  rewrite (lower_is_canonical c Hc), (IH Hs). reflexivity.
Qed.

(** An identifier built from 24 hexadecimal digits is printed in the
    canonical form, on which parsing is the inverse of printing. *)
Lemma of_str_digits (s : string) (o : Bson.ObjectId) :
  Bson.of_str s = Some o -> Bson.all_chars Bson.is_hex s = true ->
  Bson.wf o = true /\ Bson.str o = Bson.map_chars Bson.lower s.
Proof.
  unfold Bson.of_str, Bson.wf.
  destruct (String.length s =? 24)%nat eqn:Hlen; [| discriminate].
  intros H Hhex. rewrite (fromhex_digits s Hhex) in H.
  - injection H as <-. cbn [Bson.hex Bson.str]. split; [| reflexivity].
    rewrite map_chars_length, Hlen, (map_chars_lower_canonical s Hhex). reflexivity.
  - apply Nat.eqb_eq in Hlen. rewrite Hlen. reflexivity.
Qed.

(** [fromhex] reads no more characters than the string has, and fewer
    when some character is not a hexadecimal digit. *)
Lemma fromhex_length (s : string) :
  forall bytes, Bson.fromhex s = Some bytes ->
    (String.length bytes <= String.length s)%nat
    /\ (Bson.all_chars Bson.is_hex s = false ->
        (String.length bytes < String.length s)%nat).
Proof.
  induction s as [| c | c d s IHs IHd] using string_pair_ind; intros bytes.
  - cbn [Bson.fromhex]. intros [= <-]. split; [apply Nat.le_refl |].
    intros H. discriminate H.
  - cbn [Bson.fromhex]. destruct (Bson.is_space c); [| intros H; discriminate H].
    intros [= <-]. cbn [String.length]. split; [lia | intros _; lia].
  - change (Bson.fromhex (String c (String d s)))
      with (if Bson.is_space c then Bson.fromhex (String d s)
            else if Bson.is_hex c && Bson.is_hex d
                 then match Bson.fromhex s with
                      | Some bytes =>
                          Some (String (Bson.lower c) (String (Bson.lower d) bytes))
                      | None => None
                      end
                 else None).
    destruct (Bson.is_space c).
    + intros H. destruct (IHd bytes H) as [Hle _].
      cbn [String.length] in *. split; [lia | intros _; lia].
    + destruct (Bson.is_hex c) eqn:Hc; cbn [andb]; [| intros H; discriminate H].
      destruct (Bson.is_hex d) eqn:Hd; [| intros H; discriminate H].
      destruct (Bson.fromhex s) as [rest |] eqn:Hrest; [| intros H; discriminate H].
      intros [= <-]. destruct (IHs rest eq_refl) as [Hle Hlt].
      cbn [String.length Bson.all_chars]. rewrite Hc, Hd. cbn [andb].
      split; [lia |]. intros Hs. specialize (Hlt Hs). lia.
Qed.

(** X23.  [str_to_objectid] and [objectid_to_str] are inverse to each
    other on the store's identifiers; a string of 24 hexadecimal digits
    is accepted by [str_to_objectid], comes back from [objectid_to_str]
    in lower case, which is the string itself when it was in lower
    case, and is accepted again as the same identifier; an accepted
    string that is not 24 hexadecimal digits (it has whitespace in it)
    gives an identifier that prints to fewer than 24 characters, which
    [str_to_objectid] refuses; an identifier passed to
    [str_to_objectid] is returned as it is. *)
Theorem objectid_string_round_trip (o : Bson.ObjectId) (s : string) :
  (Bson.wf o = true -> str_to_objectid (IdStr (objectid_to_str o)) = Some o)
  /\ (String.length s = 24%nat -> Bson.all_chars Bson.is_hex s = true ->
      exists o', str_to_objectid (IdStr s) = Some o')
  /\ (str_to_objectid (IdStr s) = Some o ->
      (Bson.all_chars Bson.is_hex s = true ->
       Bson.wf o = true
       /\ objectid_to_str o = Bson.map_chars Bson.lower s
       /\ str_to_objectid (IdStr (objectid_to_str o)) = Some o)
      /\ (Bson.all_chars (fun c => Bson.is_digit c || Bson.is_lower_hex c) s = true ->
          objectid_to_str o = s)
      /\ (Bson.all_chars Bson.is_hex s = false ->
          (String.length (objectid_to_str o) < 24)%nat
          /\ str_to_objectid (IdStr (objectid_to_str o)) = None))
  /\ str_to_objectid (IdOid o) = Some o.
Proof.
  assert (Hback : Bson.wf o = true ->
                  str_to_objectid (IdStr (objectid_to_str o)) = Some o).
  { intros Hwf. unfold str_to_objectid, objectid_to_str, Bson.is_valid.
    rewrite (of_str_str o Hwf). reflexivity. }
  split; [exact Hback |]. split; [| split; [| reflexivity]].
  - intros Hlen Hhex. unfold str_to_objectid, Bson.is_valid, Bson.of_str.
    rewrite Hlen, (fromhex_digits s Hhex) by (rewrite Hlen; reflexivity).
    cbn [Nat.eqb]. eauto.
  - unfold str_to_objectid at 1, Bson.is_valid.
    destruct (Bson.of_str s) as [o' |] eqn:E; [| intros H; discriminate H].
    intros [= ->]. split; [| split].
    + intros Hhex. destruct (of_str_digits s o E Hhex) as [Hwf Hstr].
      split; [exact Hwf |]. split; [exact Hstr | exact (Hback Hwf)].
    + intros Hcanonical.
      destruct (canonical_string_fixed s Hcanonical) as [Hhex Hfix].
      destruct (of_str_digits s o E Hhex) as [_ Hstr].
      unfold objectid_to_str. rewrite Hstr. exact Hfix.
    + intros Hnot. unfold Bson.of_str in E.
      destruct (String.length s =? 24)%nat eqn:Hlen; [| discriminate E].
      destruct (Bson.fromhex s) as [bytes |] eqn:Hbytes; [| discriminate E].
      injection E as <-. apply Nat.eqb_eq in Hlen.
      destruct (fromhex_length s bytes Hbytes) as [_ Hlt].
      specialize (Hlt Hnot). rewrite Hlen in Hlt.
      unfold objectid_to_str, Bson.str. cbn [Bson.hex].
      split; [exact Hlt |].
      unfold str_to_objectid, Bson.is_valid, Bson.of_str.
      destruct (Nat.eqb_spec (String.length bytes) 24) as [E24 | _]; [lia |].
      reflexivity.
Qed.

(** A string of 24 characters that ends in two spaces is accepted and
    read to 11 bytes; what prints back is refused. *)
Example spaced_id_accepted_once :
  str_to_objectid (IdStr BsonScenario.spaced_id)
  = Some (Scenario.oid "64b7f0a1c2d3e4f5a6b7c8")
  /\ str_to_objectid (IdStr "64b7f0a1c2d3e4f5a6b7c8") = None.
Proof. split; reflexivity. Qed.

(** Induction on values, through dicts and lists. *)
Lemma pyval_nested_ind (P : pyval -> Prop) :
  P PNone -> (forall b, P (PBool b)) -> (forall n, P (PInt n)) ->
  (forall s, P (PStr s)) -> (forall o, P (POid o)) ->
  (forall d, Forall (fun kv => P (snd kv)) d -> P (PDict d)) ->
  (forall l, Forall P l -> P (PList l)) ->
  forall v, P v.
Proof.
  intros Hnone Hbool Hint Hstr Hoid Hdict Hlist.
  fix IH 1. intros [| b | n | s | o | d | l].
  - exact Hnone.
  - apply Hbool.
  - apply Hint.
  - apply Hstr.
  - apply Hoid.
  - apply Hdict. induction d as [| [k v] d IHd]; constructor; [apply IH | exact IHd].
  - apply Hlist. induction l as [| v l IHl]; constructor; [apply IH | exact IHl].
Qed.

Lemma convert_value_list (l : list pyval) :
  convert_value (PList l) = PList (map convert_item l).
Proof.
  cbn [convert_value]. f_equal. apply map_ext. intros [| | | | | |]; reflexivity.
Qed.

Lemma prepare_value_list (key : string) (l : list pyval) :
  prepare_value key (PList l) = PList (map (prepare_item key) l).
Proof.
  cbn [prepare_value]. f_equal. apply map_ext. intros [| | | | | |]; reflexivity.
Qed.

Lemma convert_value_dict (d : list (string * pyval)) :
  convert_value (PDict d) = PDict (convert_objectids_to_str d).
Proof. reflexivity. Qed.

Lemma prepare_value_dict (key : string) (d : list (string * pyval)) :
  prepare_value key (PDict d) = PDict (prepare_for_mongo_query d).
Proof. reflexivity. Qed.

Lemma convert_value_idempotent (v : pyval) :
  convert_value (convert_value v) = convert_value v.
Proof.
  induction v as [| b | n | s | o | d IH | l IH] using pyval_nested_ind;
    try reflexivity.
  - rewrite !convert_value_dict. f_equal. unfold convert_objectids_to_str.
    rewrite map_map. apply map_ext_in. intros [k v] Hin. cbn [fst snd].
    rewrite Forall_forall in IH. pose proof (IH (k, v) Hin) as H.
    cbn [snd] in H. rewrite H. reflexivity.
  - rewrite !convert_value_list. f_equal. rewrite map_map.
    apply map_ext_in. intros item Hin. rewrite Forall_forall in IH.
    specialize (IH item Hin).
    destruct item; try reflexivity.
    unfold convert_item at 2 3.
    change (convert_item (convert_value (PDict d)))
      with (convert_value (convert_value (PDict d))).
    exact IH.
Qed.

Lemma convert_value_oid_free (v : pyval) :
  lists_flat v = true -> oid_free (convert_value v) = true.
Proof.
  induction v as [| b | n | s | o | d IH | l IH] using pyval_nested_ind;
    try reflexivity.
  - rewrite convert_value_dict. cbn [lists_flat oid_free]. intros Hflat.
    unfold convert_objectids_to_str. rewrite forallb_forall in *.
    intros kv Hin. apply in_map_iff in Hin. destruct Hin as [[k v] [<- Hin]].
    cbn [fst snd]. rewrite Forall_forall in IH.
    exact (IH (k, v) Hin (Hflat (k, v) Hin)).
  - rewrite convert_value_list. cbn [lists_flat oid_free]. intros Hflat.
    rewrite forallb_forall in *. intros x Hin.
    apply in_map_iff in Hin. destruct Hin as [item [<- Hin]].
    rewrite Forall_forall in IH. specialize (IH item Hin).
    specialize (Hflat item Hin). apply andb_true_iff in Hflat.
    destruct Hflat as [Hnot Hflat].
    destruct item; try reflexivity.
    + exact (IH Hflat).
    + discriminate.
Qed.

(** X24.  [convert_objectids_to_str] keeps the keys of the dict in
    their order, and converting twice is converting once; when no list
    is directly an item of a list, it leaves no identifier anywhere in
    the result.  (A list that is an item of a list is passed on as it
    is, identifiers included.) *)
Theorem convert_objectids_to_str_result (data : list (string * pyval)) :
  map fst (convert_objectids_to_str data) = map fst data
  /\ convert_objectids_to_str (convert_objectids_to_str data)
     = convert_objectids_to_str data
  /\ (forallb (fun kv => lists_flat (snd kv)) data = true ->
      forallb (fun kv => oid_free (snd kv)) (convert_objectids_to_str data) = true)
  /\ forall l, convert_objectids_to_str [("k", PList [PList l])] = [("k", PList [PList l])].
Proof.
  split; [| split; [| split]].
  - unfold convert_objectids_to_str. rewrite map_map. apply map_ext. reflexivity.
  - pose proof (convert_value_idempotent (PDict data)) as H.
    rewrite !convert_value_dict in H. injection H as H. exact H.
  - intros Hflat. pose proof (convert_value_oid_free (PDict data) Hflat) as H.
    rewrite convert_value_dict in H. exact H.
  - reflexivity.
Qed.

Lemma prepare_convert_value (v : pyval) :
  forall key, round_trips key v = true -> prepare_value key (convert_value v) = v.
Proof.
  induction v as [| b | n | s | o | d IH | l IH] using pyval_nested_ind;
    intros key Hrt; try reflexivity.
  - cbn [round_trips leaf_round_trips] in Hrt. cbn [convert_value prepare_value].
    unfold id_of_string, Bson.is_valid in *.
    destruct (String.eqb key "_id"); [| reflexivity].
    destruct (Bson.of_str s); [discriminate | reflexivity].
  - cbn [round_trips leaf_round_trips] in Hrt. apply andb_true_iff in Hrt.
    destruct Hrt as [Hkey Hwf]. cbn [convert_value prepare_value].
    unfold id_of_string. rewrite Hkey, (of_str_str o Hwf). reflexivity.
  - rewrite convert_value_dict, prepare_value_dict. f_equal.
    unfold prepare_for_mongo_query, convert_objectids_to_str. rewrite map_map.
    cbn [round_trips] in Hrt. rewrite forallb_forall in Hrt.
    rewrite <- (map_id d) at 2. apply map_ext_in. intros [k v] Hin. cbn [fst snd].
    rewrite Forall_forall in IH. pose proof (IH (k, v) Hin k (Hrt (k, v) Hin)) as H.
    cbn [snd] in H. rewrite H. reflexivity.
  - rewrite convert_value_list, prepare_value_list. f_equal. rewrite map_map.
    cbn [round_trips] in Hrt. rewrite forallb_forall in Hrt.
    rewrite <- (map_id l) at 2. apply map_ext_in. intros item Hin.
    rewrite Forall_forall in IH. specialize (IH item Hin key).
    specialize (Hrt item Hin).
    destruct item; try reflexivity.
    + exact (IH Hrt).
    + exact (IH Hrt).
    + change (prepare_item key (convert_item (PDict d)))
        with (prepare_value key (convert_value (PDict d))).
      apply IH. exact Hrt.
Qed.

(** X25.  [prepare_for_mongo_query] undoes [convert_objectids_to_str]
    on every dict whose identifiers stand under an ["_id"] key,
    directly or as items of a list, inside any nesting of dicts and of
    lists of dicts, and come from the store, and in which no string
    under an ["_id"] key reads as an identifier. *)
Theorem prepare_undoes_convert (data : list (string * pyval)) :
  forallb (fun kv => round_trips (fst kv) (snd kv)) data = true ->
  prepare_for_mongo_query (convert_objectids_to_str data) = data.
Proof.
  intros Hrt.
  pose proof (prepare_convert_value (PDict data) "" Hrt) as H.
  rewrite convert_value_dict, prepare_value_dict in H. injection H as H. exact H.
Qed.

Lemma prepare_undoes_convert_witness :
  prepare_for_mongo_query (convert_objectids_to_str BsonScenario.document)
  = BsonScenario.document.
Proof. apply (prepare_undoes_convert BsonScenario.document). reflexivity. Defined.

(** ** The existence check, whatever the catalog *)

(** X26.  Whatever the catalog and the ids requested,
    [check_products_exist] accounts for every requested id: it is
    reported missing, or it is the printed id of a record returned, and
    never both; every record returned is a catalog record whose
    identifier a requested id parses to; and the missing ids are
    requested ids, in the order and number they were requested. *)
Theorem check_products_exist_accounts_for_all {F : Type}
        (products : list (product F)) (pids : list string) :
  let found := fst (check_products_exist products pids) in
  let missing := snd (check_products_exist products pids) in
  (forall pid, In pid pids ->
     (In pid missing /\ ~ exists p, In p found /\ Bson.str (product_oid p) = pid)
     \/ (~ In pid missing /\ exists p, In p found /\ Bson.str (product_oid p) = pid))
  /\ (forall p, In p found ->
        In p products
        /\ exists pid, In pid pids /\ Bson.of_str pid = Some (product_oid p))
  /\ (exists keep, missing = filter keep pids)
  /\ (List.length found <= List.length pids)%nat.
Proof.
  cbv zeta. split; [| split; [| split]].
  - intros pid Hin.
    destruct (existsb (String.eqb pid)
                (map (fun p => Bson.str (product_oid p))
                   (fst (check_products_exist products pids)))) eqn:E.
    + right. apply existsb_exists in E. destruct E as [x [Hx Hxe]].
      apply String.eqb_eq in Hxe. subst x. apply in_map_iff in Hx.
      destruct Hx as [p [Hstr Hp]].
      assert (Hex : exists p, In p (fst (check_products_exist products pids))
                              /\ Bson.str (product_oid p) = pid) by eauto.
      split; [| exact Hex].
      intros Hmiss. apply missing_In in Hmiss. tauto.
    + left.
      assert (Hno : ~ exists p, In p (fst (check_products_exist products pids))
                                /\ Bson.str (product_oid p) = pid).
      { intros [p [Hp Hstr]].
        assert (E' : existsb (String.eqb pid)
                       (map (fun p => Bson.str (product_oid p))
                          (fst (check_products_exist products pids))) = true).
        { apply existsb_exists. exists pid. split; [| apply String.eqb_refl].
          apply in_map_iff. exists p. tauto. }
        rewrite E' in E. discriminate. }
      split; [| exact Hno]. apply missing_In. tauto.
  - intros p Hp. split; [exact (found_in_catalog products pids p Hp) |].
    unfold check_products_exist in Hp. cbn [fst] in Hp.
    apply in_firstn in Hp. apply filter_In in Hp. destruct Hp as [_ Hid].
    unfold id_in in Hid.
    apply (oid_in_In (valid_object_ids pids) (product_oid p)) in Hid.
    apply valid_object_ids_In in Hid. exact Hid.
  - unfold check_products_exist. cbn [snd]. eexists. reflexivity.
  - unfold check_products_exist. cbn [fst].
    etransitivity; [apply firstn_le_length |].
    unfold valid_object_ids. induction pids as [| pid pids IH]; [apply le_n |].
    cbn [flat_map]. rewrite length_app.
    destruct (Bson.of_str pid); simpl; lia.
Qed.

(** ** What [create_order] can do to the collection *)

Section CreateOrderOutcomes.
Context {F : Type} {FO : FloatOps F} {RX : Regex}.

Lemma reraise_http_codes {A : Type} (e : exn) :
  (forall c d, e = HTTPException c d -> c = 400 \/ c = 404) ->
  exists c d, @reraise_http A (Raise e) = Raise (HTTPException c d)
              /\ (c = 400 \/ c = 404 \/ c = 500).
Proof.
  intros He. destruct e as [c d | | k | | |]; cbn [reraise_http];
    [exists c, d; split; [reflexivity |]; destruct (He c d eq_refl); tauto | ..];
    exists 500, "Internal server error"; tauto.
Qed.

Lemma map_result_getitem_raise {A B : Type} (key : string) (f : A -> option B)
      (l : list A) (e : exn) :
  map_result (fun a => getitem key (f a)) l = Raise e -> e = KeyError key.
Proof.
  induction l as [| a l IH]; cbn [map_result]; [discriminate |].
  destruct (f a); cbn [getitem bind].
  - destruct (map_result _ l); cbn [bind]; [discriminate |].
    intros [= <-]. apply IH. reflexivity.
  - intros [= <-]. reflexivity.
Qed.

Lemma enrich_items_raise (m : dict (product F)) (items : list (item F)) :
  forall subtotal e,
    enrich_items m items subtotal = Raise e ->
    (exists key, e = KeyError key) \/ e = OverflowError.
Proof.
  induction items as [| it items IH]; intros subtotal e; cbn [enrich_items];
    [discriminate |].
  destruct (i_product_id it); cbn [getitem bind]; [| intros [= <-]; eauto].
  destruct (dict_get s m).
  - destruct (i_quantity it) as [q |]; cbn [getitem bind]; [| intros [= <-]; eauto].
    rewrite enrich_item_run.
    destruct (fits_float q); cbn [bind]; [| intros [= <-]; right; reflexivity].
    destruct (enrich_items m items _) eqn:E; cbn [bind]; [discriminate |].
    intros [= <-]. exact (IH _ _ E).
  - destruct (enrich_items m items subtotal) eqn:E; cbn [bind]; [discriminate |].
    intros [= <-]. exact (IH _ _ E).
Qed.

Lemma priced_order_raise (now : datetime) (products : list (product F))
      (data : order_data F) (e : exn) :
  priced_order now products data = Raise e ->
  forall c d, e = HTTPException c d -> c = 400 \/ c = 404.
Proof.
  unfold priced_order. rewrite validate_order_data_spec.
  destruct (structurally_invalid data); cbn [bind].
  - intros [= <-] c d [= <- _]. left. reflexivity.
  - unfold resolve_and_price.
    destruct (map_result _ _) as [pids | e'] eqn:Eids; cbn [bind].
    + destruct (check_products_exist products pids) as [found missing].
      destruct missing.
      * destruct (enrich_items _ _ _) as [priced | e'] eqn:Eenrich; cbn [bind];
          [discriminate |].
        intros [= <-] c d ->.
        destruct (enrich_items_raise _ _ _ _ Eenrich) as [[key Hkey] | Hkey];
          discriminate.
      * intros [= <-] c d [= <- _]. right. reflexivity.
    + intros [= <-] c d ->.
      pose proof (map_result_getitem_raise _ _ _ _ Eids). discriminate.
Qed.
End CreateOrderOutcomes.

(** X27.  Whatever the request, the catalog and the collection,
    [create_order] either returns an order and has appended exactly one
    document, under the identifier drawn, or raises and has left the
    collection as it was; what it raises is an [HTTPException] with
    status 400, 404 or 500. *)
Theorem create_order_all_or_nothing {F : Type} {FO : FloatOps F} {RX : Regex}
        (now : datetime) (new_id : Bson.ObjectId)
        (products : list (product F)) (orders : list (order_doc F))
        (data : order_data F) :
  (exists out stored,
     create_order now new_id products orders data = (Ok out, (orders ++ [stored])%list)
     /\ order_oid stored = new_id
     /\ out = order_helper stored)
  \/ (exists c d,
        create_order now new_id products orders data
        = (Raise (HTTPException c d), orders)
        /\ (c = 400 \/ c = 404 \/ c = 500)).
Proof.
  unfold create_order.
  destruct (priced_order now products data) as [priced | e] eqn:E.
  - destruct (fresh_id orders new_id) eqn:Hfresh.
    + left. rewrite (insert_and_read_fresh new_id orders priced Hfresh).
      eexists. eexists. split; [reflexivity |]. split; reflexivity.
    + right. unfold insert_and_read, insert_one. unfold fresh_id in Hfresh.
      apply negb_false_iff in Hfresh. rewrite Hfresh.
      exists 500, "Internal server error". split; [reflexivity | tauto].
  - right. rewrite insert_and_read_raise.
    destruct (@reraise_http_codes (order_out F) e (priced_order_raise now products data e E))
      as [c [d [Hr Hc]]].
    exists c, d. rewrite Hr. split; [reflexivity | exact Hc].
Qed.

(** ** The default address of a user *)

Lemma find_first {A : Type} (f : A -> bool) (l : list A) (a : A) :
  find f l = Some a ->
  f a = true
  /\ exists before after,
       l = (before ++ a :: after)%list /\ forallb (fun x => negb (f x)) before = true.
Proof.
  induction l as [| x l IH]; cbn [find]; [discriminate |].
  destruct (f x) eqn:E.
  - intros [= <-]. split; [exact E |]. exists [], l. split; reflexivity.
  - intros H. destruct (IH H) as [Ha [before [after [-> Hb]]]].
    split; [exact Ha |]. exists (x :: before), after. split; [reflexivity |].
    cbn [forallb]. rewrite E, Hb. reflexivity.
Qed.

Lemma find_none_existsb {A : Type} (f : A -> bool) (l : list A) :
  find f l = None -> existsb f l = false.
Proof.
  induction l as [| x l IH]; cbn [find existsb]; [reflexivity |].
  destruct (f x); [discriminate |]. exact IH.
Qed.

(** X28.  [get_default_address] returns [None] exactly when the user
    has no address; otherwise it returns one of the user's addresses:
    the first that is marked default when [has_default_address] holds,
    and the first address when none is marked. *)
Theorem get_default_address_choice (self : User) :
  (get_default_address self = None <-> u_addresses self = [])
  /\ forall addr, get_default_address self = Some addr ->
       In addr (u_addresses self)
       /\ (has_default_address self = true ->
           a_is_default addr = true
           /\ exists before after,
                u_addresses self = (before ++ addr :: after)%list
                /\ forallb (fun a => negb (a_is_default a)) before = true)
       /\ (has_default_address self = false ->
           exists rest, u_addresses self = addr :: rest).
Proof.
  unfold get_default_address, has_default_address.
  destruct (find a_is_default (u_addresses self)) as [a |] eqn:Efind.
  - destruct (find_first _ _ _ Efind) as [Ha [before [after [Hl Hb]]]].
    split.
    + split; [discriminate |]. intros Hnil. rewrite Hnil in Efind. discriminate.
    + intros addr [= <-]. split; [| split].
      * rewrite Hl. apply in_or_app. right. left. reflexivity.
      * intros _. split; [exact Ha |]. exists before, after. tauto.
      * intros Hnone.
        assert (E : existsb a_is_default (u_addresses self) = true).
        { apply existsb_exists. exists a. split; [| exact Ha].
          rewrite Hl. apply in_or_app. right. left. reflexivity. }
        rewrite E in Hnone. discriminate.
  - pose proof (find_none_existsb _ _ Efind) as Hnone.
    destruct (u_addresses self) as [| first rest].
    + split; [tauto |]. discriminate.
    + split; [split; discriminate |].
      intros addr [= <-]. split; [left; reflexivity |]. split.
      * intros H. rewrite Hnone in H. discriminate.
      * intros _. exists rest. reflexivity.
Qed.
